(** * Dialogue memory and RAG chunker of Open-LLM-VTuber: a shallow embedding

    The development follows the Python sources

      - [src/open_llm_vtuber/rag/chroma_rag.py]:
        [ChromaRAG._chunk_text] (module [Chunker]) and
        [ChromaRAG.query] (module [ChromaRAG]);
      - [src/open_llm_vtuber/rag/dialogue_memory.py]:
        the class [DialogueMemory] (module [DialogueMemory]);
      - [src/open_llm_vtuber/rag/memory_processor.py]:
        [process_memory_background] (module [MemoryProcessor]).

    Python [str] values are lists of Unicode code points and Python
    [int] values are [Z].  A [while] loop is a recursion on fuel whose
    [None] means that the loop is still running.  A call that may
    raise returns a [result].  What a function reads from its
    environment ([uuid.uuid4()], [datetime.utcnow()], the conversion
    of a local time to a timestamp) is an argument.
    The ChromaDB collection, the chat history and the LLM are the
    collaborators of the code; the collection is modelled in module
    [Chroma], the other two are parameters. *)

From Stdlib Require Import String Ascii DecimalString.
From Stdlib Require Import ZArith NArith List Bool Lia.
From Stdlib Require Import Sorting.Permutation.
Import ListNotations.

Open Scope Z_scope.

Set Warnings "-register-all".

(* ================================================================= *)
(** ** Python strings *)

Module PyStr.

(** A character is a Unicode code point. *)
Definition char := N.
Definition str := list char.

(** [str.isspace] on one code point: the table CPython's [str.strip()]
    uses when it is called without arguments. *)
Definition isspace (c : char) : bool :=
  (((9 <=? c) && (c <=? 13)) || ((28 <=? c) && (c <=? 32))
   || (c =? 133) || (c =? 160) || (c =? 5760)
   || ((8192 <=? c) && (c <=? 8202))
   || (c =? 8232) || (c =? 8233) || (c =? 8239)
   || (c =? 8287) || (c =? 12288))%N.

Fixpoint lstrip (s : str) : str :=
  match s with
  | [] => []
  | c :: s' => if isspace c then lstrip s' else s
  end.

Definition rstrip (s : str) : str := rev (lstrip (rev s)).

(** [s.strip()] *)
Definition strip (s : str) : str := rstrip (lstrip s).

(** [len(s)] *)
Definition len {A} (s : list A) : Z := Z.of_nat (length s).

(** Truthiness of a string: [bool(s)]. *)
Definition truthy {A} (s : list A) : bool :=
  match s with [] => false | _ => true end.

(** Index adjustment of a slice bound, as [PySlice_AdjustIndices]
    does it for step 1: a negative bound counts from the end, and
    the result is clamped to [0 .. len]. *)
Definition adjust (n i : Z) : Z :=
  if i <? 0 then (if i + n <? 0 then 0 else i + n)
  else if n <=? i then n else i.

(** [s[start:stop]] *)
Definition slice {A} (s : list A) (start stop : Z) : list A :=
  let a := adjust (len s) start in
  let b := adjust (len s) stop in
  firstn (Z.to_nat (b - a)) (skipn (Z.to_nat a) s).

(** [s[-k:]] for [k >= 1] (the last [k] elements). *)
Definition suffix_from {A} (s : list A) (start : Z) : list A :=
  skipn (Z.to_nat (adjust (len s) start)) s.

(** ASCII literals, for examples. *)
Definition lit (s : string) : str :=
  map N_of_ascii (list_ascii_of_string s).

(** [sep.join(parts)] *)
Fixpoint join (sep : str) (parts : list str) : str :=
  match parts with
  | [] => []
  | [p] => p
  | p :: ps => p ++ sep ++ join sep ps
  end.

End PyStr.

Import PyStr.

(* ================================================================= *)
(** ** The chunker: [ChromaRAG._chunk_text] *)

Module Chunker.

(** The [while start < len(text)] loop.  [fuel] bounds the number of
    iterations that are run; [None] is returned when the loop has
    not finished after [fuel] of them. *)
Fixpoint chunk_loop (fuel : nat) (text : str)
         (chunk_size chunk_overlap : Z)
         (start : Z) (chunks : list str) : option (list str) :=
  match fuel with
  | O => None
  | S fuel' =>
      if start <? len text then
        let end_ := start + chunk_size in
        let chunk := slice text start end_ in
        let chunks := chunks ++ [chunk] in
        let start := end_ - chunk_overlap in
        if len text <=? start then Some chunks
        else chunk_loop fuel' text chunk_size chunk_overlap start chunks
      else Some chunks
  end.

Definition _chunk_text_fuel (fuel : nat) (text : str)
           (chunk_size chunk_overlap : Z) : option (list str) :=
  let text := strip text in
  if negb (truthy text) then Some []
  else chunk_loop fuel text chunk_size chunk_overlap 0 [].

(** The chunker run with as many iterations as the trimmed text has
    characters, which is enough whenever the window advances. *)
Definition _chunk_text (text : str) (chunk_size chunk_overlap : Z)
  : option (list str) :=
  _chunk_text_fuel (length (strip text)) text chunk_size chunk_overlap.

(** The window the [k]-th iteration cuts out of the trimmed text. *)
Definition window (text : str) (chunk_size chunk_overlap : Z) (k : nat)
  : str :=
  let start := Z.of_nat k * (chunk_size - chunk_overlap) in
  slice text start (start + chunk_size).

(** Concatenation with the leading [overlap] characters of every
    chunk but the first removed. *)
Definition unoverlap (overlap : Z) (chunks : list str) : str :=
  match chunks with
  | [] => []
  | c :: cs => c ++ concat (map (skipn (Z.to_nat overlap)) cs)
  end.

(** Every chunk except the last has length [n]. *)
Fixpoint all_but_last_have_length (n : Z) (chunks : list str) : bool :=
  match chunks with
  | [] => true
  | [_] => true
  | c :: cs => (len c =? n) && all_but_last_have_length n cs
  end.

End Chunker.

Import Chunker.

(* ================================================================= *)
(** ** Exceptions and results *)

(** An exception that [except Exception] catches, that is, an
    instance of a subclass of Python's [Exception]: the class name and
    the message.  Every failure of the store, of the chat history and
    of the LLM is of this kind.  The signals that derive from
    [BaseException] only (interpreter exit, cancellation) are
    not failures of a collaborator and are not modelled. *)
Inductive exn : Type :=
| PyException (cls : string) (msg : string).

Inductive result (A : Type) : Type :=
| Ok (a : A)
| Raise (e : exn).

Arguments Ok {A} a.
Arguments Raise {A} e.

Definition is_ok {A} (r : result A) : bool :=
  match r with Ok _ => true | Raise _ => false end.

(** Value equality of strings ([==]). *)
Fixpoint str_eqb (a b : str) : bool :=
  match a, b with
  | [], [] => true
  | x :: a', y :: b' => (x =? y)%N && str_eqb a' b'
  | _, _ => false
  end.

Fixpoint str_in (a : str) (l : list str) : bool :=
  match l with
  | [] => false
  | b :: l' => str_eqb a b || str_in a l'
  end.

(** No string occurs twice in the list. *)
Fixpoint all_distinct (l : list str) : bool :=
  match l with
  | [] => true
  | a :: l' => negb (str_in a l') && all_distinct l'
  end.

(* ================================================================= *)
(** ** The vector store: a ChromaDB collection

    The collection is the external collaborator of both stores.  It
    is modelled as the list of its records in insertion order; the
    embedding and the nearest-neighbour search are a parameter
    [rank], which orders the candidate records of a query,
    most similar first. *)

Module Chroma.

Section Collection.

(** The type of a record's metadata. *)
Variable Meta : Type.

Record Entry : Type := mkEntry {
  entry_id : str;
  document : str;
  metadata : Meta
}.

Definition Collection := list Entry.

Definition ids (c : Collection) : list str := map entry_id c.

(** [collection.count()] *)
Definition count (c : Collection) : Z := len c.

(** [collection.add(documents=[doc], ids=[id], metadatas=[meta])]:
    a record whose id the collection already holds is ignored. *)
Definition add (id doc : str) (meta : Meta) (c : Collection)
  : Collection :=
  if str_in id (ids c) then c else c ++ [mkEntry id doc meta].

(** [collection.get(where=w)]: the records the filter selects. *)
Definition get (w : Meta -> bool) (c : Collection) : list Entry :=
  filter (fun e => w (metadata e)) c.

(** The records a deletion of the identifiers [l] leaves. *)
Definition remove (l : list str) (c : Collection) : Collection :=
  filter (fun e => negb (str_in (entry_id e) l)) c.

(** [collection.delete(ids=l)].  ChromaDB validates the identifiers
    before it deletes: an empty list and a list that names an
    identifier twice are rejected, and the collection is left as it
    was.  An identifier the collection does not hold is accepted and
    removes nothing. *)
Definition delete (l : list str) (c : Collection) : result Collection :=
  if negb (truthy l) then
    Raise (PyException "ValueError" "Expected IDs to be a non-empty list")
  else if negb (all_distinct l) then
    Raise (PyException "DuplicateIDError" "Expected IDs to be unique")
  else Ok (remove l c).

(** [collection.query(query_texts=[q], n_results=n, where=w)].
    A [where] argument is given as the collection's validation sees
    it: the predicate on metadata it denotes, or the error the
    validation raises for a dict that is not a filter.  ChromaDB
    validates its arguments before it searches: it raises for a
    [where] it rejects, and for an [n_results] that is zero or
    negative; otherwise the [n] best candidates among the selected
    records are returned. *)
Definition query (rank : str -> list Entry -> list Entry)
           (q : str) (n_results : Z) (w : option (result (Meta -> bool)))
           (c : Collection) : result (list Entry) :=
  match w with
  | Some (Raise e) => Raise e
  | _ =>
      if n_results <=? 0 then
        Raise (PyException "TypeError"
                 "Number of requested results cannot be negative, or zero.")
      else
        let candidates :=
          match w with Some (Ok f) => get f c | _ => c end in
        Ok (firstn (Z.to_nat n_results) (rank q candidates))
  end.

(** Identifiers are unique in a collection. *)
Definition wf (c : Collection) : Prop := NoDup (ids c).

End Collection.

Arguments mkEntry {Meta} _ _ _.
Arguments entry_id {Meta} _.
Arguments document {Meta} _.
Arguments metadata {Meta} _.
Arguments ids {Meta} _.
Arguments count {Meta} _.
Arguments add {Meta} _ _ _ _.
Arguments get {Meta} _ _.
Arguments remove {Meta} _ _.
Arguments delete {Meta} _ _.
Arguments query {Meta} _ _ _ _ _.
Arguments wf {Meta} _.

End Chroma.

(* ================================================================= *)
(** ** [ChromaRAG.query]: the knowledge collection *)

Module ChromaRAG.

Section Query.

Variable Meta : Type.
Variable rank : str -> list (Chroma.Entry Meta) -> list (Chroma.Entry Meta).

Definition query (query_text : str) (n_results : Z)
           (where_ : option (result (Meta -> bool)))
           (c : Chroma.Collection Meta) : result (list str) :=
  let count := Chroma.count c in
  if count =? 0 then Ok []
  else
    let n := Z.min n_results count in
    if n <=? 0 then Ok []
    else
      match Chroma.query rank query_text n where_ c with
      | Raise e => Raise e
      | Ok results =>
          let documents := map Chroma.document results in
          if negb (truthy documents) then Ok [] else Ok documents
      end.

End Query.

Arguments query {Meta} _ _ _ _ _.

Section AddDocuments.

Variable Meta : Type.

(** The empty metadata dict [{}]. *)
Variable empty_meta : Meta.

(** [self._collection.add(documents=..., ids=..., metadatas=...)], the
    batch write of the collection. *)
Variable collection_add :
  list str -> list str -> list Meta -> Chroma.Collection Meta
  -> result unit * Chroma.Collection Meta.

(** [add_documents].  [uuid4 k] is the identifier the [k]-th call of
    [uuid.uuid4()] returns. *)
Definition add_documents (uuid4 : nat -> str) (documents : list str)
           (ids : option (list str)) (metadatas : option (list Meta))
           (c : Chroma.Collection Meta)
  : result Z * Chroma.Collection Meta :=
  if negb (truthy documents) then (Ok 0, c)
  else
    let ids :=
      match ids with
      | Some l => l
      | None => map uuid4 (seq 0 (length documents))
      end in
    let metadatas :=
      match metadatas with
      | Some l => l
      | None => map (fun _ => empty_meta) documents
      end in
    if negb (len ids =? len documents)
       || negb (len metadatas =? len documents)
    then (Raise (PyException "ValueError"
                   "documents, ids, and metadatas must have same length"),
          c)
    else
      match collection_add documents ids metadatas c with
      | (Raise e, c') => (Raise e, c')
      | (Ok _, c') => (Ok (len documents), c')
      end.

End AddDocuments.

Arguments add_documents {Meta} _ _ _ _ _ _ _.

(** The metadata [add_documents_from_directory] writes. *)
Record ChunkMeta : Type := mkChunkMeta {
  source : str;
  chunk_index : Z
}.

(** What [path.rglob("*")] yields for one entry of the directory:
    [str(file_path)], [file_path.suffix.lower()] and the result of
    [file_path.read_text(encoding="utf-8", errors="ignore")]. *)
Record DirEntry : Type := mkDirEntry {
  file_path : str;
  suffix_lower : str;
  read_text : result str
}.

(** [enumerate(chunks)] paired with the source. *)
Fixpoint index_chunks (src : str) (i : Z) (chunks : list str)
  : list (str * ChunkMeta) :=
  match chunks with
  | [] => []
  | ch :: rest => (ch, mkChunkMeta src i) :: index_chunks src (i + 1) rest
  end.

(** The [for file_path in path.rglob("*")] loop: the chunks and their
    metadata, in order.  [None] when a chunker run does not finish
    with the given fuel. *)
Fixpoint collect_chunks (fuel : nat) (entries : list DirEntry)
         (extensions : list str) (chunk_size chunk_overlap : Z)
  : option (list (str * ChunkMeta)) :=
  match entries with
  | [] => Some []
  | f :: rest =>
      if negb (str_in (suffix_lower f) extensions) then
        collect_chunks fuel rest extensions chunk_size chunk_overlap
      else
        match read_text f with
        | Raise _ =>
            collect_chunks fuel rest extensions chunk_size chunk_overlap
        | Ok text =>
            match Chunker._chunk_text_fuel fuel text chunk_size
                    chunk_overlap with
            | None => None
            | Some chunks =>
                match collect_chunks fuel rest extensions chunk_size
                        chunk_overlap with
                | None => None
                | Some more => Some (index_chunks (file_path f) 0 chunks
                                     ++ more)
                end
            end
        end
  end.

Section Ingest.

Variable collection_add :
  list str -> list str -> list ChunkMeta -> Chroma.Collection ChunkMeta
  -> result unit * Chroma.Collection ChunkMeta.

(** [add_documents_from_directory].  [is_dir] is [path.is_dir()] and
    [entries] is what [path.rglob("*")] yields.  The message of the
    [FileNotFoundError] goes on to name the directory; the text kept
    here is its fixed part. *)
Definition add_documents_from_directory (fuel : nat) (uuid4 : nat -> str)
           (is_dir : bool) (entries : list DirEntry)
           (extensions : list str) (chunk_size chunk_overlap : Z)
           (c : Chroma.Collection ChunkMeta)
  : option (result Z * Chroma.Collection ChunkMeta) :=
  if negb is_dir then
    Some (Raise (PyException "FileNotFoundError" "Directory not found"), c)
  else
    match collect_chunks fuel entries extensions chunk_size chunk_overlap
    with
    | None => None
    | Some all =>
        let all_chunks := map fst all in
        let all_metadatas := map snd all in
        if negb (truthy all_chunks) then Some (Ok 0, c)
        else
          (* metadatas are given, so the stand-in for [{}] is not used *)
          Some (add_documents (mkChunkMeta [] 0) collection_add uuid4
                     all_chunks None (Some all_metadatas) c)
    end.

End Ingest.

End ChromaRAG.

(* ================================================================= *)
(** ** [DialogueMemory]: the memory store *)

Module DialogueMemory.

Definition ROLE_USER : str := lit "user".
Definition ROLE_ASSISTANT : str := lit "assistant".
Definition ROLE_FACT : str := lit "fact".
Definition ROLE_SUMMARY : str := lit "summary".
Definition ROLE_USER_PROFILE : str := lit "user_profile".

(** Roles that are never deleted by cleanup. *)
Definition PERSISTENT_ROLES : list str := [ROLE_FACT; ROLE_USER_PROFILE].

(** The five roles the docstring of [add_item] lists. *)
Definition KNOWN_ROLES : list str :=
  [ROLE_USER; ROLE_ASSISTANT; ROLE_FACT; ROLE_SUMMARY; ROLE_USER_PROFILE].

(** The metadata dict every record is written with. *)
Record Metadata : Type := mkMeta {
  md_role : str;
  md_history_uid : str;
  md_conf_uid : str;
  md_timestamp : Z
}.

Abbreviation Item := (Chroma.Entry Metadata).
Abbreviation Store := (list (Chroma.Entry Metadata)).

(** *** Metadata filters ([where] dicts) *)

Inductive Key : Type := K_role | K_history_uid | K_conf_uid | K_timestamp.

Inductive Value : Type := VStr (s : str) | VInt (n : Z).

Inductive Where : Type :=
| W_eq (k : Key) (v : Value)          (* {k: v} *)
| W_in (k : Key) (vs : list str)      (* {k: {"$in": vs}} *)
| W_nin (k : Key) (vs : list str)     (* {k: {"$nin": vs}} *)
| W_lt (k : Key) (n : Z)              (* {k: {"$lt": n}} *)
| W_and (ws : list Where).            (* {"$and": ws} *)

Definition field (m : Metadata) (k : Key) : Value :=
  match k with
  | K_role => VStr (md_role m)
  | K_history_uid => VStr (md_history_uid m)
  | K_conf_uid => VStr (md_conf_uid m)
  | K_timestamp => VInt (md_timestamp m)
  end.

Definition value_eqb (a b : Value) : bool :=
  match a, b with
  | VStr x, VStr y => str_eqb x y
  | VInt x, VInt y => x =? y
  | _, _ => false
  end.

Fixpoint eval_where (w : Where) (m : Metadata) : bool :=
  match w with
  | W_eq k v => value_eqb (field m k) v
  | W_in k vs =>
      match field m k with VStr s => str_in s vs | VInt _ => false end
  | W_nin k vs =>
      match field m k with VStr s => negb (str_in s vs) | VInt _ => true end
  | W_lt k n =>
      match field m k with VInt z => z <? n | VStr _ => false end
  | W_and ws => forallb (fun w' => eval_where w' m) ws
  end.

(** Truthiness of an optional argument ([str | None], [list | None]). *)
Definition opt_truthy {A} (o : option (list A)) : bool :=
  match o with Some l => truthy l | None => false end.

Definition opt_get {A} (o : option (list A)) : list A :=
  match o with Some l => l | None => [] end.

(** *** Writes *)

(** [add_item].  [doc_id] is the value [uuid.uuid4()] returns and
    [now] is [int(datetime.utcnow().timestamp())]. *)
Definition add_item (doc_id : str) (now : Z)
           (role content history_uid conf_uid : str) (st : Store)
  : result str * Store :=
  if negb (truthy content) || negb (truthy (strip content)) then
    (Ok [], st)
  else
    let metadata := mkMeta role history_uid conf_uid now in
    (Ok doc_id, Chroma.add doc_id (strip content) metadata st).

(** *** Reads *)

(** The [where] filter [query] builds. *)
Definition query_where (history_uid conf_uid : option str)
           (roles : option (list str)) : option Where :=
  let where_parts :=
    (if opt_truthy history_uid
     then [W_eq K_history_uid (VStr (opt_get history_uid))] else [])
    ++ (if opt_truthy conf_uid
        then [W_eq K_conf_uid (VStr (opt_get conf_uid))] else [])
    ++ (if opt_truthy roles
        then [W_in K_role (opt_get roles)] else []) in
  match where_parts with
  | [] => None
  | [w] => Some w
  | _ => Some (W_and where_parts)
  end.

Definition query (rank : str -> list Item -> list Item)
           (query_text : str) (n_results : Z)
           (history_uid conf_uid : option str)
           (roles : option (list str)) (st : Store)
  : result (list (str * str * Metadata)) :=
  let count := Chroma.count st in
  if count =? 0 then Ok []
  else
    let where_filter := query_where history_uid conf_uid roles in
    match Chroma.query rank query_text (Z.min n_results count)
            (option_map (fun w => Ok (eval_where w)) where_filter) st with
    | Raise e => Raise e
    | Ok results =>
        Ok (map (fun e => (Chroma.document e, Chroma.entry_id e,
                           Chroma.metadata e))
              (filter (fun e => truthy (Chroma.document e)) results))
    end.

(** [paired.sort(key=timestamp, reverse=True)]: a stable sort,
    largest timestamp first, equal timestamps in their given order. *)
Fixpoint insert_desc (x : Item) (l : list Item) : list Item :=
  match l with
  | [] => [x]
  | y :: l' =>
      if md_timestamp (Chroma.metadata x) <? md_timestamp (Chroma.metadata y)
      then y :: insert_desc x l'
      else x :: l
  end.

Fixpoint sort_desc (l : list Item) : list Item :=
  match l with
  | [] => []
  | x :: l' => insert_desc x (sort_desc l')
  end.

Definition scope_where (r : str) (history_uid conf_uid : str) : Where :=
  W_and ([W_eq K_role (VStr r); W_eq K_history_uid (VStr history_uid)]
         ++ (if truthy conf_uid
             then [W_eq K_conf_uid (VStr conf_uid)] else [])).

Definition get_all_facts (history_uid conf_uid : str) (limit : Z)
           (st : Store) : list str :=
  let results := Chroma.get (eval_where
                               (scope_where ROLE_FACT history_uid conf_uid))
                   st in
  if negb (truthy results) then []
  else
    let paired := sort_desc results in
    filter (@truthy _)
      (map (fun p => strip (Chroma.document p)) (slice paired 0 limit)).

Definition get_user_profile (history_uid conf_uid : str) (st : Store)
  : str :=
  let results :=
    Chroma.get (eval_where
                  (scope_where ROLE_USER_PROFILE history_uid conf_uid))
      st in
  match sort_desc results with
  | [] => []
  | p :: _ => strip (Chroma.document p)
  end.

(** The records [get_user_profile] reads: the [user_profile] items of
    the scope, in the order the collection returns them. *)
Definition profile_items (history_uid conf_uid : str) (st : Store)
  : list Item :=
  Chroma.get (eval_where (scope_where ROLE_USER_PROFILE history_uid conf_uid))
    st.

Definition ts (e : Item) : Z := md_timestamp (Chroma.metadata e).

(** *** Profile writes *)

Definition set_user_profile (doc_id : str) (now : Z)
           (history_uid conf_uid content : str) (st : Store)
  : result unit * Store :=
  if negb (truthy content) || negb (truthy (strip content)) then
    (Ok tt, st)
  else
    match add_item doc_id now ROLE_USER_PROFILE (strip content)
            history_uid conf_uid st with
    | (Ok _, st') => (Ok tt, st')
    | (Raise e, st') => (Raise e, st')
    end.

Definition add_to_user_profile (doc_id : str) (now : Z)
           (history_uid conf_uid new_fact : str) (st : Store)
  : result unit * Store :=
  if negb (truthy new_fact) || negb (truthy (strip new_fact)) then
    (Ok tt, st)
  else
    let current := get_user_profile history_uid conf_uid st in
    let merged :=
      if truthy current
      then current ++ lit (String "010" "- ") ++ strip new_fact
      else lit "- " ++ strip new_fact in
    match add_item doc_id now ROLE_USER_PROFILE merged
            history_uid conf_uid st with
    | (Ok _, st') => (Ok tt, st')
    | (Raise e, st') => (Raise e, st')
    end.

(** *** Retention *)

Definition SECONDS_PER_DAY : Z := 86400.

(** The [where] filter of the retention sweep. *)
Definition cleanup_where (cutoff : Z) (history_uid : option str)
           (exclude : list str) : Where :=
  W_and ([W_lt K_timestamp cutoff]
         ++ (if opt_truthy history_uid
             then [W_eq K_history_uid (VStr (opt_get history_uid))]
             else [])
         ++ [W_nin K_role exclude]).

(** The clock of the sweep.  [datetime.utcnow()] is a naive datetime,
    a wall-clock reading between [datetime.min] and [datetime.max]
    with a resolution of one microsecond; it is modelled by the number
    of microseconds from 0001-01-01T00:00:00 to the reading, a number
    from 0 up to, not including, [DATETIME_RANGE]. *)
Definition MICROSECONDS_PER_SECOND : Z := 1000000.

Definition MICROSECONDS_PER_DAY : Z :=
  SECONDS_PER_DAY * MICROSECONDS_PER_SECOND.

(** [date.max.toordinal()]: the days of the years 1 to 9999. *)
Definition MAX_ORDINAL : Z := 3652059.

Definition DATETIME_RANGE : Z := MAX_ORDINAL * MICROSECONDS_PER_DAY.

(** The largest number of days of a [timedelta]. *)
Definition MAX_DELTA_DAYS : Z := 999999999.

(** [timedelta(days=days)], in microseconds. *)
Definition timedelta (days : Z) : result Z :=
  if (days <? - MAX_DELTA_DAYS) || (MAX_DELTA_DAYS <? days) then
    Raise (PyException "OverflowError"
             ("days=" ++ NilZero.string_of_int (Z.to_int days)
              ++ "; must have magnitude <= 999999999"))
  else Ok (days * MICROSECONDS_PER_DAY).

(** [dt - delta] on a naive datetime. *)
Definition datetime_sub (dt delta : Z) : result Z :=
  let t := dt - delta in
  if (t <? 0) || (DATETIME_RANGE <=? t) then
    Raise (PyException "OverflowError" "date value out of range")
  else Ok t.

(** [int((datetime.utcnow() - timedelta(days=days)).timestamp())].
    [timestamp()] reads a naive datetime as local time: its value
    depends on the time zone of the process and on what the platform
    can convert, and is a float.  [stamp t] is what
    [int(dt.timestamp())] gives for the naive datetime [t], or the
    error it raises. *)
Definition cutoff_time (stamp : Z -> result Z) (utcnow days : Z)
  : result Z :=
  match timedelta days with
  | Raise e => Raise e
  | Ok delta =>
      match datetime_sub utcnow delta with
      | Raise e => Raise e
      | Ok t => stamp t
      end
  end.

(** [delete_older_than_days].  [utcnow] is the reading of
    [datetime.utcnow()] and [stamp] the conversion of the platform,
    as for [cutoff_time].  [exclude_roles] is the optional set of
    roles, as the list of its members.  An error of the clock
    arithmetic or of the collection leaves the store as it was. *)
Definition delete_older_than_days (stamp : Z -> result Z)
           (utcnow : Z) (days : Z)
           (history_uid : option str)
           (exclude_roles : option (list str)) (st : Store)
  : result Z * Store :=
  let exclude :=
    if opt_truthy exclude_roles then opt_get exclude_roles
    else PERSISTENT_ROLES in
  match cutoff_time stamp utcnow days with
  | Raise e => (Raise e, st)
  | Ok cutoff =>
      let where_filter := cleanup_where cutoff history_uid exclude in
      let ids := Chroma.ids (Chroma.get (eval_where where_filter) st) in
      if negb (truthy ids) then (Ok 0, st)
      else
        match Chroma.delete ids st with
        | Raise e => (Raise e, st)
        | Ok st' => (Ok (len ids), st')
        end
  end.

(** [count] *)
Definition count (st : Store) : Z := Chroma.count st.

(** The condition of the retention sweep, written on an item. *)
Definition expired (cutoff : Z) (history_uid : option str)
           (exclude : list str) (e : Item) : bool :=
  (md_timestamp (Chroma.metadata e) <? cutoff)
  && (if opt_truthy history_uid
      then str_eqb (md_history_uid (Chroma.metadata e)) (opt_get history_uid)
      else true)
  && negb (str_in (md_role (Chroma.metadata e)) exclude).

(** The content invariant of the data model: what is stored is
    trimmed and not empty. *)
Definition content_ok (e : Item) : Prop :=
  strip (Chroma.document e) = Chroma.document e
  /\ Chroma.document e <> [].

(** *** Logging, inspection and bulk removal *)

Definition PREVIEW_LEN : Z := 50.

(** [_preview]: the text a log line shows. *)
Definition _preview (text : str) : str :=
  let s := strip text in
  if len s <=? PREVIEW_LEN then s
  else slice s 0 PREVIEW_LEN ++ lit "...".

(** [delete_by_ids] *)
Definition delete_by_ids (ids : list str) (st : Store)
  : result Z * Store :=
  if negb (truthy ids) then (Ok 0, st)
  else
    let valid := filter (@truthy _) ids in
    if negb (truthy valid) then (Ok 0, st)
    else
      match Chroma.delete valid st with
      | Raise e => (Raise e, st)
      | Ok st' => (Ok (len valid), st')
      end.

(** The [where] filter of [delete_all]:
    [where_parts[0] if len(where_parts) == 1 else {"$and": where_parts}]. *)
Definition character_where (conf_uid : str) (history_uid : option str)
  : Where :=
  let where_parts :=
    [W_eq K_conf_uid (VStr conf_uid)]
    ++ (if opt_truthy history_uid
        then [W_eq K_history_uid (VStr (opt_get history_uid))] else []) in
  match where_parts with
  | [w] => w
  | _ => W_and where_parts
  end.

(** [delete_all] *)
Definition delete_all (conf_uid : str) (history_uid : option str)
           (st : Store) : result Z * Store :=
  let ids :=
    Chroma.ids (Chroma.get (eval_where (character_where conf_uid history_uid))
                  st) in
  if negb (truthy ids) then (Ok 0, st)
  else
    match Chroma.delete ids st with
    | Raise e => (Raise e, st)
    | Ok st' => (Ok (len ids), st')
    end.

(** An entry of the list [list_items] returns. *)
Record Listed : Type := mkListed {
  li_id : str;
  li_content : str;
  li_role : str;
  li_timestamp : Z
}.

(** [out.sort(key=timestamp, reverse=True)] on the listed entries. *)
Fixpoint insert_listed (x : Listed) (l : list Listed) : list Listed :=
  match l with
  | [] => [x]
  | y :: l' =>
      if li_timestamp x <? li_timestamp y then y :: insert_listed x l'
      else x :: l
  end.

Fixpoint sort_listed (l : list Listed) : list Listed :=
  match l with
  | [] => []
  | x :: l' => insert_listed x (sort_listed l')
  end.

(** The [where] filter of [list_items]. *)
Definition list_where (conf_uid : str) (history_uid role : option str)
  : Where :=
  let where_parts :=
    [W_eq K_conf_uid (VStr conf_uid)]
    ++ (if opt_truthy history_uid
        then [W_eq K_history_uid (VStr (opt_get history_uid))] else [])
    ++ (if opt_truthy role
        then [W_eq K_role (VStr (opt_get role))] else []) in
  match where_parts with
  | [w] => w
  | _ => W_and where_parts
  end.

(** [list_items].  [page limit l] is what the collection makes of the
    [limit] argument of [collection.get]: the records it returns out
    of the selected ones [l]. *)
Definition list_items (page : Z -> list Item -> list Item)
           (conf_uid : str) (history_uid role : option str) (limit : Z)
           (st : Store) : list Listed :=
  let results :=
    page limit
      (Chroma.get (eval_where (list_where conf_uid history_uid role)) st) in
  let out :=
    map (fun e => mkListed (Chroma.entry_id e) (strip (Chroma.document e))
                    (md_role (Chroma.metadata e))
                    (md_timestamp (Chroma.metadata e)))
      results in
  slice (sort_listed out) 0 limit.

(** The facts of a scope, as [get_all_facts] selects them. *)
Definition fact_items (history_uid conf_uid : str) (st : Store)
  : list Item :=
  Chroma.get (eval_where (scope_where ROLE_FACT history_uid conf_uid)) st.

(** Does the item belong to the scope a read is made for?  An empty
    [conf_uid] puts no condition on the character. *)
Definition in_scope (r history_uid conf_uid : str) (e : Item) : Prop :=
  md_role (Chroma.metadata e) = r
  /\ md_history_uid (Chroma.metadata e) = history_uid
  /\ (conf_uid <> [] -> md_conf_uid (Chroma.metadata e) = conf_uid).

(** Largest timestamp first. *)
Fixpoint newest_first (l : list Z) : Prop :=
  match l with
  | [] => True
  | x :: l' => (forall y, In y l' -> y <= x) /\ newest_first l'
  end.

End DialogueMemory.

(* ================================================================= *)
(** ** [process_memory_background]: the consolidation scheduler *)

Module MemoryProcessor.

Definition FACT_EXTRACT_EVERY : Z := 3.
Definition SUMMARY_EVERY : Z := 6.

(** The prompt constants of the module.  Their text is only handed
    to the LLM, so a constant is represented by its name. *)
Inductive SystemPrompt : Type :=
| FACT_EXTRACTION_SYSTEM
| SUMMARY_SYSTEM
| PROFILE_UPDATE_SYSTEM
| PROFILE_MERGE_SYSTEM.

(** A message of the chat history, as [get_history] returns it. *)
Record HistoryMessage : Type := mkHistoryMessage {
  msg_role : str;
  msg_content : str
}.

(** A message handed to the LLM. *)
Record LLMMessage : Type := mkLLMMessage {
  llm_role : str;
  llm_content : str
}.

Definition LABEL_USER : str :=
  [1055; 1086; 1083; 1100; 1079; 1086; 1074; 1072; 1090; 1077; 1083;
   1100]%N.
Definition LABEL_ASSISTANT : str :=
  [1040; 1089; 1089; 1080; 1089; 1090; 1077; 1085; 1090]%N.
Definition DIALOG_HEADER : str :=
  [1044; 1080; 1072; 1083; 1086; 1075; 58; 10]%N.
Definition FACTS_HEADER : str :=
  [1060; 1072; 1082; 1090; 1099; 32; 40; 1089; 1074; 1077; 1088; 1093;
   1091; 32; 8212; 32; 1085; 1086; 1074; 1077; 1077; 41; 58; 10]%N.

Definition NEWLINE : str := [10%N].

(** The cadence conditions of the two [if] statements. *)
Definition fact_extraction_due (message_count : Z) : bool :=
  (FACT_EXTRACT_EVERY <=? message_count)
  && ((message_count - FACT_EXTRACT_EVERY) mod FACT_EXTRACT_EVERY =? 0).

Definition summary_due (message_count : Z) : bool :=
  (SUMMARY_EVERY <=? message_count)
  && ((message_count - SUMMARY_EVERY) mod SUMMARY_EVERY =? 0).

(** [re.split(r"[\n•\-]", s)] *)
Definition is_delimiter (c : char) : bool :=
  ((c =? 10) || (c =? 8226) || (c =? 45))%N.

Fixpoint re_split (s : str) : list str :=
  match s with
  | [] => [[]]
  | c :: s' =>
      if is_delimiter c then [] :: re_split s'
      else match re_split s' with
           | [] => [[c]]
           | x :: xs => (c :: x) :: xs
           end
  end.

(** The list comprehension that turns the LLM's answer into facts. *)
Definition parse_facts (facts_text : str) : list str :=
  map strip
    (filter (fun f => truthy (strip f) && (3 <? len (strip f)))
       (re_split facts_text)).

Definition render_message (m : HistoryMessage) : str :=
  (if str_eqb (msg_role m) (lit "human")
   then LABEL_USER else LABEL_ASSISTANT)
  ++ lit ": " ++ msg_content m.

Definition user_message (content : str) : list LLMMessage :=
  [mkLLMMessage (lit "user") content].

Section Process.

(** The state of everything outside the function: the store, the
    chat history, the LLM. *)
Variable W : Type.

(** A call that reads and writes the world and may raise. *)
Definition M (A : Type) : Type := W -> result A * W.

Definition ret {A} (a : A) : M A := fun w => (Ok a, w).

Definition bind {A B} (m : M A) (k : A -> M B) : M B :=
  fun w =>
    match m w with
    | (Ok a, w') => k a w'
    | (Raise e, w') => (Raise e, w')
    end.

(** [try: body / except Exception as e: handler(e)] *)
Definition try_except {A} (body : M A) (handler : exn -> M A) : M A :=
  fun w =>
    match body w with
    | (Ok a, w') => (Ok a, w')
    | (Raise e, w') => handler e w'
    end.

(** [for x in l: body(x)] *)
Fixpoint for_each {A} (l : list A) (body : A -> M unit) : M unit :=
  match l with
  | [] => ret tt
  | x :: l' => bind (body x) (fun _ => for_each l' body)
  end.

(** [logger.info] and [logger.warning] *)
Definition log : M unit := ret tt.

(** The methods of [DialogueMemory] the function calls. *)
Record Memory : Type := mkMemory {
  add_item : str -> str -> str -> str -> M str;
  get_all_facts : str -> str -> M (list str);
  set_user_profile : str -> str -> str -> M unit
}.

(** [get_history(conf_uid, history_uid)] *)
Variable get_history : str -> str -> M (list HistoryMessage).

Local Notation "x <- c ;; k" := (bind c (fun x => k))
  (at level 61, c at next level, right associativity).
Local Notation "c ;;; k" := (bind c (fun _ => k))
  (at level 61, right associativity).

Definition merge_profile
           (llm_prompt_fn : list LLMMessage -> SystemPrompt -> M str)
           (dm : Memory) (conf_uid history_uid : str)
           (all_facts : list str) : M unit :=
  let merge_prompt :=
    FACTS_HEADER
    ++ join NEWLINE (map (fun f => lit "- " ++ f) (slice all_facts 0 30))
  in
  try_except
    (merged_profile <-
       llm_prompt_fn (user_message merge_prompt) PROFILE_MERGE_SYSTEM ;;
     if truthy merged_profile && truthy (strip merged_profile) then
       set_user_profile dm history_uid conf_uid merged_profile ;;; log
     else ret tt)
    (fun _ => log).

Definition extract_facts
           (llm_prompt_fn : list LLMMessage -> SystemPrompt -> M str)
           (dm : Memory) (conf_uid history_uid dialog_text : str)
  : M unit :=
  try_except
    (facts_text <-
       llm_prompt_fn (user_message (DIALOG_HEADER ++ dialog_text))
         FACT_EXTRACTION_SYSTEM ;;
     if truthy facts_text && truthy (strip facts_text) then
       let facts := parse_facts facts_text in
       for_each (slice facts 0 10)
         (fun fact =>
            add_item dm (lit "fact") fact history_uid conf_uid ;;;
            ret tt) ;;;
       all_facts <- get_all_facts dm history_uid conf_uid ;;
       (if truthy all_facts
        then merge_profile llm_prompt_fn dm conf_uid history_uid all_facts
        else ret tt) ;;;
       log
     else ret tt)
    (fun _ => log).

Definition summarize
           (llm_prompt_fn : list LLMMessage -> SystemPrompt -> M str)
           (dm : Memory) (conf_uid history_uid dialog_text : str)
  : M unit :=
  try_except
    (summary_text <-
       llm_prompt_fn (user_message (DIALOG_HEADER ++ dialog_text))
         SUMMARY_SYSTEM ;;
     if truthy summary_text && truthy (strip summary_text) then
       add_item dm (lit "summary") (strip summary_text)
         history_uid conf_uid ;;;
       log
     else ret tt)
    (fun _ => log).

Definition process_memory_background
           (conf_uid history_uid : str)
           (dialogue_memory : option Memory)
           (llm_prompt_fn : list LLMMessage -> SystemPrompt -> M str)
           (message_count : Z) : M unit :=
  match dialogue_memory with
  | None => ret tt
  | Some dm =>
      if negb (truthy history_uid) || negb (truthy conf_uid) then ret tt
      else
        try_except
          (messages_raw <- get_history conf_uid history_uid ;;
           if negb (truthy messages_raw) then ret tt
           else
             let last_n := Z.min 10 (len messages_raw) in
             let recent := suffix_from messages_raw (- last_n) in
             let dialog_text :=
               join NEWLINE (map render_message recent) in
             if negb (truthy (strip dialog_text)) then ret tt
             else
               (if fact_extraction_due message_count
                then extract_facts llm_prompt_fn dm
                       conf_uid history_uid dialog_text
                else ret tt) ;;;
               (if summary_due message_count
                then summarize llm_prompt_fn dm
                       conf_uid history_uid dialog_text
                else ret tt))
          (fun _ => log)
  end.

End Process.

Arguments ret {W A} _ _.
Arguments bind {W A B} _ _ _.
Arguments try_except {W A} _ _ _.
Arguments for_each {W A} _ _ _.
Arguments mkMemory {W} _ _ _.
Arguments add_item {W} _ _ _ _ _ _.
Arguments get_all_facts {W} _ _ _ _.
Arguments set_user_profile {W} _ _ _ _ _.
Arguments log {W} _.
Arguments merge_profile {W} _ _ _ _ _ _.
Arguments extract_facts {W} _ _ _ _ _ _.
Arguments summarize {W} _ _ _ _ _ _.
Arguments process_memory_background {W} _ _ _ _ _ _ _.

End MemoryProcessor.

(* ================================================================= *)
(** ** The scheduler run against the memory store

    The world of this instance holds the store, the number of write
    calls made so far (which indexes the identifiers and clock
    readings the environment supplies) and the system prompts of the
    LLM calls made so far, oldest first. *)

Module Instrumented.

Import MemoryProcessor.

Record World : Type := mkWorld {
  store : DialogueMemory.Store;
  ticks : nat;
  llm_calls : list SystemPrompt
}.

Section Env.

Variable uuid4 : nat -> str.
Variable utcnow : nat -> Z.
(** The LLM: any function of the calls made before and of its
    arguments, returning a text or raising. *)
Variable llm : list SystemPrompt -> list LLMMessage -> SystemPrompt
               -> result str.
Variable history : str -> str -> result (list HistoryMessage).

Definition written (st : DialogueMemory.Store) (w : World) : World :=
  mkWorld st (S (ticks w)) (llm_calls w).

Definition memory : Memory World :=
  mkMemory
    (fun role content history_uid conf_uid w =>
       let r := DialogueMemory.add_item (uuid4 (ticks w))
                  (utcnow (ticks w)) role content history_uid conf_uid
                  (store w) in
       (fst r, written (snd r) w))
    (fun history_uid conf_uid w =>
       (Ok (DialogueMemory.get_all_facts history_uid conf_uid 50
              (store w)), w))
    (fun history_uid conf_uid content w =>
       let r := DialogueMemory.set_user_profile (uuid4 (ticks w))
                  (utcnow (ticks w)) history_uid conf_uid content
                  (store w) in
       (fst r, written (snd r) w)).

Definition llm_prompt_fn (messages : list LLMMessage)
           (system : SystemPrompt) (w : World) : result str * World :=
  (llm (llm_calls w) messages system,
   mkWorld (store w) (ticks w) (llm_calls w ++ [system])).

Definition get_history (conf_uid history_uid : str) (w : World)
  : result (list HistoryMessage) * World :=
  (history conf_uid history_uid, w).

Definition run (conf_uid history_uid : str) (message_count : Z)
           (w : World) : result unit * World :=
  process_memory_background get_history conf_uid history_uid
    (Some memory) llm_prompt_fn message_count w.

End Env.

Definition prompt_eqb (a b : SystemPrompt) : bool :=
  match a, b with
  | FACT_EXTRACTION_SYSTEM, FACT_EXTRACTION_SYSTEM => true
  | SUMMARY_SYSTEM, SUMMARY_SYSTEM => true
  | PROFILE_UPDATE_SYSTEM, PROFILE_UPDATE_SYSTEM => true
  | PROFILE_MERGE_SYSTEM, PROFILE_MERGE_SYSTEM => true
  | _, _ => false
  end.

(** Was the LLM called with this system prompt? *)
Definition called (p : SystemPrompt) (w : World) : bool :=
  existsb (prompt_eqb p) (llm_calls w).

(** [m] ends normally in a world whose LLM calls are those of [w]
    followed by [l]. *)
Definition effect (m : M World unit) (w : World)
           (l : list SystemPrompt) : Prop :=
  exists w', m w = (Ok tt, w') /\ llm_calls w' = llm_calls w ++ l.

(** An item as a run of the scheduler writes it: of the given role,
    in the scope of the run, with trimmed content that is not empty. *)
Definition wrote (r history_uid conf_uid : str)
           (e : Chroma.Entry DialogueMemory.Metadata) : Prop :=
  DialogueMemory.md_role (Chroma.metadata e) = r
  /\ DialogueMemory.md_history_uid (Chroma.metadata e) = history_uid
  /\ DialogueMemory.md_conf_uid (Chroma.metadata e) = conf_uid
  /\ DialogueMemory.content_ok e.

(** [m] ends normally and leaves the store of [w] with the items
    [new] appended. *)
Definition appends (m : M World unit) (w : World)
           (new : list (Chroma.Entry DialogueMemory.Metadata)) : Prop :=
  exists w', m w = (Ok tt, w') /\ store w' = store w ++ new.

End Instrumented.

(* ================================================================= *)
(** ** The memory context of a conversation turn

    The block of [process_single_conversation] that builds
    [memory_context] from the user profile and the similar facts and
    summaries. *)

Module Conversation.

Import DialogueMemory.

Section Retrieval.

Variable rank : str -> list Item -> list Item.

(** The four text literals of the block: the heading of the profile,
    the prefixes of a fact and of a summary, and the heading of the
    list of similar items. *)
Variables PROFILE_HEADING FACT_PREFIX SUMMARY_PREFIX MEMORY_HEADING : str.

Definition render_similar (x : str * str * Metadata) : str :=
  let '(content, _, meta) := x in
  if str_eqb (md_role meta) (lit "fact") then FACT_PREFIX ++ content
  else if str_eqb (md_role meta) (lit "summary")
       then SUMMARY_PREFIX ++ content
       else content.

(** The list [memory_context] after the block.  What was appended
    before a failure stays in the list; the handler only logs. *)
Definition memory_context (dialogue_memory : option Store)
           (history_uid conf_uid input_text : str) (mem_n : Z)
  : list str :=
  match dialogue_memory with
  | None => []
  | Some st =>
      if truthy history_uid && truthy (strip input_text) then
        let profile := get_user_profile history_uid conf_uid st in
        let ctx :=
          if truthy profile then [PROFILE_HEADING ++ profile] else [] in
        match query rank (strip input_text) mem_n (Some history_uid)
                (Some conf_uid) (Some [lit "fact"; lit "summary"]) st with
        | Raise _ => ctx
        | Ok similar =>
            if truthy similar
            then ctx ++ [MEMORY_HEADING
                         ++ join MemoryProcessor.NEWLINE
                              (map render_similar similar)]
            else ctx
        end
      else []
  end.

End Retrieval.

End Conversation.

(* ================================================================= *)
(** ** Sample stores *)

Module Samples.

Import DialogueMemory.

Definition item (id : string) (doc : string) (r : str) (h c : string)
           (ts : Z) : Item :=
  Chroma.mkEntry (lit id) (lit doc) (mkMeta r (lit h) (lit c) ts).

(** A store that holds one fact. *)
Definition one_fact : Store :=
  [item "id-1" "Likes tea" ROLE_FACT "h" "c" 100].

(** A store with one item of every role, all written at second 100,
    and a second thread. *)
Definition mixed : Store :=
  [item "id-1" "hello" ROLE_USER "h" "c" 100;
   item "id-2" "hi there" ROLE_ASSISTANT "h" "c" 100;
   item "id-3" "Likes tea" ROLE_FACT "h" "c" 100;
   item "id-4" "talked about tea" ROLE_SUMMARY "h" "c" 100;
   item "id-5" "Name: Sasha" ROLE_USER_PROFILE "h" "c" 100;
   item "id-6" "talked about cats" ROLE_SUMMARY "other" "c" 100].

(** The seconds from 0001-01-01 to 1970-01-01. *)
Definition EPOCH : Z := 719162 * SECONDS_PER_DAY.

(** The reading of [datetime.utcnow()] at second [s] of the epoch. *)
Definition at_second (s : Z) : Z := (EPOCH + s) * MICROSECONDS_PER_SECOND.

(** [int(dt.timestamp())] where the local time zone is UTC. *)
Definition utc_stamp (t : Z) : result Z :=
  Ok (Z.quot (t - EPOCH * MICROSECONDS_PER_SECOND) MICROSECONDS_PER_SECOND).

(** [int(dt.timestamp())] in a time zone one hour ahead of UTC in
    winter and two in summer, the clocks going forward at 02:00 on
    2024-03-31. *)
Definition SPRING_FORWARD : Z := at_second 1711850400.

Definition dst_stamp (t : Z) : result Z :=
  let utc_offset := if t <? SPRING_FORWARD then 3600 else 7200 in
  Ok (Z.quot (t - EPOCH * MICROSECONDS_PER_SECOND) MICROSECONDS_PER_SECOND
      - utc_offset).

(** A store with one chat message, written twenty-three and a half
    hours before 12:00 on 2024-03-31 by the clock of [dst_stamp]. *)
Definition recent : Store :=
  [item "id-1" "hello" ROLE_USER "h" "c" 1711794600].

Import MemoryProcessor.

(** An environment for the scheduler: identifiers ["id-0"],
    ["id-1"], ..., a clock that starts at 1000 and advances one
    second per write, an LLM that answers every prompt, and a chat
    history of two messages. *)
Definition uuid4 (k : nat) : str := lit "id-" ++ [(48 + N.of_nat k)%N].

Definition utcnow (k : nat) : Z := 1000 + Z.of_nat k.

Definition llm (calls : list SystemPrompt) (messages : list LLMMessage)
           (system : SystemPrompt) : result str :=
  match system with
  | FACT_EXTRACTION_SYSTEM =>
      Ok (lit (String "N" (String "a" (String "m" (String "e"
                (String ":" (String " " (String "S" (String "a"
                (String "s" (String "h" (String "a"
                (String "010" "- Likes tea")))))))))))))
  | SUMMARY_SYSTEM => Ok (lit "They talked about tea.")
  | PROFILE_UPDATE_SYSTEM => Ok (lit "Name: Sasha")
  | PROFILE_MERGE_SYSTEM => Ok (lit "Name: Sasha; likes tea")
  end.

Definition chat : list HistoryMessage :=
  [mkHistoryMessage (lit "human") (lit "I am Sasha and I like tea");
   mkHistoryMessage (lit "ai") (lit "Nice to meet you, Sasha")].

Definition history (conf_uid history_uid : str)
  : result (list HistoryMessage) := Ok chat.

Definition fresh_world : Instrumented.World :=
  Instrumented.mkWorld [] 0 [].

(** An LLM that fails at every call. *)
Definition failing_llm (calls : list SystemPrompt)
           (messages : list LLMMessage) (system : SystemPrompt)
  : result str :=
  Raise (PyException "RuntimeError" "LLM unavailable").

(** A batch writer for the knowledge collection that writes the
    records one after the other, and a directory with a Markdown
    file, a picture, an unreadable text file and a blank text
    file. *)
Fixpoint batch_add (documents ids : list str)
         (metadatas : list ChromaRAG.ChunkMeta)
         (c : Chroma.Collection ChromaRAG.ChunkMeta)
  : result unit * Chroma.Collection ChromaRAG.ChunkMeta :=
  match documents, ids, metadatas with
  | d :: ds, i :: is_, m :: ms => batch_add ds is_ ms (Chroma.add i d m c)
  | _, _, _ => (Ok tt, c)
  end.

Definition docs_dir : list ChromaRAG.DirEntry :=
  [ChromaRAG.mkDirEntry (lit "kb/tea.md") (lit ".md") (Ok (lit " abcdefg "));
   ChromaRAG.mkDirEntry (lit "kb/cat.png") (lit ".png") (Ok (lit "PNG"));
   ChromaRAG.mkDirEntry (lit "kb/locked.txt") (lit ".txt")
     (Raise (PyException "PermissionError" "denied"));
   ChromaRAG.mkDirEntry (lit "kb/empty.txt") (lit ".txt") (Ok (lit "  "))].

End Samples.

(* ================================================================= *)
(** * Properties *)

(** ** Strings *)

Section StrFacts.

Lemma str_eqb_eq (a b : str) : str_eqb a b = true <-> a = b.
Proof.
  revert b; induction a as [|x a IH]; intros [|y b]; simpl;
    try (split; [discriminate | discriminate]); try tauto.
  rewrite andb_true_iff, N.eqb_eq, IH.
  split; [intros [-> ->]; reflexivity | intros H; inversion H; auto].
Qed.

Lemma str_eqb_refl (a : str) : str_eqb a a = true.
Proof. apply str_eqb_eq; reflexivity. Qed.

Lemma str_in_In (a : str) (l : list str) : str_in a l = true <-> In a l.
Proof.
  induction l as [|b l IH]; simpl; [split; [discriminate | tauto]|].
  rewrite orb_true_iff, str_eqb_eq, IH. split; intros [H|H]; auto.
Qed.

Lemma str_in_false (a : str) (l : list str) :
  str_in a l = false <-> ~ In a l.
Proof.
  rewrite <- str_in_In. destruct (str_in a l); split; congruence.
Qed.

Lemma truthy_false {A} (s : list A) : truthy s = false <-> s = [].
Proof. destruct s; simpl; split; congruence. Qed.

Lemma truthy_true {A} (s : list A) : truthy s = true <-> s <> [].
Proof. destruct s; simpl; split; congruence. Qed.

(** [lstrip] removes a prefix of white space and stops at the first
    other character. *)
Lemma lstrip_nil_iff (s : str) :
  lstrip s = [] <-> forallb isspace s = true.
Proof.
  induction s as [|c s IH]; simpl; [tauto|].
  destruct (isspace c); simpl; [exact IH | split; discriminate].
Qed.

Lemma lstrip_head (s : str) (c : char) (r : str) :
  lstrip s = c :: r -> isspace c = false.
Proof.
  induction s as [|x s IH]; simpl; [discriminate|].
  destruct (isspace x) eqn:E; [exact IH | congruence].
Qed.

Lemma lstrip_fix (s : str) (c : char) :
  isspace c = false -> lstrip (c :: s) = c :: s.
Proof. intros H; simpl; rewrite H; reflexivity. Qed.

Lemma lstrip_app_nonspace (s : str) (c : char) (r : str) :
  isspace c = false ->
  exists t, lstrip (s ++ c :: r) = t ++ c :: r /\ lstrip s = lstrip t /\
            (lstrip s = [] -> t = []) /\ (lstrip s <> [] -> t = lstrip s).
Proof.
  intros Hc. induction s as [|x s IH]; simpl.
  - rewrite Hc. exists []; simpl; repeat split; auto; congruence.
  - destruct (isspace x) eqn:E.
    + exact IH.
    + exists (x :: s). simpl; rewrite E.
      repeat split; auto; congruence.
Qed.

Lemma forallb_isspace_rev (s : str) :
  forallb isspace (rev s) = forallb isspace s.
Proof.
  induction s as [|c s IH]; simpl; [reflexivity|].
  rewrite forallb_app, IH; simpl. rewrite andb_true_r, andb_comm.
  reflexivity.
Qed.

Lemma forallb_lstrip (s : str) :
  forallb isspace s = false -> forallb isspace (lstrip s) = false.
Proof.
  induction s as [|c s IH]; simpl; [auto|].
  destruct (isspace c) eqn:E; simpl; [exact IH|].
  intros _. rewrite E. reflexivity.
Qed.

(** A string is blank, that is [not s or not s.strip()], exactly
    when all its characters are white space. *)
Lemma strip_nil_iff (s : str) :
  strip s = [] <-> forallb isspace s = true.
Proof.
  unfold strip, rstrip. split.
  - intros H. apply (f_equal (@rev _)) in H.
    rewrite rev_involutive in H; simpl in H.
    apply lstrip_nil_iff in H. rewrite forallb_isspace_rev in H.
    destruct (forallb isspace s) eqn:E; [reflexivity|].
    apply forallb_lstrip in E. congruence.
  - intros H. apply lstrip_nil_iff in H. rewrite H. reflexivity.
Qed.

(** The trimmed text starts and ends with a character that is not
    white space, so trimming it again changes nothing. *)
Lemma lstrip_idem (s : str) : lstrip (lstrip s) = lstrip s.
Proof.
  destruct (lstrip s) as [|c r] eqn:E; [reflexivity|].
  apply lstrip_fix. eapply lstrip_head; eassumption.
Qed.

Lemma lstrip_rstrip_fix (s : str) (c : char) :
  isspace c = false -> lstrip (rstrip (c :: s)) = rstrip (c :: s).
Proof.
  intros Hc. unfold rstrip. simpl rev.
  destruct (lstrip_app_nonspace (rev s) c [] Hc) as (t & Ht & _).
  rewrite Ht, rev_app_distr. simpl. rewrite Hc. reflexivity.
Qed.

Lemma rstrip_idem (s : str) : rstrip (rstrip s) = rstrip s.
Proof.
  unfold rstrip. rewrite rev_involutive, lstrip_idem. reflexivity.
Qed.

Lemma strip_idem (s : str) : strip (strip s) = strip s.
Proof.
  unfold strip at 2 3.
  destruct (lstrip s) as [|c r] eqn:E; [reflexivity|].
  assert (Hc : isspace c = false) by (eapply lstrip_head; eassumption).
  unfold strip. rewrite (lstrip_rstrip_fix r c Hc).
  apply rstrip_idem.
Qed.

Lemma blank_iff (s : str) :
  negb (truthy s) || negb (truthy (strip s)) = true <-> strip s = [].
Proof.
  destruct s as [|c s]; simpl; [tauto|].
  destruct (strip (c :: s)); simpl; split; congruence.
Qed.

Lemma not_blank_iff (s : str) :
  negb (truthy s) || negb (truthy (strip s)) = false <-> strip s <> [].
Proof.
  rewrite <- blank_iff.
  destruct (negb (truthy s) || negb (truthy (strip s)));
    split; congruence.
Qed.

End StrFacts.

(** ** Slices *)

Section SliceFacts.

Context {A : Type}.
Implicit Types s : list A.

Lemma adjust_of_nat (n i : nat) :
  adjust (Z.of_nat n) (Z.of_nat i) = Z.of_nat (Nat.min i n).
Proof.
  unfold adjust.
  destruct (Z.ltb_spec (Z.of_nat i) 0); [lia|].
  destruct (Z.leb_spec (Z.of_nat n) (Z.of_nat i)); lia.
Qed.

Lemma firstn_skipn_sat s (a b : nat) :
  firstn (Nat.min b (length s) - Nat.min a (length s))
    (skipn (Nat.min a (length s)) s)
  = firstn (b - a) (skipn a s).
Proof.
  destruct (Nat.le_gt_cases (length s) a) as [Ha|Ha].
  - rewrite (skipn_all2 s Ha).
    rewrite (Nat.min_r a (length s)) by lia. rewrite skipn_all.
    now rewrite !firstn_nil.
  - rewrite (Nat.min_l a) by lia.
    destruct (Nat.le_gt_cases b (length s)) as [Hb|Hb].
    + now rewrite (Nat.min_l b) by lia.
    + rewrite (Nat.min_r b) by lia.
      rewrite !firstn_all2; auto; rewrite length_skipn; lia.
Qed.

(** On bounds that are not negative a slice is a [firstn] of a
    [skipn]. *)
Lemma slice_of_nat s (a b : nat) :
  slice s (Z.of_nat a) (Z.of_nat b) = firstn (b - a) (skipn a s).
Proof.
  unfold slice, len. rewrite !adjust_of_nat, Nat2Z.id.
  rewrite <- firstn_skipn_sat.
  f_equal. lia.
Qed.

Lemma firstn_add_skipn s (n m : nat) :
  firstn n s ++ firstn m (skipn n s) = firstn (n + m) s.
Proof.
  revert s; induction n as [|n IH]; intros [|x s]; simpl;
    try reflexivity.
  - now rewrite firstn_nil.
  - now rewrite IH.
Qed.

End SliceFacts.

(** ** The chunker *)

Section ChunkerFacts.

(** Without an advancing window ([chunk_overlap >= chunk_size]) the
    start position never leaves the text, and no amount of fuel lets
    the loop finish. *)
Lemma chunk_loop_stuck (text : str) (chunk_size chunk_overlap : Z) :
  text <> [] -> chunk_size <= chunk_overlap ->
  forall fuel start chunks, start <= 0 ->
    chunk_loop fuel text chunk_size chunk_overlap start chunks = None.
Proof.
  intros Hne Hle. assert (Hlen : 0 < len text).
  { unfold len. destruct text; [congruence | simpl; lia]. }
  induction fuel as [|fuel IH]; intros start chunks Hs; simpl;
    [reflexivity|].
  destruct (Z.ltb_spec start (len text)); [|lia].
  destruct (Z.leb_spec (len text) (start + chunk_size - chunk_overlap));
    [lia|].
  apply IH. lia.
Qed.

Lemma chunk_text_diverges (text : str) (chunk_size chunk_overlap : Z) :
  strip text <> [] -> chunk_size <= chunk_overlap ->
  forall fuel, _chunk_text_fuel fuel text chunk_size chunk_overlap = None.
Proof.
  intros Hne Hle fuel. unfold _chunk_text_fuel.
  destruct (strip text) as [|c r] eqn:E; [congruence|]. simpl negb.
  cbv iota. apply chunk_loop_stuck; [congruence | assumption | lia].
Qed.

(** More fuel does not change a result. *)
Lemma chunk_loop_fuel_mono (text : str) (cs ov : Z) :
  forall fuel start chunks r,
    chunk_loop fuel text cs ov start chunks = Some r ->
    forall extra,
      chunk_loop (fuel + extra) text cs ov start chunks = Some r.
Proof.
  induction fuel as [|fuel IH]; intros start chunks r H extra;
    simpl in *; [discriminate|].
  destruct (start <? len text); [|assumption].
  destruct (len text <=? start + cs - ov); [assumption|].
  apply IH; assumption.
Qed.

Variable text : str.
Variables c o : nat.
Hypothesis Hoc : (o < c)%nat.

Let cs := Z.of_nat c.
Let ov := Z.of_nat o.

Lemma window_of_nat (k : nat) :
  window text cs ov k = firstn c (skipn (k * (c - o)) text).
Proof.
  unfold window, cs, ov.
  replace (Z.of_nat k * (Z.of_nat c - Z.of_nat o))
    with (Z.of_nat (k * (c - o))) by nia.
  rewrite <- Nat2Z.inj_add, slice_of_nat. f_equal. lia.
Qed.

(** The loop started at the [k]-th window appends the windows
    [k], [k+1], ... up to the first one whose successor would start
    at or after the end of the text. *)
Lemma chunk_loop_windows :
  forall fuel k chunks,
    (k * (c - o) < length text)%nat ->
    (length text - k * (c - o) <= fuel)%nat ->
    exists m,
      chunk_loop fuel text cs ov (Z.of_nat (k * (c - o))) chunks
      = Some (chunks ++ map (window text cs ov) (seq k (S m)))
      /\ ((k + m) * (c - o) < length text <= (k + S m) * (c - o))%nat.
Proof.
  induction fuel as [|fuel IH]; intros k chunks Hlt Hfuel; [lia|].
  simpl chunk_loop. unfold len.
  destruct (Z.ltb_spec (Z.of_nat (k * (c - o))) (Z.of_nat (length text)));
    [|lia].
  replace (Z.of_nat (k * (c - o)) + cs - ov)
    with (Z.of_nat (S k * (c - o))) by (unfold cs, ov; nia).
  assert (Hw : slice text (Z.of_nat (k * (c - o)))
                 (Z.of_nat (k * (c - o)) + cs)
               = window text cs ov k).
  { unfold window. f_equal; unfold cs, ov; nia. }
  rewrite Hw.
  destruct (Z.leb_spec (Z.of_nat (length text))
              (Z.of_nat (S k * (c - o)))) as [Hend|Hend].
  - exists 0%nat. simpl. split; [reflexivity|]. nia.
  - destruct (IH (S k) (chunks ++ [window text cs ov k])) as (m & Hm & Hb);
      [lia | nia |].
    exists (S m). split; [|nia].
    eapply eq_trans; [exact Hm|].
    rewrite <- app_assoc. reflexivity.
Qed.

(** The chunks with their overlap removed are consecutive pieces of
    the text. *)
Lemma unoverlap_pieces (k m : nat) :
  concat (map (skipn o) (map (window text cs ov) (seq k m)))
  = firstn (m * (c - o)) (skipn (k * (c - o) + o) text).
Proof.
  revert k; induction m as [|m IH]; intros k; simpl; [reflexivity|].
  rewrite IH, window_of_nat, skipn_firstn_comm, skipn_skipn.
  replace (S k * (c - o) + o)%nat
    with ((c - o) + (o + k * (c - o)))%nat by lia.
  rewrite <- (skipn_skipn (c - o)).
  rewrite firstn_add_skipn. f_equal. f_equal. lia.
Qed.

Lemma unoverlap_windows (m : nat) :
  (length text <= S m * (c - o))%nat ->
  unoverlap ov (map (window text cs ov) (seq 0 (S m))) = text.
Proof.
  intros Hend. cbn [unoverlap map seq].
  change (Z.to_nat ov) with (Z.to_nat (Z.of_nat o)). rewrite Nat2Z.id.
  rewrite unoverlap_pieces, window_of_nat. simpl skipn.
  replace (c - o + 0 + o)%nat with c by lia.
  rewrite firstn_add_skipn. apply firstn_all2. nia.
Qed.

Lemma window_length (k : nat) :
  len (window text cs ov k)
  = Z.min cs (Z.max 0 (len text - Z.of_nat k * (cs - ov))).
Proof.
  rewrite window_of_nat. unfold len, cs, ov.
  rewrite length_firstn, length_skipn. nia.
Qed.

End ChunkerFacts.

Lemma chunk_text_fuel_windows (t : str) (c o : nat) :
  (o < c)%nat -> strip t <> [] ->
  exists m,
    (forall fuel, (length (strip t) <= fuel)%nat ->
       _chunk_text_fuel fuel t (Z.of_nat c) (Z.of_nat o)
       = Some (map (window (strip t) (Z.of_nat c) (Z.of_nat o))
                 (seq 0 (S m))))
    /\ (m * (c - o) < length (strip t) <= S m * (c - o))%nat.
Proof.
  intros Hoc Hne.
  assert (Hpos : (0 < length (strip t))%nat).
  { destruct (strip t); [congruence | simpl; lia]. }
  destruct (chunk_loop_windows (strip t) c o Hoc (length (strip t)) 0 [])
    as (m & Hm & Hb); [simpl; lia | lia |].
  exists m. split; [|exact Hb].
  intros fuel Hfuel. unfold _chunk_text_fuel.
  apply truthy_true in Hne. rewrite Hne. simpl negb. cbv iota.
  replace fuel with (length (strip t) + (fuel - length (strip t)))%nat
    by lia.
  apply chunk_loop_fuel_mono. exact Hm.
Qed.

(* ================================================================= *)
(** * The claims *)

(** ** C1: termination of the chunker *)

(** C1.  The chunker has no guard against a window that does not
    advance: on the one-character text ["a"] with [chunk_size = 1]
    and [chunk_overlap = 1] (and likewise with an overlap larger than
    the chunk size) the loop is still running after any number of
    iterations; [_chunk_text] does not return for these arguments. *)
Theorem C1_chunker_loops_forever_without_advance :
  (forall fuel, _chunk_text_fuel fuel (lit "a") 1 1 = None)
  /\ (forall fuel, _chunk_text_fuel fuel (lit "ab") 1 2 = None).
Proof.
  split; intros fuel; apply chunk_text_diverges;
    solve [vm_compute; discriminate | lia].
Qed.

(** ** C9: what the chunker computes *)

(** C9, as stated, fails: with an overlap the chunks after the first
    one that reaches the end of the text are shorter than
    [chunk_size] without being the last, and the reconstruction
    yields the trimmed text, not the text. *)
Lemma C9_counterexample :
  (exists chunks,
      _chunk_text (lit "abcd") 3 2 = Some chunks
      /\ chunks = [lit "abc"; lit "bcd"; lit "cd"; lit "d"]
      /\ all_but_last_have_length 3 chunks = false)
  /\ (exists chunks,
         _chunk_text (lit " ab") 2 0 = Some chunks
         /\ unoverlap 0 chunks <> lit " ab").
Proof.
  split.
  - exists [lit "abc"; lit "bcd"; lit "cd"; lit "d"].
    repeat split; reflexivity.
  - exists [lit "ab"]. split; [reflexivity | vm_compute; discriminate].
Qed.

(** C9, amended.  For every text [t] and [chunk_size > chunk_overlap
    >= 0] the chunker returns (with any fuel of at least the length
    of the trimmed text) a list of chunks such that: concatenating
    them with the leading [chunk_overlap] characters of every chunk
    after the first removed gives the trimmed text; the [k]-th chunk
    is the window of the trimmed text that starts at
    [k * (chunk_size - chunk_overlap)], a position inside the text,
    and has length [min chunk_size (len - start)], hence exactly
    [chunk_size] whenever the window fits into the text; the windows
    stop with the first one whose successor would start at or after
    the end; and a text of white space only gives no chunk. *)
Theorem C9_chunks_are_windows_of_trimmed_text
        (t : str) (chunk_size chunk_overlap : Z) :
  0 <= chunk_overlap < chunk_size ->
  let step := chunk_size - chunk_overlap in
  exists chunks,
    _chunk_text t chunk_size chunk_overlap = Some chunks
    /\ (forall fuel, (length (strip t) <= fuel)%nat ->
          _chunk_text_fuel fuel t chunk_size chunk_overlap = Some chunks)
    /\ unoverlap chunk_overlap chunks = strip t
    /\ (forall k, (k < length chunks)%nat ->
          let start := Z.of_nat k * step in
          nth k chunks [] = slice (strip t) start (start + chunk_size)
          /\ start < len (strip t)
          /\ len (nth k chunks []) = Z.min chunk_size (len (strip t) - start)
          /\ (start + chunk_size <= len (strip t) ->
              len (nth k chunks []) = chunk_size))
    /\ len (strip t) <= len chunks * step
    /\ (forallb isspace t = true -> chunks = []).
Proof.
  intros [Ho Hc] step.
  destruct (strip t) as [|x r] eqn:E.
  - exists []. unfold _chunk_text, _chunk_text_fuel. rewrite E. simpl.
    repeat split; try reflexivity; simpl in *; lia.
  - assert (Hne : strip t <> []) by congruence.
    destruct (chunk_text_fuel_windows t (Z.to_nat chunk_size)
                (Z.to_nat chunk_overlap)) as (m & Hrun & Hb);
      [lia | exact Hne |].
    rewrite !Z2Nat.id in Hrun by lia. rewrite E in *.
    set (s := x :: r) in *.
    exists (map (window s chunk_size chunk_overlap) (seq 0 (S m))).
    assert (Hwin : forall k,
               window s chunk_size chunk_overlap k
               = window s (Z.of_nat (Z.to_nat chunk_size))
                   (Z.of_nat (Z.to_nat chunk_overlap)) k).
    { intros k. rewrite !Z2Nat.id by lia. reflexivity. }
    split; [unfold _chunk_text; rewrite E; apply Hrun; lia|].
    split; [exact Hrun|].
    split.
    { rewrite <- (Z2Nat.id chunk_size), <- (Z2Nat.id chunk_overlap) by lia.
      apply unoverlap_windows; lia. }
    split.
    { intros k Hk start. rewrite length_map, length_seq in Hk.
      assert (Hnth : nth k (map (window s chunk_size chunk_overlap)
                              (seq 0 (S m))) []
                     = window s chunk_size chunk_overlap k).
      { rewrite (nth_indep _ [] (window s chunk_size chunk_overlap 0%nat))
          by (rewrite length_map, length_seq; lia).
        rewrite map_nth, seq_nth by lia. reflexivity. }
      rewrite Hnth.
      assert (Hstart : start < len s).
      { unfold start, step, len. nia. }
      assert (Hlen : len (window s chunk_size chunk_overlap k)
                     = Z.min chunk_size (len s - start)).
      { rewrite Hwin, window_length by lia.
        rewrite !Z2Nat.id by lia. fold step. fold start. lia. }
      repeat split; auto.
      intros Hfit. rewrite Hlen. lia. }
    split.
    { unfold len at 2. rewrite length_map, length_seq.
      unfold len, step. nia. }
    intros Hsp. apply strip_nil_iff in Hsp. congruence.
Qed.

Lemma C9_chunks_are_windows_of_trimmed_text_witness :
  0 <= 2 < 3
  /\ exists chunks,
       _chunk_text (lit " abcd ") 3 2 = Some chunks
       /\ unoverlap 2 chunks = lit "abcd"
       /\ len (nth 2 chunks []) = 2.
Proof.
  assert (Hvalid : 0 <= 2 < 3) by lia.
  split; [exact Hvalid|].
  destruct (C9_chunks_are_windows_of_trimmed_text (lit " abcd ") 3 2
              Hvalid)
    as (chunks & Hrun & _ & Hcat & Hwin & _).
  exists chunks. split; [exact Hrun|]. split; [exact Hcat|].
  assert (Hk : (2 < length chunks)%nat).
  { vm_compute in Hrun. injection Hrun as <-. simpl. lia. }
  destruct (Hwin 2%nat Hk) as (_ & _ & Hlen & _).
  rewrite Hlen. reflexivity.
Defined.

(* ================================================================= *)
(** ** The vector store *)

Section ChromaFacts.

Context {Meta : Type}.
Implicit Types c : Chroma.Collection Meta.

Lemma add_fresh (id doc : str) (meta : Meta) c :
  ~ In id (Chroma.ids c) ->
  Chroma.add id doc meta c = c ++ [Chroma.mkEntry id doc meta].
Proof.
  intros H. unfold Chroma.add.
  apply str_in_false in H. rewrite H. reflexivity.
Qed.

Lemma add_cases (id doc : str) (meta : Meta) c :
  Chroma.add id doc meta c = c
  \/ Chroma.add id doc meta c = c ++ [Chroma.mkEntry id doc meta].
Proof. unfold Chroma.add. destruct (str_in id (Chroma.ids c)); auto. Qed.

(** Adding keeps identifiers unique. *)
Lemma add_wf (id doc : str) (meta : Meta) c :
  Chroma.wf c -> Chroma.wf (Chroma.add id doc meta c).
Proof.
  unfold Chroma.wf, Chroma.add. intros H.
  destruct (str_in id (Chroma.ids c)) eqn:E; [exact H|].
  apply str_in_false in E.
  unfold Chroma.ids in *. rewrite map_app. simpl.
  apply (Permutation_NoDup (Permutation_cons_append _ id)).
  constructor; assumption.
Qed.

(** Two records of a well-formed collection with the same identifier
    are the same record. *)
Lemma wf_same_id c (x y : Chroma.Entry Meta) :
  Chroma.wf c -> In x c -> In y c ->
  Chroma.entry_id x = Chroma.entry_id y -> x = y.
Proof.
  unfold Chroma.wf, Chroma.ids.
  induction c as [|a c IH]; simpl; [tauto|].
  intros Hnd Hx Hy Hid. inversion Hnd as [|? ? Hnotin Hnd']; subst.
  destruct Hx as [->|Hx], Hy as [->|Hy]; auto.
  - exfalso. apply Hnotin. rewrite Hid. now apply in_map.
  - exfalso. apply Hnotin. rewrite <- Hid. now apply in_map.
Qed.

(** Removing the identifiers a filter selects removes exactly the
    selected records. *)
Lemma remove_selected (w : Meta -> bool) c :
  Chroma.wf c ->
  Chroma.remove (Chroma.ids (Chroma.get w c)) c
  = filter (fun e => negb (w (Chroma.metadata e))) c.
Proof.
  intros Hwf. unfold Chroma.remove. apply filter_ext_in.
  intros e He. f_equal.
  destruct (w (Chroma.metadata e)) eqn:Ew.
  - apply str_in_In. unfold Chroma.ids. apply in_map.
    unfold Chroma.get. apply filter_In. auto.
  - apply str_in_false. intros Hin.
    unfold Chroma.ids in Hin. apply in_map_iff in Hin.
    destruct Hin as (e' & Hid & He').
    unfold Chroma.get in He'. apply filter_In in He'.
    destruct He' as [He' Hw'].
    assert (e' = e) by (eapply wf_same_id; eauto).
    subst e'. congruence.
Qed.

Lemma filter_length_split {A} (f : A -> bool) (l : list A) :
  (length (filter f l) + length (filter (fun x => negb (f x)) l)
   = length l)%nat.
Proof.
  induction l as [|x l IH]; simpl; [reflexivity|].
  destruct (f x); simpl; lia.
Qed.

Lemma all_distinct_NoDup (l : list str) : all_distinct l = true <-> NoDup l.
Proof.
  induction l as [|a l IH]; simpl.
  - split; [constructor | reflexivity].
  - rewrite andb_true_iff, negb_true_iff, str_in_false, IH.
    split.
    + intros [Ha Hl]. now constructor.
    + intros H. inversion H; subst. tauto.
Qed.

Lemma wf_filter (f : Chroma.Entry Meta -> bool) c :
  Chroma.wf c -> Chroma.wf (filter f c).
Proof.
  unfold Chroma.wf, Chroma.ids.
  induction c as [|e c IH]; simpl; [auto|].
  intros H. inversion H as [|? ? Hnotin Hnd]; subst.
  destruct (f e); simpl; [|auto].
  constructor; [|auto].
  intros Hin. apply Hnotin. apply in_map_iff in Hin.
  destruct Hin as (x & Hx & Hin). apply filter_In in Hin.
  rewrite <- Hx. apply in_map. tauto.
Qed.

Lemma remove_nothing c : Chroma.remove [] c = c.
Proof.
  unfold Chroma.remove.
  induction c as [|e c IH]; simpl; [reflexivity|].
  f_equal. exact IH.
Qed.

(** The collection accepts a list of identifiers that is not empty and
    repeats none, and rejects every other. *)
Lemma delete_accepts (l : list str) c :
  l <> [] -> NoDup l -> Chroma.delete l c = Ok (Chroma.remove l c).
Proof.
  intros Hne Hnd. unfold Chroma.delete.
  destruct l as [|a l]; [congruence|]. cbn [truthy negb].
  apply all_distinct_NoDup in Hnd. rewrite Hnd. reflexivity.
Qed.

Lemma delete_rejects (l : list str) c :
  l = [] \/ ~ NoDup l -> exists e, Chroma.delete l c = Raise e.
Proof.
  intros H. unfold Chroma.delete.
  destruct l as [|a l]; cbn [truthy negb]; [eauto|].
  destruct (all_distinct (a :: l)) eqn:E; cbn [negb]; [|eauto].
  apply all_distinct_NoDup in E. destruct H; [congruence | tauto].
Qed.

Lemma delete_cases (l : list str) c :
  Chroma.delete l c = Ok (Chroma.remove l c)
  \/ exists e, Chroma.delete l c = Raise e.
Proof.
  unfold Chroma.delete.
  destruct (negb (truthy l)); [eauto|].
  destruct (negb (all_distinct l)); eauto.
Qed.

(** A query whose filter the collection accepts fails for one reason
    only, a number of results that is not positive. *)
Lemma query_accepted {W} (g : W -> Meta -> bool) (o : option W)
      (rank : str -> list (Chroma.Entry Meta) -> list (Chroma.Entry Meta))
      (q : str) (n : Z) c :
  Chroma.query rank q n (option_map (fun w => Ok (g w)) o) c
  = if n <=? 0 then
      Raise (PyException "TypeError"
               "Number of requested results cannot be negative, or zero.")
    else
      Ok (firstn (Z.to_nat n)
            (rank q match option_map g o with
                    | Some f => Chroma.get f c
                    | None => c
                    end)).
Proof. destruct o; reflexivity. Qed.

(** "Select the identifiers, then delete them", the pattern of
    [delete_older_than_days] and [delete_all]: on a collection with
    unique identifiers the deletion is accepted. *)
Lemma delete_where_spec (w : Meta -> bool) c :
  Chroma.wf c ->
  (if negb (truthy (Chroma.ids (Chroma.get w c))) then (Ok 0, c)
   else
     match Chroma.delete (Chroma.ids (Chroma.get w c)) c with
     | Raise e => (Raise e, c)
     | Ok c' => (Ok (len (Chroma.ids (Chroma.get w c))), c')
     end)
  = (Ok (len (Chroma.get w c)),
     filter (fun e => negb (w (Chroma.metadata e))) c).
Proof.
  intros Hwf. rewrite <- (remove_selected w c Hwf).
  assert (Hlen : len (Chroma.ids (Chroma.get w c)) = len (Chroma.get w c)).
  { unfold len, Chroma.ids. now rewrite length_map. }
  assert (Hnd : NoDup (Chroma.ids (Chroma.get w c))).
  { apply (wf_filter (fun e => w (Chroma.metadata e)) c Hwf). }
  destruct (Chroma.ids (Chroma.get w c)) as [|i l] eqn:E; cbn [truthy negb].
  - rewrite remove_nothing, <- Hlen. reflexivity.
  - rewrite delete_accepts by (assumption || discriminate).
    now rewrite Hlen.
Qed.

End ChromaFacts.

(* ================================================================= *)
(** ** The memory store *)

Section MemoryFacts.

Import DialogueMemory.

Lemma eval_cleanup_where (cutoff : Z) (h : option str) (exclude : list str)
      (e : Item) :
  eval_where (cleanup_where cutoff h exclude) (Chroma.metadata e)
  = expired cutoff h exclude e.
Proof.
  unfold cleanup_where, expired.
  destruct (opt_truthy h); simpl;
    rewrite ?andb_true_r, ?andb_assoc; reflexivity.
Qed.

Lemma expired_iff (cutoff : Z) (h : option str) (exclude : list str)
      (e : Item) :
  expired cutoff h exclude e = true
  <-> md_timestamp (Chroma.metadata e) < cutoff
      /\ (opt_truthy h = true ->
          md_history_uid (Chroma.metadata e) = opt_get h)
      /\ ~ In (md_role (Chroma.metadata e)) exclude.
Proof.
  unfold expired. rewrite !andb_true_iff, negb_true_iff.
  rewrite Z.ltb_lt, str_in_false.
  destruct (opt_truthy h).
  - rewrite str_eqb_eq. tauto.
  - intuition congruence.
Qed.

(** The clock arithmetic: the number of days is checked, then the
    date it leads to, then the platform converts. *)
Lemma cutoff_time_in_range (stamp : Z -> result Z) (utcnow days : Z) :
  - MAX_DELTA_DAYS <= days <= MAX_DELTA_DAYS ->
  0 <= utcnow - days * MICROSECONDS_PER_DAY < DATETIME_RANGE ->
  cutoff_time stamp utcnow days
  = stamp (utcnow - days * MICROSECONDS_PER_DAY).
Proof.
  intros Hd Ht. unfold cutoff_time, timedelta, datetime_sub.
  replace (days <? - MAX_DELTA_DAYS) with false by (symmetry; apply Z.ltb_ge; lia).
  replace (MAX_DELTA_DAYS <? days) with false by (symmetry; apply Z.ltb_ge; lia).
  cbn [orb].
  replace (utcnow - days * MICROSECONDS_PER_DAY <? 0) with false
    by (symmetry; apply Z.ltb_ge; lia).
  replace (DATETIME_RANGE <=? utcnow - days * MICROSECONDS_PER_DAY)
    with false by (symmetry; apply Z.leb_gt; lia).
  reflexivity.
Qed.

Lemma cutoff_time_out_of_range (stamp : Z -> result Z) (utcnow days : Z) :
  days < - MAX_DELTA_DAYS \/ MAX_DELTA_DAYS < days
  \/ utcnow - days * MICROSECONDS_PER_DAY < 0
  \/ DATETIME_RANGE <= utcnow - days * MICROSECONDS_PER_DAY ->
  exists msg,
    cutoff_time stamp utcnow days = Raise (PyException "OverflowError" msg).
Proof.
  intros H. unfold cutoff_time, timedelta, datetime_sub.
  destruct ((days <? - MAX_DELTA_DAYS) || (MAX_DELTA_DAYS <? days)) eqn:Ed;
    [eauto|].
  apply orb_false_iff in Ed. destruct Ed as [Ed1 Ed2].
  apply Z.ltb_ge in Ed1, Ed2.
  destruct ((utcnow - days * MICROSECONDS_PER_DAY <? 0)
            || (DATETIME_RANGE <=? utcnow - days * MICROSECONDS_PER_DAY))
    eqn:Et; [eauto|].
  apply orb_false_iff in Et. destruct Et as [Et1 Et2].
  apply Z.ltb_ge in Et1. apply Z.leb_gt in Et2. lia.
Qed.

(** Where the platform converts the date reached with an offset of
    whole seconds, the cutoff is the reading in seconds, less the
    offset, less 86400 seconds per day. *)
Lemma cutoff_time_offset (stamp : Z -> result Z) (offset : Z)
      (utcnow days : Z) :
  let shifted := utcnow - days * MICROSECONDS_PER_DAY in
  stamp shifted = Ok (shifted / MICROSECONDS_PER_SECOND - offset) ->
  - MAX_DELTA_DAYS <= days <= MAX_DELTA_DAYS ->
  0 <= shifted < DATETIME_RANGE ->
  cutoff_time stamp utcnow days
  = Ok (utcnow / MICROSECONDS_PER_SECOND - offset - days * SECONDS_PER_DAY).
Proof.
  intros shifted Hstamp Hd Ht. rewrite cutoff_time_in_range by assumption.
  fold shifted. rewrite Hstamp. f_equal.
  unfold shifted, MICROSECONDS_PER_DAY.
  replace (utcnow - days * (SECONDS_PER_DAY * MICROSECONDS_PER_SECOND))
    with (utcnow + (- (days * SECONDS_PER_DAY)) * MICROSECONDS_PER_SECOND)
    by ring.
  rewrite Z.div_add by (unfold MICROSECONDS_PER_SECOND; lia). ring.
Qed.

(** A sweep whose cutoff cannot be computed raises and deletes
    nothing. *)
Lemma sweep_raises (stamp : Z -> result Z) (now days : Z) (h : option str)
      (exclude_roles : option (list str)) (st : Store) (err : exn) :
  cutoff_time stamp now days = Raise err ->
  delete_older_than_days stamp now days h exclude_roles st = (Raise err, st).
Proof. intros H. unfold delete_older_than_days. now rewrite H. Qed.

(** A sweep whose cutoff is computed removes the records its
    condition selects, keeps the others in their order, and returns
    how many it removed. *)
Lemma sweep_spec (stamp : Z -> result Z) (now days : Z) (h : option str)
      (exclude_roles : option (list str)) (st : Store) (cutoff : Z) :
  Chroma.wf st ->
  cutoff_time stamp now days = Ok cutoff ->
  let exclude := if opt_truthy exclude_roles then opt_get exclude_roles
                 else PERSISTENT_ROLES in
  delete_older_than_days stamp now days h exclude_roles st
  = (Ok (len (filter (expired cutoff h exclude) st)),
     filter (fun e => negb (expired cutoff h exclude e)) st).
Proof.
  intros Hwf Hcut exclude. unfold delete_older_than_days.
  fold exclude. rewrite Hcut. cbv beta iota zeta.
  set (w := eval_where (cleanup_where cutoff h exclude)).
  assert (Hget : Chroma.get w st = filter (expired cutoff h exclude) st).
  { unfold Chroma.get. apply filter_ext. intros e.
    apply eval_cleanup_where. }
  eapply eq_trans; [exact (delete_where_spec w st Hwf)|].
  rewrite Hget. f_equal.
  apply filter_ext. intros e. unfold w. now rewrite eval_cleanup_where.
Qed.

(** Whatever the clock, the sweep leaves a sub-list of the store, and
    every record a role of its exclusion protects. *)
Lemma sweep_keeps (stamp : Z -> result Z) (now days : Z) (h : option str)
      (exclude_roles : option (list str)) (st : Store) :
  Chroma.wf st ->
  let exclude := if opt_truthy exclude_roles then opt_get exclude_roles
                 else PERSISTENT_ROLES in
  let st' := snd (delete_older_than_days stamp now days h exclude_roles st) in
  Chroma.wf st'
  /\ forall e, In e st -> In (md_role (Chroma.metadata e)) exclude ->
               In e st'.
Proof.
  intros Hwf exclude st'. subst st'.
  destruct (cutoff_time stamp now days) as [cutoff|err] eqn:Hcut.
  - rewrite (sweep_spec stamp now days h exclude_roles st cutoff Hwf Hcut).
    cbn [snd]. fold exclude. split; [now apply wf_filter|].
    intros e He Hrole. apply filter_In. split; [exact He|].
    apply negb_true_iff.
    destruct (expired cutoff h exclude e) eqn:E; [|reflexivity].
    apply expired_iff in E. tauto.
  - rewrite (sweep_raises stamp now days h exclude_roles st err Hcut).
    cbn [snd]. auto.
Qed.

Lemma add_item_blank (doc_id : str) (now : Z) (r content h c : str)
      (st : Store) :
  strip content = [] -> add_item doc_id now r content h c st = (Ok [], st).
Proof.
  intros H. unfold add_item. apply blank_iff in H. rewrite H. reflexivity.
Qed.

Lemma add_item_stores (doc_id : str) (now : Z) (r content h c : str)
      (st : Store) :
  strip content <> [] ->
  add_item doc_id now r content h c st
  = (Ok doc_id, Chroma.add doc_id (strip content) (mkMeta r h c now) st).
Proof.
  intros H. unfold add_item. apply not_blank_iff in H. rewrite H.
  reflexivity.
Qed.

Lemma add_item_content_ok (doc_id : str) (now : Z) (r content h c : str)
      (st : Store) :
  Forall content_ok st ->
  Forall content_ok (snd (add_item doc_id now r content h c st)).
Proof.
  intros Hst. destruct (strip content) as [|x s] eqn:E.
  - rewrite add_item_blank by assumption. exact Hst.
  - rewrite add_item_stores by congruence. simpl.
    destruct (add_cases doc_id (strip content) (mkMeta r h c now) st)
      as [-> | ->]; [exact Hst|].
    apply Forall_app. split; [exact Hst|].
    constructor; [|constructor].
    unfold content_ok. simpl. rewrite strip_idem. split; congruence.
Qed.

Lemma add_item_ok (doc_id : str) (now : Z) (r content h c : str)
      (st : Store) :
  is_ok (fst (add_item doc_id now r content h c st)) = true.
Proof.
  unfold add_item.
  destruct (negb (truthy content) || negb (truthy (strip content)));
    reflexivity.
Qed.

Lemma set_user_profile_state (doc_id : str) (now : Z) (h c content : str)
      (st : Store) :
  set_user_profile doc_id now h c content st
  = (Ok tt, snd (add_item doc_id now ROLE_USER_PROFILE content h c st)).
Proof.
  unfold set_user_profile.
  destruct (negb (truthy content) || negb (truthy (strip content))) eqn:B.
  - apply blank_iff in B. rewrite add_item_blank by assumption.
    reflexivity.
  - apply not_blank_iff in B.
    rewrite (add_item_stores _ _ _ content) by assumption.
    rewrite add_item_stores by (rewrite strip_idem; assumption).
    rewrite strip_idem. reflexivity.
Qed.

Lemma add_to_user_profile_state (doc_id : str) (now : Z)
      (h c new_fact : str) (st : Store) :
  exists merged,
    add_to_user_profile doc_id now h c new_fact st
    = (Ok tt, snd (add_item doc_id now ROLE_USER_PROFILE merged h c st))
    \/ add_to_user_profile doc_id now h c new_fact st = (Ok tt, st).
Proof.
  unfold add_to_user_profile.
  destruct (negb (truthy new_fact) || negb (truthy (strip new_fact))).
  - exists []. right. reflexivity.
  - match goal with
    | |- context [add_item _ _ _ ?m _ _ _] => exists m
    end.
    left.
    match goal with
    | |- context [add_item ?a ?b ?r ?m ?x ?y ?z] =>
        pose proof (add_item_ok a b r m x y z) as Hok;
        destruct (add_item a b r m x y z) as [[v|e] st']
    end; simpl in *; [reflexivity | discriminate].
Qed.

Lemma add_item_appends (doc_id : str) (now : Z) (r content h c : str)
      (st : Store) :
  strip content <> [] ->
  ~ In doc_id (Chroma.ids st) ->
  add_item doc_id now r content h c st
  = (Ok doc_id,
     st ++ [Chroma.mkEntry doc_id (strip content) (mkMeta r h c now)]).
Proof.
  intros Hne Hfresh.
  rewrite add_item_stores by assumption.
  rewrite add_fresh by assumption. reflexivity.
Qed.

End MemoryFacts.

Ltac solve_wf :=
  unfold Chroma.wf; cbv;
  repeat (apply NoDup_cons;
          [ let H := fresh in
            intros H; repeat (destruct H as [H|H]; [discriminate H|]);
            exact H
          | ]);
  apply NoDup_nil.

(** ** C3: roles are not validated *)

Import DialogueMemory.

(** C3, as stated, fails: [add_item] accepts a role outside the five
    roles, raises nothing and stores the item. *)
Lemma C3_counterexample :
  ~ In (lit "villain") KNOWN_ROLES
  /\ add_item (lit "id-9") 100 (lit "villain") (lit "hi")
       (lit "h") (lit "c") []
     = (Ok (lit "id-9"),
        [Chroma.mkEntry (lit "id-9") (lit "hi")
           (mkMeta (lit "villain") (lit "h") (lit "c") 100)]).
Proof.
  split; [apply str_in_false; reflexivity | reflexivity].
Qed.

(** C3, amended.  [add_item] does not look at the role: a call with
    content that is not blank and an identifier the store does not
    hold yet returns the identifier, raises nothing, and appends one
    item that carries the role it was given, whatever string that
    is, together with the trimmed content, the scope and the
    timestamp. *)
Theorem C3_add_item_stores_any_role
        (doc_id : str) (now : Z) (role content history_uid conf_uid : str)
        (st : Store) :
  strip content <> [] ->
  ~ In doc_id (Chroma.ids st) ->
  add_item doc_id now role content history_uid conf_uid st
  = (Ok doc_id,
     st ++ [Chroma.mkEntry doc_id (strip content)
              (mkMeta role history_uid conf_uid now)]).
Proof.
  intros Hne Hfresh. now apply add_item_appends.
Qed.

Lemma C3_add_item_stores_any_role_witness :
  strip (lit " hi ") <> []
  /\ ~ In (lit "id-9") (Chroma.ids Samples.one_fact)
  /\ add_item (lit "id-9") 100 (lit "villain") (lit " hi ")
       (lit "h") (lit "c") Samples.one_fact
     = (Ok (lit "id-9"),
        Samples.one_fact
        ++ [Chroma.mkEntry (lit "id-9") (strip (lit " hi "))
              (mkMeta (lit "villain") (lit "h") (lit "c") 100)]).
Proof.
  assert (H1 : strip (lit " hi ") <> []) by (vm_compute; discriminate).
  assert (H2 : ~ In (lit "id-9") (Chroma.ids Samples.one_fact))
    by (apply str_in_false; reflexivity).
  split; [exact H1|]. split; [exact H2|].
  apply (C3_add_item_stores_any_role (lit "id-9") 100 (lit "villain")
           (lit " hi ") (lit "h") (lit "c") Samples.one_fact H1 H2).
Defined.

(** ** C5: blank writes and the content invariant *)

(** C5.  A write whose content is empty or white space only changes
    nothing on any write path: [add_item] returns the empty
    identifier, the profile writers return, the store (hence its
    count) is the same, and nothing is raised.  Every write path
    keeps the invariant that stored content is trimmed and not
    empty, and what [add_item] stores for other content is the
    trimmed text. *)
Theorem C5_blank_writes_are_dropped_and_content_stays_trimmed
        (doc_id : str) (now : Z) (role content history_uid conf_uid : str)
        (st : Store) :
  (forallb isspace content = true ->
   add_item doc_id now role content history_uid conf_uid st = (Ok [], st)
   /\ set_user_profile doc_id now history_uid conf_uid content st
      = (Ok tt, st)
   /\ add_to_user_profile doc_id now history_uid conf_uid content st
      = (Ok tt, st)
   /\ count (snd (add_item doc_id now role content history_uid conf_uid st))
      = count st)
  /\ (Forall content_ok st ->
      Forall content_ok
        (snd (add_item doc_id now role content history_uid conf_uid st))
      /\ Forall content_ok
           (snd (set_user_profile doc_id now history_uid conf_uid content st))
      /\ Forall content_ok
           (snd (add_to_user_profile doc_id now history_uid conf_uid
                   content st)))
  /\ (forallb isspace content = false ->
      ~ In doc_id (Chroma.ids st) ->
      snd (add_item doc_id now role content history_uid conf_uid st)
      = st ++ [Chroma.mkEntry doc_id (strip content)
                 (mkMeta role history_uid conf_uid now)]
      /\ content_ok (Chroma.mkEntry doc_id (strip content)
                       (mkMeta role history_uid conf_uid now))).
Proof.
  split; [|split].
  - intros Hblank. apply strip_nil_iff in Hblank.
    rewrite add_item_blank by assumption.
    rewrite set_user_profile_state, add_item_blank by assumption.
    unfold add_to_user_profile.
    apply blank_iff in Hblank. rewrite Hblank. auto.
  - intros Hst. split; [|split].
    + now apply add_item_content_ok.
    + rewrite set_user_profile_state. simpl.
      now apply add_item_content_ok.
    + destruct (add_to_user_profile_state doc_id now history_uid conf_uid
                  content st) as (merged & [-> | ->]); simpl;
        [now apply add_item_content_ok | exact Hst].
  - intros Hnb Hfresh.
    assert (Hne : strip content <> []).
    { intros H. apply strip_nil_iff in H. congruence. }
    rewrite add_item_appends by assumption.
    split; [reflexivity|].
    unfold content_ok; simpl. rewrite strip_idem. auto.
Qed.

Lemma C5_blank_writes_are_dropped_and_content_stays_trimmed_witness :
  forallb isspace (lit "  ") = true
  /\ add_item (lit "id-9") 200 ROLE_FACT (lit "  ") (lit "h") (lit "c")
       Samples.one_fact
     = (Ok [], Samples.one_fact)
  /\ Forall content_ok Samples.one_fact
  /\ Forall content_ok
       (snd (add_to_user_profile (lit "id-9") 200 (lit "h") (lit "c")
               (lit " Likes cats ") Samples.one_fact)).
Proof.
  assert (Hinv : Forall content_ok Samples.one_fact).
  { repeat constructor; vm_compute; discriminate. }
  destruct (C5_blank_writes_are_dropped_and_content_stays_trimmed
              (lit "id-9") 200 ROLE_FACT (lit "  ") (lit "h") (lit "c")
              Samples.one_fact) as (Hblank & _ & _).
  destruct (C5_blank_writes_are_dropped_and_content_stays_trimmed
              (lit "id-9") 200 ROLE_FACT (lit " Likes cats ") (lit "h")
              (lit "c") Samples.one_fact) as (_ & Hkeep & _).
  split; [reflexivity|].
  split; [exact (proj1 (Hblank eq_refl))|].
  split; [exact Hinv|].
  exact (proj2 (proj2 (Hkeep Hinv))).
Defined.

(** ** C7: the retention sweep *)

(** C7, the claim as stated, fails in two ways.  A number of days
    beyond what a [timedelta] holds makes the sweep raise
    [OverflowError]: nothing is deleted and no number is returned.
    And the cutoff is not the clock reading less [days] days where
    the offset of the local time zone changes in between: at 12:00 on
    the day the clocks went forward, a sweep of one day deletes a
    message that is twenty-three and a half hours old. *)
Lemma C7_counterexample :
  delete_older_than_days Samples.utc_stamp (Samples.at_second 101)
    1000000000 None None Samples.mixed
  = (Raise (PyException "OverflowError"
              "days=1000000000; must have magnitude <= 999999999"),
     Samples.mixed)
  /\ Samples.dst_stamp (Samples.at_second 1711886400) = Ok 1711879200
  /\ 1711879200 - 1 * 86400 <= 1711794600
  /\ delete_older_than_days Samples.dst_stamp
       (Samples.at_second 1711886400) 1 None None Samples.recent
     = (Ok 1, []).
Proof. vm_compute. repeat split; discriminate. Qed.

(** C7, amended.  Called without [exclude_roles], on a store whose
    identifiers are unique, [delete_older_than_days] first computes
    the cutoff [int((utcnow - timedelta(days)).timestamp())].  When
    that succeeds it removes exactly the items whose timestamp is
    below the cutoff, whose role is neither [fact] nor [user_profile],
    and whose thread is the given one when a thread is given; it keeps
    the other items in their order and returns the number of items it
    removed.  When the cutoff cannot be computed the error propagates
    and the store is as it was.  In both cases every [fact] and
    [user_profile] item is still stored, whatever its age and whatever
    [days] is.  The cutoff is the timestamp the platform gives the
    clock reading moved back by [days] days, provided [days] is at
    most 999999999 in magnitude and the date reached lies in the years
    1 to 9999, and the computation raises [OverflowError] otherwise.
    Where the platform converts the date reached with an offset of
    whole seconds, the cutoff is the clock reading in seconds, less
    the offset, less 86400 seconds per day, and the sweep removes
    the items below that. *)
Theorem C7_retention_sweep_spares_persistent_roles
        (stamp : Z -> result Z) (now days : Z)
        (history_uid : option str) (st : Store) :
  Chroma.wf st ->
  let result := delete_older_than_days stamp now days history_uid None st in
  let doomed (cutoff : Z) (e : Item) : Prop :=
    md_timestamp (Chroma.metadata e) < cutoff
    /\ (opt_truthy history_uid = true ->
        md_history_uid (Chroma.metadata e) = opt_get history_uid)
    /\ ~ In (md_role (Chroma.metadata e)) [ROLE_FACT; ROLE_USER_PROFILE] in
  let shifted := now - days * MICROSECONDS_PER_DAY in
  (forall cutoff, cutoff_time stamp now days = Ok cutoff ->
     (forall e, In e (snd result) <-> In e st /\ ~ doomed cutoff e)
     /\ snd result
        = filter (fun e => negb (expired cutoff history_uid
                                   [ROLE_FACT; ROLE_USER_PROFILE] e)) st
     /\ fst result
        = Ok (len (filter (expired cutoff history_uid
                             [ROLE_FACT; ROLE_USER_PROFILE]) st))
     /\ fst result = Ok (len st - len (snd result)))
  /\ (forall err, cutoff_time stamp now days = Raise err ->
        result = (Raise err, st))
  /\ (forall e, In e st ->
        In (md_role (Chroma.metadata e)) [ROLE_FACT; ROLE_USER_PROFILE] ->
        In e (snd result))
  /\ (- MAX_DELTA_DAYS <= days <= MAX_DELTA_DAYS ->
      0 <= shifted < DATETIME_RANGE ->
      cutoff_time stamp now days = stamp shifted)
  /\ (days < - MAX_DELTA_DAYS \/ MAX_DELTA_DAYS < days
      \/ shifted < 0 \/ DATETIME_RANGE <= shifted ->
      exists msg,
        cutoff_time stamp now days
        = Raise (PyException "OverflowError" msg))
  /\ (forall offset,
        stamp shifted = Ok (shifted / MICROSECONDS_PER_SECOND - offset) ->
        - MAX_DELTA_DAYS <= days <= MAX_DELTA_DAYS ->
        0 <= shifted < DATETIME_RANGE ->
        let cutoff := now / MICROSECONDS_PER_SECOND - offset
                      - days * SECONDS_PER_DAY in
        cutoff_time stamp now days = Ok cutoff
        /\ result
           = (Ok (len (filter (expired cutoff history_uid
                                 [ROLE_FACT; ROLE_USER_PROFILE]) st)),
              filter (fun e => negb (expired cutoff history_uid
                                       [ROLE_FACT; ROLE_USER_PROFILE] e))
                st)).
Proof.
  intros Hwf result doomed shifted.
  split; [|split; [|split; [|split; [|split]]]].
  - intros cutoff Hcut.
    assert (Hres : result
                   = (Ok (len (filter (expired cutoff history_uid
                                         PERSISTENT_ROLES) st)),
                      filter (fun e => negb (expired cutoff history_uid
                                               PERSISTENT_ROLES e)) st)).
    { unfold result.
      now rewrite (sweep_spec stamp now days history_uid None st cutoff). }
    change [ROLE_FACT; ROLE_USER_PROFILE] with PERSISTENT_ROLES.
    rewrite Hres. simpl fst. simpl snd.
    split; [|split; [reflexivity|split; [reflexivity|]]].
    + intros e. rewrite filter_In, negb_true_iff.
      unfold doomed. rewrite <- expired_iff.
      change PERSISTENT_ROLES with [ROLE_FACT; ROLE_USER_PROFILE].
      destruct (expired cutoff history_uid [ROLE_FACT; ROLE_USER_PROFILE] e);
        split; intros [H1 H2]; split; auto;
        first [ discriminate | intros H; discriminate H
              | exfalso; apply H2; reflexivity ].
    + f_equal.
      pose proof (filter_length_split
                    (expired cutoff history_uid PERSISTENT_ROLES) st) as Hsp.
      unfold len in *. lia.
  - intros err Hcut. unfold result. now apply sweep_raises.
  - intros e He Hrole. unfold result.
    now apply (sweep_keeps stamp now days history_uid None st Hwf).
  - apply cutoff_time_in_range.
  - apply cutoff_time_out_of_range.
  - intros offset Hstamp Hd Ht cutoff.
    assert (Hcut : cutoff_time stamp now days = Ok cutoff)
      by now apply cutoff_time_offset.
    split; [exact Hcut|]. unfold result.
    now rewrite (sweep_spec stamp now days history_uid None st cutoff).
Qed.

Lemma C7_retention_sweep_spares_persistent_roles_witness :
  Chroma.wf Samples.mixed
  /\ cutoff_time Samples.utc_stamp (Samples.at_second 100) 0 = Ok 100
  /\ delete_older_than_days Samples.utc_stamp (Samples.at_second 100) 0
       None None Samples.mixed
     = (Ok 0, Samples.mixed)
  /\ cutoff_time Samples.utc_stamp (Samples.at_second 101) 0 = Ok 101
  /\ delete_older_than_days Samples.utc_stamp (Samples.at_second 101) 0
       (Some (lit "h")) None Samples.mixed
     = (Ok 3,
        [Samples.item "id-3" "Likes tea" ROLE_FACT "h" "c" 100;
         Samples.item "id-5" "Name: Sasha" ROLE_USER_PROFILE "h" "c" 100;
         Samples.item "id-6" "talked about cats" ROLE_SUMMARY
           "other" "c" 100]).
Proof.
  assert (Hwf : Chroma.wf Samples.mixed) by solve_wf.
  assert (H100 : cutoff_time Samples.utc_stamp (Samples.at_second 100) 0
                 = Ok 100) by reflexivity.
  assert (H101 : cutoff_time Samples.utc_stamp (Samples.at_second 101) 0
                 = Ok 101) by reflexivity.
  split; [exact Hwf|]. split; [exact H100|]. split; [|split; [exact H101|]].
  - destruct (C7_retention_sweep_spares_persistent_roles Samples.utc_stamp
                (Samples.at_second 100) 0 None Samples.mixed Hwf)
      as (Hok & _).
    destruct (Hok 100 H100) as (_ & Hst & Hn & _).
    apply injective_projections; [rewrite Hn | rewrite Hst]; reflexivity.
  - destruct (C7_retention_sweep_spares_persistent_roles Samples.utc_stamp
                (Samples.at_second 101) 0 (Some (lit "h")) Samples.mixed Hwf)
      as (Hok & _).
    destruct (Hok 101 H101) as (_ & Hst & Hn & _).
    apply injective_projections; [rewrite Hn | rewrite Hst]; reflexivity.
Defined.

(** ** C10: an empty exclusion set *)

(** C10.  Passing the empty set as [exclude_roles] gives the same
    result and the same store as passing nothing, because the empty
    set is falsy in [exclude_roles or PERSISTENT_ROLES]; so, on a
    store whose identifiers are unique, every [fact] and
    [user_profile] item survives such a call. *)
Theorem C10_empty_exclusion_set_means_default
        (stamp : Z -> result Z) (now days : Z)
        (history_uid : option str) (st : Store) :
  delete_older_than_days stamp now days history_uid (Some []) st
  = delete_older_than_days stamp now days history_uid None st
  /\ (Chroma.wf st ->
      forall e, In e st ->
        In (md_role (Chroma.metadata e)) [ROLE_FACT; ROLE_USER_PROFILE] ->
        In e (snd (delete_older_than_days stamp now days history_uid
                     (Some []) st))).
Proof.
  split; [reflexivity|].
  intros Hwf e He Hrole.
  now apply (sweep_keeps stamp now days history_uid (Some []) st Hwf).
Qed.

Lemma C10_empty_exclusion_set_means_default_witness :
  Chroma.wf Samples.mixed
  /\ delete_older_than_days Samples.utc_stamp (Samples.at_second 101) 0
       None (Some []) Samples.mixed
     = delete_older_than_days Samples.utc_stamp (Samples.at_second 101) 0
         None None Samples.mixed
  /\ In (Samples.item "id-3" "Likes tea" ROLE_FACT "h" "c" 100)
       (snd (delete_older_than_days Samples.utc_stamp
               (Samples.at_second 101) 0 None (Some []) Samples.mixed)).
Proof.
  assert (Hwf : Chroma.wf Samples.mixed) by solve_wf.
  destruct (C10_empty_exclusion_set_means_default Samples.utc_stamp
              (Samples.at_second 101) 0 None Samples.mixed)
    as (Heq & Hkeep).
  split; [exact Hwf|]. split; [exact Heq|].
  apply (Hkeep Hwf); [right; right; left; reflexivity | left; reflexivity].
Defined.

(** ** C6: the active profile *)

Section ProfileFacts.

Lemma insert_desc_In (x e : Item) (l : list Item) :
  In x (insert_desc e l) <-> x = e \/ In x l.
Proof.
  induction l as [|y l IH]; simpl; [intuition|].
  destruct (md_timestamp (Chroma.metadata e)
            <? md_timestamp (Chroma.metadata y)); simpl;
    rewrite ?IH; intuition.
Qed.

Lemma sort_desc_In (x : Item) (l : list Item) :
  In x (sort_desc l) <-> In x l.
Proof.
  induction l as [|y l IH]; simpl; [tauto|].
  rewrite insert_desc_In, IH. intuition.
Qed.

(** An item that is at least as recent as all others goes to the
    front. *)
Lemma insert_desc_front (e : Item) (l : list Item) :
  (forall x, In x l -> ts x <= ts e) -> insert_desc e l = e :: l.
Proof.
  destruct l as [|y l]; simpl; [reflexivity|].
  intros H. specialize (H y (or_introl eq_refl)). unfold ts in H.
  destruct (Z.ltb_spec (md_timestamp (Chroma.metadata e))
              (md_timestamp (Chroma.metadata y))); [lia | reflexivity].
Qed.

(** The sort puts in front the first of the items with the largest
    timestamp. *)
Lemma sort_desc_head (before after : list Item) (e : Item) :
  (forall x, In x before -> ts x < ts e) ->
  (forall x, In x after -> ts x <= ts e) ->
  exists rest, sort_desc (before ++ e :: after) = e :: rest.
Proof.
  intros Hb Ha. induction before as [|a before IH]; simpl.
  - exists (sort_desc after). apply insert_desc_front.
    intros x Hx. apply Ha. now apply sort_desc_In.
  - destruct IH as (rest & Hrest);
      [intros x Hx; apply Hb; now right|].
    rewrite Hrest. simpl.
    specialize (Hb a (or_introl eq_refl)). unfold ts in Hb.
    destruct (Z.ltb_spec (md_timestamp (Chroma.metadata a))
                (md_timestamp (Chroma.metadata e))); [|lia].
    eexists; reflexivity.
Qed.

(** Such an item exists in every list that is not empty. *)
Lemma first_latest_exists (l : list Item) :
  l <> [] ->
  exists e before after,
    l = before ++ e :: after
    /\ (forall x, In x before -> ts x < ts e)
    /\ (forall x, In x after -> ts x <= ts e).
Proof.
  induction l as [|a l IH]; [congruence|]. intros _.
  destruct l as [|b l'].
  - exists a, [], []. simpl. repeat split; intros x [].
  - destruct IH as (e & before & after & Hl & Hb & Ha); [congruence|].
    destruct (Z.lt_ge_cases (ts a) (ts e)) as [Hlt|Hge].
    + exists e, (a :: before), after. rewrite Hl. simpl.
      repeat split; auto.
      intros x [<-|Hx]; auto.
    + exists a, [], (b :: l').
      split; [reflexivity|]. split; [intros x []|].
      intros x Hx. rewrite Hl in Hx. apply in_app_or in Hx.
      destruct Hx as [Hx|[<-|Hx]];
        [specialize (Hb x Hx) | | specialize (Ha x Hx)]; lia.
Qed.

Lemma get_user_profile_unfold (h c : str) (st : Store) :
  get_user_profile h c st
  = match sort_desc (profile_items h c st) with
    | [] => []
    | p :: _ => strip (Chroma.document p)
    end.
Proof. reflexivity. Qed.

(** A profile item written for a scope is selected by the filter of
    that scope. *)
Lemma scope_where_self (r h c : str) (now : Z) :
  eval_where (scope_where r h c) (mkMeta r h c now) = true.
Proof.
  unfold scope_where. destruct (truthy c); simpl;
    rewrite ?str_eqb_refl; reflexivity.
Qed.

Lemma profile_items_app (h c : str) (st st' : Store) :
  profile_items h c (st ++ st')
  = profile_items h c st ++ profile_items h c st'.
Proof. unfold profile_items, Chroma.get. apply filter_app. Qed.

Lemma profile_items_own (h c id doc : str) (now : Z) :
  profile_items h c
    [Chroma.mkEntry id doc (mkMeta ROLE_USER_PROFILE h c now)]
  = [Chroma.mkEntry id doc (mkMeta ROLE_USER_PROFILE h c now)].
Proof.
  unfold profile_items, Chroma.get. cbn [filter Chroma.metadata].
  rewrite scope_where_self. reflexivity.
Qed.

Lemma set_user_profile_appends (id : str) (now : Z) (h c content : str)
      (st : Store) :
  strip content <> [] -> ~ In id (Chroma.ids st) ->
  snd (set_user_profile id now h c content st)
  = st ++ [Chroma.mkEntry id (strip content)
             (mkMeta ROLE_USER_PROFILE h c now)].
Proof.
  intros Hne Hfresh.
  rewrite set_user_profile_state. simpl.
  now rewrite add_item_appends.
Qed.

End ProfileFacts.

(** C6, as stated, fails: timestamps are whole seconds, and of two
    profiles written within the same second the one written first is
    read; and what is read is the trimmed text of a write, not its
    text. *)
Lemma C6_counterexample :
  (let st1 := snd (set_user_profile (lit "id-1") 100 (lit "h") (lit "c")
                     (lit "Likes cats") []) in
   let st2 := snd (set_user_profile (lit "id-2") 100 (lit "h") (lit "c")
                     (lit "Dislikes cats") st1) in
   get_user_profile (lit "h") (lit "c") st2 = lit "Likes cats")
  /\ (let st1 := snd (set_user_profile (lit "id-1") 100 (lit "h") (lit "c")
                        (lit "Likes cats") []) in
      let st2 := snd (set_user_profile (lit "id-2") 200 (lit "h") (lit "c")
                        (lit " Dislikes cats ") st1) in
      get_user_profile (lit "h") (lit "c") st2 = lit "Dislikes cats").
Proof. split; reflexivity. Qed.

(** C6, amended.  [get_user_profile] returns the empty string when
    the scope has no [user_profile] item, and otherwise the trimmed
    content of an item of the scope whose timestamp is the largest.
    So after two [set_user_profile] calls
    for a scope, with contents that are not blank, fresh identifiers
    and clock readings [t1 < t2] (whole seconds), where no profile of
    the scope is as recent as [t2], it returns the trimmed content of
    the second call. *)
Theorem C6_latest_profile_wins
        (history_uid conf_uid : str) (st : Store) :
  (profile_items history_uid conf_uid st = [] ->
   get_user_profile history_uid conf_uid st = [])
  /\ (profile_items history_uid conf_uid st <> [] ->
      exists e,
        In e (profile_items history_uid conf_uid st)
        /\ (forall x, In x (profile_items history_uid conf_uid st) ->
                      ts x <= ts e)
        /\ get_user_profile history_uid conf_uid st
           = strip (Chroma.document e))
  /\ (forall (id1 id2 : str) (t1 t2 : Z) (content1 content2 : str),
        strip content1 <> [] -> strip content2 <> [] ->
        ~ In id1 (Chroma.ids st) -> ~ In id2 (Chroma.ids st) ->
        id1 <> id2 ->
        t1 < t2 ->
        (forall e, In e (profile_items history_uid conf_uid st) ->
                   ts e < t2) ->
        let st1 := snd (set_user_profile id1 t1 history_uid conf_uid
                          content1 st) in
        let st2 := snd (set_user_profile id2 t2 history_uid conf_uid
                          content2 st1) in
        get_user_profile history_uid conf_uid st2 = strip content2).
Proof.
  split; [|split].
  - intros H. rewrite get_user_profile_unfold, H. reflexivity.
  - intros H.
    destruct (first_latest_exists _ H) as (e & before & after & Hl & Hb & Ha).
    exists e. split; [rewrite Hl; apply in_elt|]. split.
    + intros x Hx. rewrite Hl in Hx. apply in_app_or in Hx.
      destruct Hx as [Hx|[<-|Hx]];
        [specialize (Hb x Hx) | | specialize (Ha x Hx)]; lia.
    + rewrite get_user_profile_unfold, Hl.
      destruct (sort_desc_head before after e Hb Ha) as (rest & ->).
      reflexivity.
  - intros id1 id2 t1 t2 content1 content2 Hc1 Hc2 Hf1 Hf2 Hids Ht Hold
           st1 st2.
    assert (Hst1 : st1 = st ++ [Chroma.mkEntry id1 (strip content1)
                                  (mkMeta ROLE_USER_PROFILE history_uid
                                     conf_uid t1)]).
    { unfold st1. now apply set_user_profile_appends. }
    assert (Hst2 : st2 = st1 ++ [Chroma.mkEntry id2 (strip content2)
                                   (mkMeta ROLE_USER_PROFILE history_uid
                                      conf_uid t2)]).
    { unfold st2. apply set_user_profile_appends; [assumption|].
      rewrite Hst1. unfold Chroma.ids. rewrite map_app. simpl.
      intros Hin. apply in_app_or in Hin.
      destruct Hin as [Hin|[Hin|[]]]; [now apply Hf2 | congruence]. }
    rewrite get_user_profile_unfold, Hst2, Hst1.
    rewrite !profile_items_app, !profile_items_own.
    set (e1 := Chroma.mkEntry id1 (strip content1)
                 (mkMeta ROLE_USER_PROFILE history_uid conf_uid t1)).
    set (e2 := Chroma.mkEntry id2 (strip content2)
                 (mkMeta ROLE_USER_PROFILE history_uid conf_uid t2)).
    assert (Hhead : exists rest,
               sort_desc ((profile_items history_uid conf_uid st ++ [e1])
                          ++ e2 :: [])
               = e2 :: rest).
    { apply sort_desc_head; [|intros x []].
      intros x Hx. apply in_app_or in Hx.
      destruct Hx as [Hx|[<-|[]]]; [now apply Hold|].
      unfold ts; simpl; lia. }
    destruct Hhead as (rest & ->). simpl. apply strip_idem.
Qed.

Lemma C6_latest_profile_wins_witness :
  let st1 := snd (set_user_profile (lit "id-8") 150 (lit "h") (lit "c")
                    (lit "Likes cats") Samples.mixed) in
  let st2 := snd (set_user_profile (lit "id-9") 151 (lit "h") (lit "c")
                    (lit " Dislikes cats ") st1) in
  get_user_profile (lit "h") (lit "c") st2 = strip (lit " Dislikes cats ").
Proof.
  destruct (C6_latest_profile_wins (lit "h") (lit "c") Samples.mixed)
    as (_ & _ & Htwo).
  apply (Htwo (lit "id-8") (lit "id-9") 150 151 (lit "Likes cats")
           (lit " Dislikes cats ")).
  - vm_compute; discriminate.
  - vm_compute; discriminate.
  - apply str_in_false; reflexivity.
  - apply str_in_false; reflexivity.
  - vm_compute; discriminate.
  - lia.
  - intros e He. vm_compute in He. destruct He as [<-|[]].
    vm_compute. reflexivity.
Defined.

(** ** C2: queries that ask for no result *)

Section QueryFacts.

Variable rank : str -> list Item -> list Item.

(** An empty store answers every query with the empty list. *)
Lemma query_empty_store (q : str) (n : Z) (h c : option str)
      (roles : option (list str)) :
  query rank q n h c roles [] = Ok [].
Proof. reflexivity. Qed.

(** On a store that holds something, a request for zero or fewer
    results reaches [collection.query] and is refused there. *)
Lemma query_without_results_raises (q : str) (n : Z) (h c : option str)
      (roles : option (list str)) (st : Store) :
  st <> [] -> n <= 0 ->
  exists e, query rank q n h c roles st = Raise e.
Proof.
  intros Hne Hn. unfold query. rewrite query_accepted.
  unfold Chroma.count, len.
  destruct st as [|x st]; [congruence|]. simpl length.
  destruct (Z.eqb_spec (Z.of_nat (S (length st))) 0); [lia|].
  destruct (Z.leb_spec (Z.min n (Z.of_nat (S (length st)))) 0); [|lia].
  eexists; reflexivity.
Qed.

(** [ChromaRAG.query] has the guard. *)
Lemma rag_query_without_results (q : str) (n : Z)
      (w : option (result (Metadata -> bool))) (st : Store) :
  st = [] \/ Z.min n (Chroma.count st) <= 0 ->
  ChromaRAG.query rank q n w st = Ok [].
Proof.
  intros H. unfold ChromaRAG.query.
  destruct (Z.eqb_spec (Chroma.count st) 0); [reflexivity|].
  destruct H as [->|H]; [unfold Chroma.count, len in *; simpl in *; lia|].
  destruct (Z.leb_spec (Z.min n (Chroma.count st)) 0); [reflexivity|lia].
Qed.

End QueryFacts.

(** C2.  On an empty store [DialogueMemory.query] returns the empty
    list for every [n].  On a store that holds an item it does not:
    for [n <= 0] it hands [min(n, count) <= 0] to the collection,
    whose query raises, and the error reaches the caller (shown for
    the one-fact store with [n = 0] and [n = -3]).  [ChromaRAG.query]
    returns the empty list in both situations, because it tests
    [n_results <= 0] before it queries. *)
Theorem C2_memory_query_raises_when_no_result_is_asked
        (rank : str -> list Item -> list Item) (query_text : str)
        (history_uid conf_uid : option str) (roles : option (list str)) :
  (forall n, query rank query_text n history_uid conf_uid roles [] = Ok [])
  /\ is_ok (query rank query_text 0 history_uid conf_uid roles
              Samples.one_fact) = false
  /\ is_ok (query rank query_text (-3) history_uid conf_uid roles
              Samples.one_fact) = false
  /\ (forall n st, st <> [] -> n <= 0 ->
        exists e, query rank query_text n history_uid conf_uid roles st
                  = Raise e)
  /\ (forall n w st, st = [] \/ Z.min n (Chroma.count st) <= 0 ->
        ChromaRAG.query rank query_text n w st = Ok []).
Proof.
  assert (Hraise : forall n st, st <> [] -> n <= 0 ->
             exists e, query rank query_text n history_uid conf_uid roles st
                       = Raise e).
  { intros n st Hne Hn. now apply query_without_results_raises. }
  assert (Hone : Samples.one_fact <> [])
    by (unfold Samples.one_fact; discriminate).
  split; [intros n; apply query_empty_store|].
  split; [destruct (Hraise 0 Samples.one_fact Hone) as [e ->];
          [lia | reflexivity]|].
  split; [destruct (Hraise (-3) Samples.one_fact Hone) as [e ->];
          [lia | reflexivity]|].
  split.
  - exact Hraise.
  - intros n w st H. now apply rag_query_without_results.
Qed.

(** ** C8: failures stay inside the scheduler *)

Section ProcessFacts.

Import MemoryProcessor.

Variable W : Type.

(** A block whose handler only logs ends normally. *)
Lemma try_except_log (body : M W unit) (w : W) :
  exists w', try_except body (fun _ => log) w = (Ok tt, w').
Proof.
  unfold try_except, log, ret.
  destruct (body w) as [[[]|e] w']; eexists; reflexivity.
Qed.

End ProcessFacts.

(** C8.  Whatever the chat history, the LLM and the store do, each
    of them free to raise at any call and to change the world,
    [process_memory_background] returns normally. *)
Theorem C8_background_processing_never_raises
        (W : Type)
        (get_history : str -> str
                       -> MemoryProcessor.M W
                            (list MemoryProcessor.HistoryMessage))
        (conf_uid history_uid : str)
        (dialogue_memory : option (MemoryProcessor.Memory W))
        (llm_prompt_fn : list MemoryProcessor.LLMMessage
                         -> MemoryProcessor.SystemPrompt
                         -> MemoryProcessor.M W str)
        (message_count : Z) (w : W) :
  exists w',
    MemoryProcessor.process_memory_background get_history conf_uid
      history_uid dialogue_memory llm_prompt_fn message_count w
    = (Ok tt, w').
Proof.
  unfold MemoryProcessor.process_memory_background.
  destruct dialogue_memory as [dm|]; [|eexists; reflexivity].
  destruct (negb (truthy history_uid) || negb (truthy conf_uid));
    [eexists; reflexivity|].
  apply try_except_log.
Qed.

(** ** C4: the cadence *)

Section SchedulerFacts.

Import MemoryProcessor Instrumented.

Variable uuid4 : nat -> str.
Variable utcnow : nat -> Z.
Variable llm : list SystemPrompt -> list LLMMessage -> SystemPrompt
               -> result str.
Variable history : str -> str -> result (list HistoryMessage).

Let mem := memory uuid4 utcnow.
Let ask := llm_prompt_fn llm.

Lemma effect_ret (w : World) : effect (ret tt) w [].
Proof. exists w. now rewrite app_nil_r. Qed.

Lemma add_item_quiet (r content h c : str) (w : World) :
  exists v w',
    add_item mem r content h c w = (Ok v, w')
    /\ llm_calls w' = llm_calls w.
Proof.
  unfold mem, memory; cbn [add_item].
  pose proof (add_item_ok (uuid4 (ticks w)) (utcnow (ticks w)) r content
                h c (store w)) as Hok.
  destruct (DialogueMemory.add_item (uuid4 (ticks w)) (utcnow (ticks w))
              r content h c (store w)) as [[v|e] st']; simpl in Hok;
    [|discriminate].
  exists v. eexists. split; reflexivity.
Qed.

Lemma set_user_profile_quiet (h c content : str) (w : World) :
  exists w',
    set_user_profile mem h c content w = (Ok tt, w')
    /\ llm_calls w' = llm_calls w.
Proof.
  unfold mem, memory; cbn [set_user_profile].
  rewrite set_user_profile_state. eexists. split; reflexivity.
Qed.

Lemma store_facts_quiet (h c : str) (facts : list str) :
  forall w,
    effect (for_each facts
              (fun fact =>
                 bind (add_item mem (lit "fact") fact h c)
                   (fun _ => ret tt))) w [].
Proof.
  induction facts as [|f facts IH]; intros w; [apply effect_ret|].
  unfold effect. cbn [for_each]. unfold bind at 1. unfold bind at 1.
  destruct (add_item_quiet (lit "fact") f h c w) as (v & w1 & -> & Hc).
  unfold ret at 1.
  destruct (IH w1) as (w2 & E & Hc2).
  exists w2. split; [exact E | congruence].
Qed.

Lemma merge_profile_effect (c h : str) (all_facts : list str) (w : World) :
  effect (merge_profile ask mem c h all_facts) w [PROFILE_MERGE_SYSTEM].
Proof.
  unfold effect, merge_profile, try_except, bind, ask, llm_prompt_fn, log,
    ret.
  destruct (llm (llm_calls w) _ PROFILE_MERGE_SYSTEM) as [merged|e].
  - destruct (truthy merged && truthy (strip merged)).
    + match goal with
      | |- context [set_user_profile mem ?a ?b ?x ?y] =>
          destruct (set_user_profile_quiet a b x y) as (w1 & -> & Hc)
      end.
      eexists. split; [reflexivity | exact Hc].
    + eexists. split; reflexivity.
  - eexists. split; reflexivity.
Qed.

Lemma extract_facts_effect (c h dialog_text : str) (w : World) :
  exists l,
    effect (extract_facts ask mem c h dialog_text) w
      (FACT_EXTRACTION_SYSTEM :: l)
    /\ (l = [] \/ l = [PROFILE_MERGE_SYSTEM]).
Proof.
  unfold effect, extract_facts, try_except.
  unfold bind at 1. unfold ask at 1, llm_prompt_fn at 1.
  destruct (llm (llm_calls w) _ FACT_EXTRACTION_SYSTEM) as [facts_text|e].
  - destruct (truthy facts_text && truthy (strip facts_text)).
    + unfold bind at 1.
      match goal with
      | |- context [for_each ?fs _ ?w0] =>
          destruct (store_facts_quiet h c fs w0) as (w1 & -> & Hc1)
      end.
      unfold bind at 1. cbn [get_all_facts mem memory].
      destruct (truthy (DialogueMemory.get_all_facts h c 50 (store w1))).
      * unfold bind at 1.
        match goal with
        | |- context [merge_profile ask mem ?a ?b ?fs ?w0] =>
            destruct (merge_profile_effect a b fs w0) as (w2 & -> & Hc2)
        end.
        exists [PROFILE_MERGE_SYSTEM]. split; [|now right].
        exists w2. split; [reflexivity|].
        rewrite Hc2, Hc1, app_nil_r. simpl. now rewrite <- app_assoc.
      * exists []. split; [|now left].
        exists w1. split; [reflexivity|].
        rewrite Hc1, app_nil_r. reflexivity.
    + exists []. split; [|now left]. eexists. split; reflexivity.
  - exists []. split; [|now left]. eexists. split; reflexivity.
Qed.

Lemma summarize_effect (c h dialog_text : str) (w : World) :
  effect (summarize ask mem c h dialog_text) w [SUMMARY_SYSTEM].
Proof.
  unfold effect, summarize, try_except.
  unfold bind at 1. unfold ask at 1, llm_prompt_fn at 1.
  destruct (llm (llm_calls w) _ SUMMARY_SYSTEM) as [summary_text|e].
  - destruct (truthy summary_text && truthy (strip summary_text)).
    + unfold bind at 1.
      match goal with
      | |- context [add_item mem ?r ?x ?a ?b ?w0] =>
          destruct (add_item_quiet r x a b w0) as (v & w1 & -> & Hc)
      end.
      exists w1. split; [reflexivity | exact Hc].
    + eexists. split; reflexivity.
  - eexists. split; reflexivity.
Qed.

End SchedulerFacts.

Section RunFacts.

Import MemoryProcessor Instrumented.

Lemma suffix_nonempty {A} (l : list A) :
  l <> [] -> suffix_from l (- Z.min 10 (len l)) <> [].
Proof.
  intros Hne. unfold suffix_from, adjust, len.
  assert (Hpos : (0 < length l)%nat)
    by (destruct l; [congruence | simpl; lia]).
  destruct (Z.ltb_spec (- Z.min 10 (Z.of_nat (length l))) 0); [|lia].
  destruct (Z.ltb_spec (- Z.min 10 (Z.of_nat (length l))
                        + Z.of_nat (length l)) 0); [lia|].
  intros Hnil. apply (f_equal (@length A)) in Hnil.
  rewrite length_skipn in Hnil. simpl in Hnil. lia.
Qed.

Lemma starts_with_nonspace_not_blank (c : char) (s : str) :
  isspace c = false -> strip (c :: s) <> [].
Proof.
  intros Hc H. apply strip_nil_iff in H. simpl in H.
  rewrite Hc in H. discriminate.
Qed.

(** The rendered dialogue starts with a speaker label, so it is
    never blank. *)
Lemma dialog_text_not_blank (recent : list HistoryMessage) :
  recent <> [] ->
  strip (join NEWLINE (map render_message recent)) <> [].
Proof.
  destruct recent as [|m rest]; [congruence|]. intros _.
  assert (Hfirst : exists c s, isspace c = false
                               /\ render_message m = c :: s).
  { unfold render_message.
    destruct (str_eqb (msg_role m) (lit "human")); eexists; eexists;
      (split; [|reflexivity]); reflexivity. }
  destruct Hfirst as (c & s & Hc & Hm).
  cbn [map join]. rewrite Hm.
  destruct (map render_message rest); simpl;
    now apply starts_with_nonspace_not_blank.
Qed.

Variable uuid4 : nat -> str.
Variable utcnow : nat -> Z.
Variable llm : list SystemPrompt -> list LLMMessage -> SystemPrompt
               -> result str.
Variable history : str -> str -> result (list HistoryMessage).

(** What a run asks the LLM: the fact extraction (and possibly the
    profile merge) when fact extraction is due, then the summary when
    the summary is due. *)
Lemma run_effect (conf_uid history_uid : str)
      (msgs : list HistoryMessage) (message_count : Z) (w : World) :
  conf_uid <> [] -> history_uid <> [] ->
  history conf_uid history_uid = Ok msgs -> msgs <> [] ->
  exists l,
    effect (run uuid4 utcnow llm history conf_uid history_uid
              message_count) w
      ((if fact_extraction_due message_count
        then FACT_EXTRACTION_SYSTEM :: l else [])
       ++ (if summary_due message_count then [SUMMARY_SYSTEM] else []))
    /\ (l = [] \/ l = [PROFILE_MERGE_SYSTEM]).
Proof.
  intros Hc Hh Hhist Hmsgs.
  unfold effect, run, process_memory_background.
  apply truthy_true in Hc, Hh. rewrite Hc, Hh. cbn [negb orb].
  unfold try_except. unfold bind at 1. unfold get_history at 1.
  rewrite Hhist.
  pose proof Hmsgs as Hmsgs'. apply truthy_true in Hmsgs'.
  rewrite Hmsgs'. cbn [negb].
  set (dialog_text :=
         join NEWLINE
           (map render_message
              (suffix_from msgs (- Z.min 10 (len msgs))))).
  assert (Hd : truthy (strip dialog_text) = true).
  { apply truthy_true. apply dialog_text_not_blank.
    now apply suffix_nonempty. }
  rewrite Hd. cbn [negb]. unfold bind at 1.
  destruct (fact_extraction_due message_count).
  - destruct (extract_facts_effect uuid4 utcnow llm conf_uid history_uid
                dialog_text w) as (l & (w1 & -> & Hc1) & Hl).
    exists l. split; [|exact Hl].
    destruct (summary_due message_count).
    + destruct (summarize_effect uuid4 utcnow llm conf_uid history_uid
                  dialog_text w1) as (w2 & -> & Hc2).
      exists w2. split; [reflexivity|].
      rewrite Hc2, Hc1, <- app_assoc. reflexivity.
    + exists w1. split; [reflexivity|].
      rewrite Hc1, app_nil_r. reflexivity.
  - exists []. split; [|now left]. unfold ret at 1.
    destruct (summary_due message_count).
    + destruct (summarize_effect uuid4 utcnow llm conf_uid history_uid
                  dialog_text w) as (w2 & -> & Hc2).
      exists w2. split; [reflexivity | exact Hc2].
    + exists w. split; [reflexivity|]. now rewrite app_nil_r.
Qed.

Lemma run_called (conf_uid history_uid : str)
      (msgs : list HistoryMessage) (message_count : Z) (w : World) :
  conf_uid <> [] -> history_uid <> [] ->
  history conf_uid history_uid = Ok msgs -> msgs <> [] ->
  llm_calls w = [] ->
  let w' := snd (run uuid4 utcnow llm history conf_uid history_uid
                   message_count w) in
  called FACT_EXTRACTION_SYSTEM w' = fact_extraction_due message_count
  /\ called SUMMARY_SYSTEM w' = summary_due message_count.
Proof.
  intros Hc Hh Hhist Hmsgs Hw w'.
  destruct (run_effect conf_uid history_uid msgs message_count w
              Hc Hh Hhist Hmsgs) as (l & (w1 & Hrun & Hcalls) & Hl).
  unfold w'. rewrite Hrun. simpl snd. unfold called.
  rewrite Hcalls, Hw. simpl app.
  destruct (fact_extraction_due message_count),
    (summary_due message_count), Hl as [-> | ->]; split; reflexivity.
Qed.

End RunFacts.

Import MemoryProcessor.

Example sample_run_at_6 :
  let w := snd (Instrumented.run Samples.uuid4 Samples.utcnow Samples.llm
                  Samples.history (lit "c") (lit "h") 6
                  Samples.fresh_world) in
  Instrumented.llm_calls w
  = [FACT_EXTRACTION_SYSTEM; PROFILE_MERGE_SYSTEM; SUMMARY_SYSTEM]
  /\ map (fun e => (Chroma.document e, md_role (Chroma.metadata e), ts e))
       (Instrumented.store w)
     = [(lit "Name: Sasha", ROLE_FACT, 1000);
        (lit "Likes tea", ROLE_FACT, 1001);
        (lit "Name: Sasha; likes tea", ROLE_USER_PROFILE, 1002);
        (lit "They talked about tea.", ROLE_SUMMARY, 1003)].
Proof. vm_compute. split; reflexivity. Qed.

(** When the LLM fails, the failed fact extraction does not keep the
    summary from being tried, nothing is stored, and the run ends
    normally. *)
Example sample_run_with_failing_llm :
  Instrumented.run Samples.uuid4 Samples.utcnow Samples.failing_llm
    Samples.history (lit "c") (lit "h") 6 Samples.fresh_world
  = (Ok tt,
     Instrumented.mkWorld [] 0 [FACT_EXTRACTION_SYSTEM; SUMMARY_SYSTEM]).
Proof. reflexivity. Qed.

(** The scenario of a 1000-character file cut with [chunk_size = 512]
    and [chunk_overlap = 64]. *)
Example chunk_1000_512_64 :
  option_map (map (@len _)) (_chunk_text (repeat 97%N 1000) 512 64)
  = Some [512; 512; 104].
Proof. vm_compute. reflexivity. Qed.

Example chunk_500_512_64 :
  option_map (map (@len _)) (_chunk_text (repeat 97%N 500) 512 64)
  = Some [500; 52].
Proof. vm_compute. reflexivity. Qed.

Ltac cadence_case :=
  split; split; intros H;
  first [ reflexivity
        | vm_compute in H; discriminate H
        | simpl; lia
        | simpl in H; lia ].

(** C4.  Fact extraction is due exactly when [message_count >= 3]
    and [(message_count - 3) mod 3 = 0], the summary exactly when
    [message_count >= 6] and [(message_count - 6) mod 6 = 0]; for the
    counts 1 to 20 these are the counts 3, 6, 9, 12, 15, 18 and 6,
    12, 18.  A run of the scheduler on a thread with a chat history,
    started with no LLM call made, asks the LLM for facts exactly
    when fact extraction is due and for a summary exactly when the
    summary is due, whatever the LLM answers. *)
Theorem C4_cadence (message_count : Z) :
  (fact_extraction_due message_count = true
   <-> 3 <= message_count /\ (message_count - 3) mod 3 = 0)
  /\ (summary_due message_count = true
      <-> 6 <= message_count /\ (message_count - 6) mod 6 = 0)
  /\ (1 <= message_count <= 20 ->
      (fact_extraction_due message_count = true
       <-> In message_count [3; 6; 9; 12; 15; 18])
      /\ (summary_due message_count = true
          <-> In message_count [6; 12; 18]))
  /\ (forall uuid4 utcnow llm history conf_uid history_uid msgs w,
        conf_uid <> [] -> history_uid <> [] ->
        history conf_uid history_uid = Ok msgs -> msgs <> [] ->
        Instrumented.llm_calls w = [] ->
        let w' := snd (Instrumented.run uuid4 utcnow llm history
                         conf_uid history_uid message_count w) in
        Instrumented.called FACT_EXTRACTION_SYSTEM w'
        = fact_extraction_due message_count
        /\ Instrumented.called SUMMARY_SYSTEM w'
           = summary_due message_count).
Proof.
  split; [|split; [|split]].
  - unfold fact_extraction_due, FACT_EXTRACT_EVERY.
    rewrite andb_true_iff, Z.leb_le, Z.eqb_eq. tauto.
  - unfold summary_due, SUMMARY_EVERY.
    rewrite andb_true_iff, Z.leb_le, Z.eqb_eq. tauto.
  - intros Hrange.
    assert (Hcases : message_count = 1 \/ message_count = 2
                     \/ message_count = 3 \/ message_count = 4
                     \/ message_count = 5 \/ message_count = 6
                     \/ message_count = 7 \/ message_count = 8
                     \/ message_count = 9 \/ message_count = 10
                     \/ message_count = 11 \/ message_count = 12
                     \/ message_count = 13 \/ message_count = 14
                     \/ message_count = 15 \/ message_count = 16
                     \/ message_count = 17 \/ message_count = 18
                     \/ message_count = 19 \/ message_count = 20) by lia.
    repeat (destruct Hcases as [-> | Hcases]; [cadence_case|]).
    subst message_count. cadence_case.
  - intros uuid4 utcnow llm history conf_uid history_uid msgs w
           Hc Hh Hhist Hmsgs Hw.
    now apply (run_called uuid4 utcnow llm history conf_uid history_uid
                 msgs).
Qed.

Lemma C4_cadence_witness :
  1 <= 6 <= 20
  /\ fact_extraction_due 6 = true
  /\ summary_due 6 = true
  /\ Instrumented.called SUMMARY_SYSTEM
       (snd (Instrumented.run Samples.uuid4 Samples.utcnow Samples.llm
               Samples.history (lit "c") (lit "h") 6 Samples.fresh_world))
     = true.
Proof.
  destruct (C4_cadence 6) as (_ & _ & Htable & Hrun).
  assert (Hrange : 1 <= 6 <= 20) by lia.
  destruct (Htable Hrange) as (Hfact & Hsum).
  split; [exact Hrange|].
  split; [apply Hfact; simpl; lia|].
  split; [apply Hsum; simpl; lia|].
  assert (Hc : lit "c" <> []) by (vm_compute; discriminate).
  assert (Hh : lit "h" <> []) by (vm_compute; discriminate).
  assert (Hm : Samples.chat <> []) by (unfold Samples.chat; discriminate).
  destruct (Hrun Samples.uuid4 Samples.utcnow Samples.llm Samples.history
              (lit "c") (lit "h") Samples.chat Samples.fresh_world
              Hc Hh eq_refl Hm eq_refl) as (_ & Hs).
  rewrite Hs. apply Hsum. simpl; lia.
Defined.

(* ================================================================= *)
(** * Further properties of the sources *)

(** ** The chunker: how many chunks *)

(** X1.  For [chunk_size > chunk_overlap >= 0] the chunker returns
    [ceil(len / (chunk_size - chunk_overlap))] chunks, where [len] is
    the length of the trimmed text; no chunk is empty and none is
    longer than [chunk_size]; and without overlap the chunks
    concatenate to the trimmed text. *)
Theorem chunk_count_and_sizes (t : str) (chunk_size chunk_overlap : Z) :
  0 <= chunk_overlap < chunk_size ->
  let step := chunk_size - chunk_overlap in
  exists chunks,
    _chunk_text t chunk_size chunk_overlap = Some chunks
    /\ len chunks = (len (strip t) + step - 1) / step
    /\ (forall ch, In ch chunks -> 1 <= len ch <= chunk_size)
    /\ (chunk_overlap = 0 -> concat chunks = strip t).
Proof.
  intros [Ho Hc] step.
  destruct (strip t) as [|x r] eqn:E.
  - exists []. unfold _chunk_text, _chunk_text_fuel. rewrite E. simpl.
    split; [reflexivity|]. split.
    + unfold len; simpl. symmetry. apply Z.div_small. lia.
    + split; [intros ch []|reflexivity].
  - assert (Hne : strip t <> []) by congruence.
    destruct (chunk_text_fuel_windows t (Z.to_nat chunk_size)
                (Z.to_nat chunk_overlap)) as (m & Hrun & Hb);
      [lia | exact Hne |].
    rewrite !Z2Nat.id in Hrun by lia. rewrite E in *.
    set (s := x :: r) in *.
    exists (map (window s chunk_size chunk_overlap) (seq 0 (S m))).
    split; [unfold _chunk_text; rewrite E; apply Hrun; lia|].
    split.
    { unfold len at 1. rewrite length_map, length_seq.
      apply Z.div_unique_pos
        with (r := len s + step - 1 - step * Z.of_nat (S m));
        unfold len, step in *; nia. }
    split.
    { intros ch Hin. apply in_map_iff in Hin.
      destruct Hin as (k & <- & Hk). apply in_seq in Hk.
      rewrite <- (Z2Nat.id chunk_size), <- (Z2Nat.id chunk_overlap) by lia.
      rewrite window_length by lia.
      rewrite !Z2Nat.id by lia. unfold len. nia. }
    intros Hz.
    pose proof (unoverlap_windows s (Z.to_nat chunk_size)
                  (Z.to_nat chunk_overlap)) as Hu.
    rewrite !Z2Nat.id in Hu by lia.
    specialize (Hu ltac:(lia) m ltac:(lia)).
    assert (Hid : forall l : list str, map (skipn 0) l = l).
    { induction l as [|a l IH]; cbn [map]; [|rewrite IH]; reflexivity. }
    subst chunk_overlap. cbn [unoverlap map seq] in Hu.
    change (Z.to_nat 0) with 0%nat in Hu. rewrite Hid in Hu.
    cbn [map seq concat]. exact Hu.
Qed.

Lemma chunk_count_and_sizes_witness :
  0 <= 64 < 512
  /\ exists chunks,
       _chunk_text (repeat 97%N 1000) 512 64 = Some chunks
       /\ len chunks = 3.
Proof.
  assert (Hv : 0 <= 64 < 512) by lia.
  split; [exact Hv|].
  destruct (chunk_count_and_sizes (repeat 97%N 1000) 512 64 Hv)
    as (chunks & Hrun & Hlen & _).
  exists chunks. split; [exact Hrun|].
  rewrite Hlen. vm_compute. reflexivity.
Defined.

(** ** The memory store: removal *)

Section RemovalFacts.

Lemma remove_wf {Meta} (l : list str) (c : Chroma.Collection Meta) :
  Chroma.wf c -> Chroma.wf (Chroma.remove l c).
Proof. apply wf_filter. Qed.

(** [delete_by_ids]: what the call returns, by what the collection
    says to the identifiers that are not empty. *)
Lemma delete_by_ids_spec (ids : list str) (st : Store) :
  let valid := filter (@truthy _) ids in
  (valid = [] /\ delete_by_ids ids st = (Ok 0, st))
  \/ (valid <> [] /\ NoDup valid
      /\ delete_by_ids ids st = (Ok (len valid), Chroma.remove valid st))
  \/ (valid <> [] /\ ~ NoDup valid
      /\ exists e, delete_by_ids ids st = (Raise e, st)).
Proof.
  intros valid. unfold delete_by_ids. fold valid.
  destruct ids as [|i ids]; [left; split; reflexivity|].
  cbn [truthy negb].
  destruct valid as [|v valid'] eqn:E; [left; split; reflexivity|].
  cbn [truthy negb]. right.
  unfold Chroma.delete. cbn [truthy negb].
  destruct (all_distinct (v :: valid')) eqn:D; cbn [negb].
  - left. apply all_distinct_NoDup in D.
    split; [discriminate|]. split; [exact D | reflexivity].
  - right. split; [discriminate|]. split; [|eauto].
    intros Hnd. apply all_distinct_NoDup in Hnd. congruence.
Qed.

Lemma filter_filter_neg {A} (f : A -> bool) (l : list A) :
  filter f (filter (fun x => negb (f x)) l) = [].
Proof.
  induction l as [|x l IH]; simpl; [reflexivity|].
  destruct (f x) eqn:E; simpl; [exact IH|]. rewrite E. exact IH.
Qed.

Lemma filter_none {A} (f : A -> bool) (l : list A) :
  (forall x, In x l -> f x = false) -> filter f l = [].
Proof.
  induction l as [|x l IH]; simpl; intros H; [reflexivity|].
  rewrite (H x (or_introl eq_refl)). apply IH. intros y Hy. apply H.
  now right.
Qed.

Lemma filter_all {A} (f : A -> bool) (l : list A) :
  (forall x, In x l -> f x = true) -> filter f l = l.
Proof.
  induction l as [|x l IH]; simpl; intros H; [reflexivity|].
  rewrite (H x (or_introl eq_refl)). f_equal. apply IH. intros y Hy.
  apply H. now right.
Qed.

Lemma add_item_wf (doc_id : str) (now : Z) (r content h c : str)
      (st : Store) :
  Chroma.wf st -> Chroma.wf (snd (DialogueMemory.add_item doc_id now r content h c st)).
Proof.
  intros Hwf. unfold DialogueMemory.add_item.
  destruct (negb (truthy content) || negb (truthy (strip content)));
    simpl; [exact Hwf | now apply add_wf].
Qed.

Lemma delete_all_spec (conf_uid : str) (history_uid : option str)
      (st : Store) :
  Chroma.wf st ->
  delete_all conf_uid history_uid st
  = (Ok (len (Chroma.get (eval_where (character_where conf_uid history_uid))
                st)),
     filter (fun e => negb (eval_where
                              (character_where conf_uid history_uid)
                              (Chroma.metadata e))) st).
Proof.
  intros Hwf.
  exact (delete_where_spec
           (eval_where (character_where conf_uid history_uid)) st Hwf).
Qed.

End RemovalFacts.

(** X2.  Every operation that changes the store keeps its
    identifiers unique: the three writers, the retention sweep and
    the two bulk removals. *)
Theorem store_operations_keep_ids_unique
        (stamp : Z -> result Z)
        (doc_id : str) (now days : Z) (role content history_uid conf_uid
                                       : str)
        (thread : option str) (exclude_roles : option (list str))
        (ids : list str) (st : Store) :
  Chroma.wf st ->
  Chroma.wf (snd (DialogueMemory.add_item doc_id now role content history_uid conf_uid st))
  /\ Chroma.wf (snd (DialogueMemory.set_user_profile doc_id now history_uid conf_uid
                       content st))
  /\ Chroma.wf (snd (add_to_user_profile doc_id now history_uid conf_uid
                       content st))
  /\ Chroma.wf (snd (delete_older_than_days stamp now days thread
                       exclude_roles st))
  /\ Chroma.wf (snd (delete_by_ids ids st))
  /\ Chroma.wf (snd (delete_all conf_uid thread st)).
Proof.
  intros Hwf.
  split; [now apply add_item_wf|].
  split; [rewrite set_user_profile_state; simpl; now apply add_item_wf|].
  split.
  { destruct (add_to_user_profile_state doc_id now history_uid conf_uid
                content st) as (merged & [-> | ->]); simpl;
      [now apply add_item_wf | exact Hwf]. }
  split;
    [now apply (sweep_keeps stamp now days thread exclude_roles st Hwf)|].
  split.
  { destruct (delete_by_ids_spec ids st)
      as [(_ & ->) | [(_ & _ & ->) | (_ & _ & e & ->)]]; cbn [snd];
      [exact Hwf | now apply remove_wf | exact Hwf]. }
  rewrite delete_all_spec by assumption. simpl.
  now apply wf_filter.
Qed.

Lemma store_operations_keep_ids_unique_witness :
  Chroma.wf Samples.mixed
  /\ Chroma.wf (snd (DialogueMemory.add_item (lit "id-9") 200 ROLE_FACT (lit "Likes rain")
                       (lit "h") (lit "c") Samples.mixed))
  /\ Chroma.wf (snd (delete_all (lit "c") None Samples.mixed)).
Proof.
  assert (Hwf : Chroma.wf Samples.mixed) by solve_wf.
  destruct (store_operations_keep_ids_unique Samples.utc_stamp
              (lit "id-9") 200 0 ROLE_FACT
              (lit "Likes rain") (lit "h") (lit "c") None None []
              Samples.mixed Hwf) as (Hadd & _ & _ & _ & _ & Hall).
  split; [exact Hwf|]. split; [exact Hadd | exact Hall].
Defined.

(** X3.  The retention sweep is idempotent where its clock
    arithmetic succeeds: on a store with unique identifiers, after a
    sweep whose cutoff was computed, a second sweep for the same
    thread and the same excluded roles whose cutoff is computed and is
    not later than the first one's (the same clock reading and number
    of days in particular) deletes nothing and returns 0. *)
Theorem retention_sweep_is_idempotent
        (stamp : Z -> result Z) (now days now' days' : Z)
        (history_uid : option str) (exclude_roles : option (list str))
        (st : Store) (cutoff cutoff' : Z) :
  Chroma.wf st ->
  cutoff_time stamp now days = Ok cutoff ->
  cutoff_time stamp now' days' = Ok cutoff' ->
  cutoff' <= cutoff ->
  let st1 := snd (delete_older_than_days stamp now days history_uid
                    exclude_roles st) in
  delete_older_than_days stamp now' days' history_uid exclude_roles st1
  = (Ok 0, st1).
Proof.
  intros Hwf Hc Hc' Hle st1.
  assert (Hst1 : st1 = filter (fun e => negb (expired cutoff history_uid
                                 (if opt_truthy exclude_roles
                                  then opt_get exclude_roles
                                  else PERSISTENT_ROLES) e)) st).
  { unfold st1.
    now rewrite (sweep_spec stamp now days history_uid exclude_roles st
                   cutoff). }
  assert (Hwf1 : Chroma.wf st1) by (rewrite Hst1; now apply wf_filter).
  rewrite (sweep_spec stamp now' days' history_uid exclude_roles st1
             cutoff') by assumption.
  set (ex := if opt_truthy exclude_roles then opt_get exclude_roles
             else PERSISTENT_ROLES) in *.
  assert (Hnone : forall e, In e st1 ->
             expired cutoff' history_uid ex e = false).
  { intros e He. rewrite Hst1 in He. apply filter_In in He.
    destruct He as [_ He]. apply negb_true_iff in He.
    destruct (expired cutoff' history_uid ex e) eqn:E'; [|reflexivity].
    apply expired_iff in E'. destruct E' as (Hts & Hh & Hr).
    assert (Hexp : expired cutoff history_uid ex e = true).
    { apply expired_iff. repeat split; auto; lia. }
    congruence. }
  rewrite (filter_none _ _ Hnone).
  rewrite filter_all; [reflexivity|].
  intros e He. rewrite (Hnone e He). reflexivity.
Qed.

Lemma retention_sweep_is_idempotent_witness :
  Chroma.wf Samples.mixed
  /\ cutoff_time Samples.utc_stamp (Samples.at_second 101) 0 = Ok 101
  /\ 101 <= 101
  /\ fst (delete_older_than_days Samples.utc_stamp (Samples.at_second 101)
            0 None None Samples.mixed) = Ok 4
  /\ delete_older_than_days Samples.utc_stamp (Samples.at_second 101) 0
       None None
       (snd (delete_older_than_days Samples.utc_stamp
               (Samples.at_second 101) 0 None None Samples.mixed))
     = (Ok 0,
        snd (delete_older_than_days Samples.utc_stamp
               (Samples.at_second 101) 0 None None Samples.mixed)).
Proof.
  assert (Hwf : Chroma.wf Samples.mixed) by solve_wf.
  assert (Hcut : cutoff_time Samples.utc_stamp (Samples.at_second 101) 0
                 = Ok 101) by reflexivity.
  assert (Hle : 101 <= 101) by lia.
  split; [exact Hwf|]. split; [exact Hcut|]. split; [exact Hle|].
  split; [reflexivity|].
  exact (retention_sweep_is_idempotent Samples.utc_stamp
           (Samples.at_second 101) 0 (Samples.at_second 101) 0 None None
           Samples.mixed 101 101 Hwf Hcut Hcut Hle).
Defined.

Section FilterFacts.

Lemma scope_where_iff (r h c : str) (m : Metadata) :
  eval_where (scope_where r h c) m = true
  <-> md_role m = r /\ md_history_uid m = h
      /\ (c <> [] -> md_conf_uid m = c).
Proof.
  unfold scope_where. destruct c as [|x c]; simpl;
    rewrite ?andb_true_iff, ?str_eqb_eq; [intuition congruence|].
  split.
  - intros (Hr & Hh & Hc & _). auto.
  - intros (Hr & Hh & Hc). repeat split; auto. apply Hc. discriminate.
Qed.

Lemma character_where_iff (conf_uid : str) (h : option str)
      (m : Metadata) :
  eval_where (character_where conf_uid h) m = true
  <-> md_conf_uid m = conf_uid
      /\ (opt_truthy h = true -> md_history_uid m = opt_get h).
Proof.
  unfold character_where. destruct (opt_truthy h); simpl;
    rewrite ?andb_true_iff, ?str_eqb_eq; intuition congruence.
Qed.

Lemma remove_app {Meta} (l : list str) (a b : Chroma.Collection Meta) :
  Chroma.remove l (a ++ b) = Chroma.remove l a ++ Chroma.remove l b.
Proof. unfold Chroma.remove. apply filter_app. Qed.

Lemma remove_absent {Meta} (l : list str) (c : Chroma.Collection Meta) :
  (forall i, In i l -> ~ In i (Chroma.ids c)) -> Chroma.remove l c = c.
Proof.
  intros H. unfold Chroma.remove. apply filter_all.
  intros e He. apply negb_true_iff, str_in_false. intros Hin.
  apply (H _ Hin). unfold Chroma.ids. now apply in_map.
Qed.

End FilterFacts.

(** X4.  Writing an item and then deleting the identifier that
    [add_item] returned gives the store back: for content that is
    not blank and a fresh identifier, [delete_by_ids] returns 1 and
    the store is the one before the write. *)
Theorem add_item_then_delete_by_ids_restores
        (doc_id : str) (now : Z) (role content history_uid conf_uid : str)
        (st : Store) :
  strip content <> [] -> doc_id <> [] -> ~ In doc_id (Chroma.ids st) ->
  let written := DialogueMemory.add_item doc_id now role content
                   history_uid conf_uid st in
  fst written = Ok doc_id
  /\ delete_by_ids [doc_id] (snd written) = (Ok 1, st).
Proof.
  intros Hc Hid Hfresh written. unfold written.
  rewrite add_item_appends by assumption. simpl fst. simpl snd.
  split; [reflexivity|].
  unfold delete_by_ids. cbn [truthy negb filter].
  apply truthy_true in Hid. rewrite Hid. cbn [truthy negb].
  rewrite delete_accepts
    by (discriminate || (constructor; [intros [] | constructor])).
  f_equal. rewrite remove_app.
  rewrite remove_absent
    by (intros i [<-|[]]; assumption).
  unfold Chroma.remove. cbn [filter Chroma.entry_id str_in].
  rewrite str_eqb_refl. cbn [orb negb]. apply app_nil_r.
Qed.

Lemma add_item_then_delete_by_ids_restores_witness :
  strip (lit " Likes rain ") <> []
  /\ lit "id-9" <> []
  /\ ~ In (lit "id-9") (Chroma.ids Samples.mixed)
  /\ delete_by_ids [lit "id-9"]
       (snd (DialogueMemory.add_item (lit "id-9") 200 ROLE_FACT
               (lit " Likes rain ") (lit "h") (lit "c") Samples.mixed))
     = (Ok 1, Samples.mixed).
Proof.
  assert (H1 : strip (lit " Likes rain ") <> [])
    by (vm_compute; discriminate).
  assert (H2 : lit "id-9" <> []) by (vm_compute; discriminate).
  assert (H3 : ~ In (lit "id-9") (Chroma.ids Samples.mixed))
    by (apply str_in_false; reflexivity).
  split; [exact H1|]. split; [exact H2|]. split; [exact H3|].
  exact (proj2 (add_item_then_delete_by_ids_restores (lit "id-9") 200
                  ROLE_FACT (lit " Likes rain ") (lit "h") (lit "c")
                  Samples.mixed H1 H2 H3)).
Defined.

(** X5.  [delete_by_ids] counts the request, not the removal.  When
    no non-empty identifier is given twice, it returns the number of
    non-empty identifiers it was given; afterwards the store holds
    exactly the items whose identifier is not among them, and on a
    store with unique identifiers the number of items removed is at
    most the number returned (it is smaller when an identifier is
    unknown).  When a non-empty identifier is given twice, the
    collection rejects the list: the error is the error of the call
    and nothing is deleted. *)
Theorem delete_by_ids_counts_the_request (ids : list str) (st : Store) :
  let valid := filter (@truthy _) ids in
  (NoDup valid ->
   delete_by_ids ids st = (Ok (len valid), Chroma.remove valid st)
   /\ (forall e, In e (snd (delete_by_ids ids st))
                 <-> In e st
                     /\ ~ (Chroma.entry_id e <> []
                           /\ In (Chroma.entry_id e) ids))
   /\ (Chroma.wf st ->
       len st - len (snd (delete_by_ids ids st)) <= len valid))
  /\ (~ NoDup valid -> exists e, delete_by_ids ids st = (Raise e, st)).
Proof.
  intros valid.
  assert (Hvalid : forall i, In i valid <-> i <> [] /\ In i ids).
  { intros i. unfold valid. rewrite filter_In, truthy_true. tauto. }
  split.
  - intros Hnd.
    assert (Hres : delete_by_ids ids st
                   = (Ok (len valid), Chroma.remove valid st)).
    { destruct (delete_by_ids_spec ids st)
        as [(Hv & ->) | [(_ & _ & ->) | (_ & Hdup & _)]].
      - fold valid in Hv. rewrite Hv, remove_nothing. reflexivity.
      - reflexivity.
      - contradiction. }
    rewrite Hres. simpl snd.
    split; [reflexivity|]. split.
    + intros e. unfold Chroma.remove.
      rewrite filter_In, negb_true_iff, str_in_false, Hvalid. tauto.
    + intros Hwf.
      set (gone := filter (fun e => str_in (Chroma.entry_id e) valid) st).
      assert (Hsplit : (length gone + length (Chroma.remove valid st)
                        = length st)%nat).
      { unfold gone, Chroma.remove. apply filter_length_split. }
      assert (Hle : (length (Chroma.ids gone) <= length valid)%nat).
      { apply NoDup_incl_length.
        - apply (wf_filter _ st Hwf).
        - intros i Hi. unfold Chroma.ids in Hi. apply in_map_iff in Hi.
          destruct Hi as (e & <- & He). apply filter_In in He.
          now apply str_in_In. }
      unfold Chroma.ids in Hle. rewrite length_map in Hle.
      unfold len. lia.
  - intros Hdup.
    destruct (delete_by_ids_spec ids st)
      as [(Hv & _) | [(_ & Hnd & _) | (_ & _ & He)]].
    + exfalso. apply Hdup. fold valid in Hv. rewrite Hv. constructor.
    + contradiction.
    + exact He.
Qed.

Lemma delete_by_ids_counts_the_request_witness :
  Chroma.wf Samples.one_fact
  /\ NoDup (filter (@truthy _) [lit "no-such-id"; []])
  /\ delete_by_ids [lit "no-such-id"; []] Samples.one_fact
     = (Ok 1, Samples.one_fact)
  /\ len Samples.one_fact
     - len (snd (delete_by_ids [lit "no-such-id"; []] Samples.one_fact))
     <= 1
  /\ delete_by_ids [lit "id-1"; lit "id-1"] Samples.one_fact
     = (Raise (PyException "DuplicateIDError" "Expected IDs to be unique"),
        Samples.one_fact).
Proof.
  assert (Hwf : Chroma.wf Samples.one_fact) by solve_wf.
  assert (Hnd : NoDup (filter (@truthy _) [lit "no-such-id"; []])).
  { apply all_distinct_NoDup. reflexivity. }
  split; [exact Hwf|]. split; [exact Hnd|]. split; [reflexivity|].
  split; [|reflexivity].
  exact (proj2 (proj2 (proj1 (delete_by_ids_counts_the_request
                                [lit "no-such-id"; []] Samples.one_fact)
                         Hnd)) Hwf).
Defined.

Section ReadFacts.

Lemma get_user_profile_of_items (h c : str) (st st' : Store) :
  profile_items h c st = profile_items h c st' ->
  get_user_profile h c st = get_user_profile h c st'.
Proof.
  intros H. rewrite !get_user_profile_unfold, H. reflexivity.
Qed.

Lemma get_all_facts_unfold (h c : str) (limit : Z) (st : Store) :
  DialogueMemory.get_all_facts h c limit st
  = filter (@truthy _)
      (map (fun p => strip (Chroma.document p))
         (slice (sort_desc (fact_items h c st)) 0 limit)).
Proof.
  unfold DialogueMemory.get_all_facts. fold (fact_items h c st).
  destruct (fact_items h c st) as [|e l]; [|reflexivity].
  cbn [truthy negb sort_desc]. unfold slice. simpl skipn.
  now rewrite firstn_nil.
Qed.

Lemma get_all_facts_of_items (h c : str) (limit : Z) (st st' : Store) :
  fact_items h c st = fact_items h c st' ->
  DialogueMemory.get_all_facts h c limit st
  = DialogueMemory.get_all_facts h c limit st'.
Proof.
  intros H. rewrite !get_all_facts_unfold, H. reflexivity.
Qed.

End ReadFacts.

(** X6.  [delete_all] on a store with unique identifiers removes
    exactly the items of the given character (of the given thread
    only, when a thread is given) and returns their number; the
    items of every other character stay.  For a character with a
    non-empty identifier, the profile and the facts of a cleared
    thread then read as empty. *)
Theorem delete_all_clears_one_character
        (conf_uid : str) (history_uid : option str) (st : Store) :
  Chroma.wf st ->
  let result := delete_all conf_uid history_uid st in
  let cleared (e : Item) : Prop :=
    md_conf_uid (Chroma.metadata e) = conf_uid
    /\ (opt_truthy history_uid = true ->
        md_history_uid (Chroma.metadata e) = opt_get history_uid) in
  (forall e, In e (snd result) <-> In e st /\ ~ cleared e)
  /\ fst result = Ok (len st - len (snd result))
  /\ (forall e, In e st -> md_conf_uid (Chroma.metadata e) <> conf_uid ->
                In e (snd result))
  /\ (conf_uid <> [] ->
      forall h limit,
        (opt_truthy history_uid = true -> h = opt_get history_uid) ->
        get_user_profile h conf_uid (snd result) = []
        /\ DialogueMemory.get_all_facts h conf_uid limit (snd result) = []).
Proof.
  intros Hwf result cleared. unfold result.
  rewrite delete_all_spec by assumption. simpl fst. simpl snd.
  set (w := eval_where (character_where conf_uid history_uid)).
  assert (Hin : forall e,
             In e (filter (fun e => negb (w (Chroma.metadata e))) st)
             <-> In e st /\ ~ cleared e).
  { intros e. rewrite filter_In, negb_true_iff. unfold cleared, w.
    rewrite <- character_where_iff.
    destruct (eval_where _ (Chroma.metadata e)); split;
      intros [H1 H2]; split; auto;
      first [ discriminate | intros H; discriminate H
            | exfalso; apply H2; reflexivity ]. }
  split; [exact Hin|]. split.
  { f_equal.
    pose proof (filter_length_split
                  (fun e : Item => w (Chroma.metadata e)) st) as Hsp.
    unfold Chroma.get, len in *. lia. }
  split.
  { intros e He Hc. apply Hin. split; [exact He|].
    unfold cleared. tauto. }
  intros Hne h limit Hh.
  assert (Hnone : forall r,
             Chroma.get (eval_where (scope_where r h conf_uid))
               (filter (fun e => negb (w (Chroma.metadata e))) st) = []).
  { intros r. unfold Chroma.get. apply filter_none. intros e He.
    apply Hin in He. destruct He as [_ Hnot].
    destruct (eval_where (scope_where r h conf_uid) (Chroma.metadata e))
      eqn:E; [|reflexivity].
    apply scope_where_iff in E. destruct E as (_ & Hhist & Hconf).
    exfalso. apply Hnot. unfold cleared. split; [now apply Hconf|].
    intros Ht. rewrite <- (Hh Ht). exact Hhist. }
  split.
  - rewrite get_user_profile_unfold. unfold profile_items.
    now rewrite Hnone.
  - rewrite get_all_facts_unfold. unfold fact_items. rewrite Hnone.
    cbn [sort_desc]. unfold slice. simpl skipn. now rewrite firstn_nil.
Qed.

Lemma delete_all_clears_one_character_witness :
  Chroma.wf Samples.mixed
  /\ fst (delete_all (lit "c") (Some (lit "h")) Samples.mixed) = Ok 5
  /\ get_user_profile (lit "h") (lit "c")
       (snd (delete_all (lit "c") (Some (lit "h")) Samples.mixed)) = []
  /\ get_user_profile (lit "h") (lit "c") Samples.mixed
     = lit "Name: Sasha".
Proof.
  assert (Hwf : Chroma.wf Samples.mixed) by solve_wf.
  destruct (delete_all_clears_one_character (lit "c") (Some (lit "h"))
              Samples.mixed Hwf) as (_ & _ & _ & Hread).
  split; [exact Hwf|]. split; [reflexivity|]. split; [|reflexivity].
  assert (Hc : lit "c" <> []) by (vm_compute; discriminate).
  exact (proj1 (Hread Hc (lit "h") 50 (fun _ => eq_refl))).
Defined.

(** X7.  Memories are not shared across characters or threads: a
    write for another thread, or for another character than the
    non-empty [conf_uid] a read is made for, changes neither the
    profile nor the facts that read returns. *)
Theorem reads_ignore_writes_of_other_scopes
        (doc_id : str) (now : Z) (role content h' c' : str)
        (h c : str) (limit : Z) (st : Store) :
  h' <> h \/ (c <> [] /\ c' <> c) ->
  let st' := snd (DialogueMemory.add_item doc_id now role content h' c'
                    st) in
  get_user_profile h c st' = get_user_profile h c st
  /\ DialogueMemory.get_all_facts h c limit st'
     = DialogueMemory.get_all_facts h c limit st.
Proof.
  intros Hother st'.
  assert (Hsame : forall r,
             Chroma.get (eval_where (scope_where r h c)) st'
             = Chroma.get (eval_where (scope_where r h c)) st).
  { intros r. unfold st', DialogueMemory.add_item.
    destruct (negb (truthy content) || negb (truthy (strip content)));
      [reflexivity|]. simpl snd.
    destruct (add_cases doc_id (strip content) (mkMeta role h' c' now) st)
      as [-> | ->]; [reflexivity|].
    unfold Chroma.get. rewrite filter_app. cbn [filter Chroma.metadata].
    destruct (eval_where (scope_where r h c) (mkMeta role h' c' now))
      eqn:E; [|apply app_nil_r].
    apply scope_where_iff in E. simpl in E.
    destruct E as (_ & Hh & Hc).
    destruct Hother as [Hn | [Hne Hn]]; [congruence|].
    exfalso. apply Hn. now apply Hc. }
  split.
  - apply get_user_profile_of_items. apply Hsame.
  - apply get_all_facts_of_items. apply Hsame.
Qed.

Lemma reads_ignore_writes_of_other_scopes_witness :
  (lit "h" <> lit "h" \/ (lit "c" <> [] /\ lit "other-character" <> lit "c"))
  /\ get_user_profile (lit "h") (lit "c")
       (snd (DialogueMemory.add_item (lit "id-9") 900 ROLE_USER_PROFILE
               (lit "Name: Masha") (lit "h") (lit "other-character")
               Samples.mixed))
     = lit "Name: Sasha".
Proof.
  assert (H : lit "h" <> lit "h"
              \/ (lit "c" <> [] /\ lit "other-character" <> lit "c")).
  { right. split; vm_compute; discriminate. }
  split; [exact H|].
  rewrite (proj1 (reads_ignore_writes_of_other_scopes (lit "id-9") 900
                    ROLE_USER_PROFILE (lit "Name: Masha") (lit "h")
                    (lit "other-character") (lit "h") (lit "c") 50
                    Samples.mixed H)).
  reflexivity.
Defined.

(** ** The memory store: reading facts *)

Section SortFacts.

Lemma newest_first_In_head (x : Z) (l : list Z) :
  newest_first (x :: l) -> forall y, In y l -> y <= x.
Proof. intros [H _]. exact H. Qed.

Lemma insert_desc_newest (x : Item) (l : list Item) :
  newest_first (map ts l) -> newest_first (map ts (insert_desc x l)).
Proof.
  induction l as [|y l IH];
    [simpl; intros _; split; [intros y []|exact I]|].
  intros Hs. assert (Hs' := Hs). cbn [map newest_first] in Hs'.
  destruct Hs' as [Hy Hl]. cbn [insert_desc].
  fold (ts x). fold (ts y).
  destruct (Z.ltb_spec (ts x) (ts y)).
  - cbn [map newest_first]. split; [|apply IH; exact Hl].
    intros z Hz. apply in_map_iff in Hz. destruct Hz as (e & <- & He).
    apply insert_desc_In in He. destruct He as [->|He]; [lia|].
    apply Hy. now apply in_map.
  - change (map ts (x :: y :: l)) with (ts x :: map ts (y :: l)).
    split; [|exact Hs].
    intros z [<-|Hz]; [lia|]. specialize (Hy z Hz). lia.
Qed.

Lemma sort_desc_newest (l : list Item) :
  newest_first (map ts (sort_desc l)).
Proof.
  induction l as [|x l IH]; [exact I|]. simpl.
  now apply insert_desc_newest.
Qed.

Lemma newest_first_app (a b : list Z) :
  newest_first (a ++ b) ->
  newest_first a /\ newest_first b
  /\ (forall x y, In x a -> In y b -> y <= x).
Proof.
  induction a as [|z a IH]; simpl; [intuition|].
  intros [Hz Hs]. destruct (IH Hs) as (Ha & Hb & Hab).
  repeat split; auto.
  - intros y Hy. apply Hz. apply in_or_app. now left.
  - intros x y [<-|Hx] Hy; [apply Hz; apply in_or_app; now right|].
    now apply Hab.
Qed.

Lemma newest_first_filter {A} (key : A -> Z) (f : A -> bool)
      (l : list A) :
  newest_first (map key l) -> newest_first (map key (filter f l)).
Proof.
  induction l as [|x l IH]; simpl; [auto|].
  intros [Hx Hl]. destruct (f x); simpl; [|auto].
  split; [|auto]. intros y Hy. apply Hx.
  apply in_map_iff in Hy. destruct Hy as (e & <- & He).
  apply filter_In in He. apply in_map. tauto.
Qed.

Lemma filter_map_swap {A B} (f : A -> B) (p : B -> bool) (l : list A) :
  filter p (map f l) = map f (filter (fun x => p (f x)) l).
Proof.
  induction l as [|x l IH]; simpl; [reflexivity|].
  destruct (p (f x)); simpl; now rewrite IH.
Qed.

Lemma slice_prefix {A} (l : list A) (limit : Z) :
  0 <= limit -> slice l 0 limit = firstn (Z.to_nat limit) l.
Proof.
  intros H. rewrite <- (Z2Nat.id limit) at 1 by assumption.
  change 0 with (Z.of_nat 0). rewrite slice_of_nat. simpl skipn.
  now rewrite Nat.sub_0_r.
Qed.

Lemma In_firstn {A} (n : nat) (l : list A) (x : A) :
  In x (firstn n l) -> In x l.
Proof.
  intros H. rewrite <- (firstn_skipn n l). apply in_or_app. now left.
Qed.

End SortFacts.

(** X8.  [get_all_facts] with a limit that is not negative returns
    the trimmed contents of fact items of the scope, newest first
    (by timestamp, not increasing), at most [limit] of them; a fact
    the limit cuts off is never newer than a fact that is returned;
    and when the scope has at most [limit] facts every fact with
    content is returned. *)
Theorem get_all_facts_newest_first
        (history_uid conf_uid : str) (limit : Z) (st : Store) :
  0 <= limit ->
  exists kept cut : list Item,
    DialogueMemory.get_all_facts history_uid conf_uid limit st
    = map (fun e => strip (Chroma.document e)) kept
    /\ newest_first (map ts kept)
    /\ len kept <= limit
    /\ (forall e, In e kept ->
          In e st /\ in_scope ROLE_FACT history_uid conf_uid e
          /\ strip (Chroma.document e) <> [])
    /\ (forall e, In e st -> in_scope ROLE_FACT history_uid conf_uid e ->
          strip (Chroma.document e) <> [] -> In e kept \/ In e cut)
    /\ (forall e k, In e cut -> In k kept -> ts e <= ts k)
    /\ (len (fact_items history_uid conf_uid st) <= limit -> cut = []).
Proof.
  intros Hlimit.
  set (facts := fact_items history_uid conf_uid st).
  set (sorted := sort_desc facts).
  set (n := Z.to_nat limit).
  set (nonblank := fun e : Item => truthy (strip (Chroma.document e))).
  exists (filter nonblank (firstn n sorted)), (skipn n sorted).
  assert (Hfacts : forall e, In e facts
                             <-> In e st
                                 /\ in_scope ROLE_FACT history_uid
                                      conf_uid e).
  { intros e. unfold facts, fact_items, Chroma.get, in_scope.
    rewrite filter_In, scope_where_iff. tauto. }
  assert (Hsorted : newest_first (map ts (firstn n sorted ++ skipn n sorted))).
  { rewrite firstn_skipn. apply sort_desc_newest. }
  rewrite map_app in Hsorted.
  apply newest_first_app in Hsorted. destruct Hsorted as (Hfst & _ & Hcut).
  split.
  { rewrite get_all_facts_unfold, slice_prefix by assumption.
    exact (filter_map_swap (fun e : Item => strip (Chroma.document e))
             (@truthy _) (firstn n sorted)). }
  split; [now apply newest_first_filter|].
  split.
  { pose proof (filter_length_split nonblank (firstn n sorted)) as Hsp.
    pose proof (length_firstn n sorted) as Hn.
    unfold len, n in *. lia. }
  split.
  { intros e He. apply filter_In in He. destruct He as [He Hnb].
    apply In_firstn, sort_desc_In, Hfacts in He.
    destruct He as [Hst Hsc]. repeat split; try apply Hsc; auto.
    now apply truthy_true. }
  split.
  { intros e Hst Hsc Hnb.
    assert (He : In e (firstn n sorted ++ skipn n sorted)).
    { rewrite firstn_skipn. apply sort_desc_In, Hfacts. auto. }
    apply in_app_or in He. destruct He as [He|He]; [left | now right].
    apply filter_In. split; [exact He|]. now apply truthy_true. }
  split.
  { intros e k He Hk. apply filter_In in Hk. destruct Hk as [Hk _].
    apply Hcut; now apply in_map. }
  intros Hfew. apply skipn_all2.
  assert (Hlen : length sorted = length facts).
  { unfold sorted. clear. induction facts as [|x l IH]; [reflexivity|].
    simpl. rewrite <- IH. generalize (sort_desc l). clear. intros s.
    induction s as [|y s IH]; [reflexivity|]. simpl.
    destruct (md_timestamp (Chroma.metadata x)
              <? md_timestamp (Chroma.metadata y)); simpl; lia. }
  unfold len, n, facts in *. lia.
Qed.

Lemma get_all_facts_newest_first_witness :
  0 <= 1
  /\ DialogueMemory.get_all_facts (lit "h") (lit "c") 1
       (Samples.mixed
        ++ [Samples.item "id-7" " Likes rain " ROLE_FACT "h" "c" 300])
     = [lit "Likes rain"]
  /\ exists kept cut : list Item,
       DialogueMemory.get_all_facts (lit "h") (lit "c") 1
         (Samples.mixed
          ++ [Samples.item "id-7" " Likes rain " ROLE_FACT "h" "c" 300])
       = map (fun e => strip (Chroma.document e)) kept
       /\ len kept <= 1.
Proof.
  assert (H : 0 <= 1) by lia.
  split; [exact H|]. split; [reflexivity|].
  destruct (get_all_facts_newest_first (lit "h") (lit "c") 1
              (Samples.mixed
               ++ [Samples.item "id-7" " Likes rain " ROLE_FACT "h" "c"
                     300]) H)
    as (kept & cut & Heq & _ & Hlen & _).
  exists kept, cut. split; [exact Heq | exact Hlen].
Defined.

(** ** The memory store: the naive profile update *)

Section GlueFacts.

Lemma lstrip_strip (s : str) : lstrip (strip s) = strip s.
Proof.
  unfold strip. destruct (lstrip s) as [|c r] eqn:E; [reflexivity|].
  apply lstrip_rstrip_fix. eapply lstrip_head; eassumption.
Qed.

Lemma rstrip_strip (s : str) : rstrip (strip s) = strip s.
Proof. unfold strip. apply rstrip_idem. Qed.

Lemma strip_head (s : str) (c : char) (r : str) :
  strip s = c :: r -> isspace c = false.
Proof.
  intros H. apply (lstrip_head (strip s) c r).
  rewrite lstrip_strip. exact H.
Qed.

(** Text after which comes text that ends in a character that is not
    white space is not trimmed on the right. *)
Lemma rstrip_app (a b : str) :
  rstrip b = b -> b <> [] -> rstrip (a ++ b) = a ++ b.
Proof.
  intros Hb Hne. unfold rstrip in *. rewrite rev_app_distr.
  destruct (rev b) as [|c r] eqn:E.
  - apply (f_equal (@rev _)) in E. rewrite rev_involutive in E.
    simpl in E. congruence.
  - assert (Hc : isspace c = false).
    { apply (lstrip_head (c :: r) c r).
      apply (f_equal (@rev _)) in Hb. rewrite rev_involutive in Hb.
      rewrite E in Hb. exact Hb. }
    simpl app. rewrite lstrip_fix by assumption.
    change (c :: r ++ rev a) with ((c :: r) ++ rev a).
    rewrite <- E, <- rev_app_distr. apply rev_involutive.
Qed.

Lemma strip_glue (c : char) (r b : str) :
  isspace c = false -> rstrip b = b -> b <> [] ->
  strip ((c :: r) ++ b) = (c :: r) ++ b.
Proof.
  intros Hc Hb Hne. unfold strip. simpl app.
  rewrite lstrip_fix by assumption.
  change (c :: r ++ b) with ((c :: r) ++ b). now apply rstrip_app.
Qed.

End GlueFacts.

(** X9.  [add_to_user_profile] concatenates: for a fact that is not
    blank, written with a fresh identifier at a clock reading later
    than every profile of the scope, the profile read afterwards is
    the profile read before, a newline, ["- "] and the trimmed fact
    (or just ["- "] and the trimmed fact when there was no profile).
    Nothing of the earlier profile is dropped or rewritten. *)
Theorem add_to_user_profile_appends_a_bullet
        (doc_id : str) (now : Z) (history_uid conf_uid new_fact : str)
        (st : Store) :
  strip new_fact <> [] ->
  ~ In doc_id (Chroma.ids st) ->
  (forall e, In e (profile_items history_uid conf_uid st) -> ts e < now) ->
  let before := get_user_profile history_uid conf_uid st in
  let st' := snd (add_to_user_profile doc_id now history_uid conf_uid
                    new_fact st) in
  get_user_profile history_uid conf_uid st'
  = if truthy before
    then before ++ lit (String "010" "- ") ++ strip new_fact
    else lit "- " ++ strip new_fact.
Proof.
  intros Hfact Hfresh Hold before st'.
  set (merged := if truthy before
                 then before ++ lit (String "010" "- ") ++ strip new_fact
                 else lit "- " ++ strip new_fact).
  assert (Hfixed : strip merged = merged).
  { unfold merged. destruct before as [|c r] eqn:E; cbn [truthy].
    - apply (strip_glue 45%N [32%N]); [reflexivity | | assumption].
      apply rstrip_strip.
    - assert (Hc : isspace c = false).
      { unfold before in E. rewrite get_user_profile_unfold in E.
        destruct (sort_desc (profile_items history_uid conf_uid st));
          [discriminate|].
        eapply strip_head; eassumption. }
      rewrite app_assoc.
      change ((c :: r) ++ lit (String "010" "- "))
        with ((c :: (r ++ lit (String "010" "- ")))).
      apply strip_glue; [assumption | apply rstrip_strip | assumption]. }
  assert (Hne : strip merged <> []).
  { rewrite Hfixed. unfold merged.
    destruct (truthy before); [|discriminate].
    intros H. apply app_eq_nil in H. destruct H as [_ H].
    discriminate H. }
  assert (Hst' : st' = st ++ [Chroma.mkEntry doc_id merged
                                (mkMeta ROLE_USER_PROFILE history_uid
                                   conf_uid now)]).
  { unfold st', add_to_user_profile.
    apply not_blank_iff in Hfact. rewrite Hfact.
    fold before. fold merged.
    rewrite add_item_appends by assumption. rewrite Hfixed. reflexivity. }
  rewrite get_user_profile_unfold, Hst', profile_items_app,
    profile_items_own.
  destruct (sort_desc_head (profile_items history_uid conf_uid st) []
              (Chroma.mkEntry doc_id merged
                 (mkMeta ROLE_USER_PROFILE history_uid conf_uid now)))
    as (rest & ->); [exact Hold | intros x [] |].
  cbn [Chroma.document]. exact Hfixed.
Qed.

Lemma add_to_user_profile_appends_a_bullet_witness :
  strip (lit " Likes rain ") <> []
  /\ ~ In (lit "id-9") (Chroma.ids Samples.mixed)
  /\ get_user_profile (lit "h") (lit "c")
       (snd (add_to_user_profile (lit "id-9") 200 (lit "h") (lit "c")
               (lit " Likes rain ") Samples.mixed))
     = lit "Name: Sasha" ++ lit (String "010" "- ") ++ lit "Likes rain".
Proof.
  assert (H1 : strip (lit " Likes rain ") <> [])
    by (vm_compute; discriminate).
  assert (H2 : ~ In (lit "id-9") (Chroma.ids Samples.mixed))
    by (apply str_in_false; reflexivity).
  split; [exact H1|]. split; [exact H2|].
  rewrite (add_to_user_profile_appends_a_bullet (lit "id-9") 200 (lit "h")
             (lit "c") (lit " Likes rain ") Samples.mixed H1 H2).
  - reflexivity.
  - intros e He. vm_compute in He. destruct He as [<-|[]].
    vm_compute. reflexivity.
Defined.

(** ** Queries that ask for results *)

Section QueryResultFacts.

Lemma query_where_iff (h c : option str) (roles : option (list str))
      (m : Metadata) :
  match query_where h c roles with
  | None => true
  | Some w => eval_where w m
  end = true
  <-> (opt_truthy h = true -> md_history_uid m = opt_get h)
      /\ (opt_truthy c = true -> md_conf_uid m = opt_get c)
      /\ (opt_truthy roles = true -> In (md_role m) (opt_get roles)).
Proof.
  unfold query_where.
  destruct (opt_truthy h), (opt_truthy c), (opt_truthy roles); simpl;
    rewrite ?andb_true_iff, ?str_eqb_eq, ?str_in_In;
    intuition congruence.
Qed.

Lemma firstn_length_le {A} (n : nat) (l : list A) :
  (length (firstn n l) <= n)%nat.
Proof. rewrite length_firstn. lia. Qed.

Lemma filter_length_le {A} (f : A -> bool) (l : list A) :
  (length (filter f l) <= length l)%nat.
Proof.
  induction l as [|x l IH]; simpl; [lia|]. destruct (f x); simpl; lia.
Qed.

End QueryResultFacts.

(** X10.  When the ranking only returns records it was given, a
    query for [n >= 1] results on a store that is not empty returns
    at most [min(n, count)] items; each is a stored item with content
    that is not empty, and it satisfies every filter that was
    supplied: the thread, the character, and membership of its role
    in the given roles (the filters combine by AND; a filter that is
    [None] or empty puts no condition). *)
Theorem query_results_respect_the_filters
        (rank : str -> list Item -> list Item) (query_text : str) (n : Z)
        (history_uid conf_uid : option str) (roles : option (list str))
        (st : Store) :
  (forall q l x, In x (rank q l) -> In x l) ->
  st <> [] -> 1 <= n ->
  exists results,
    query rank query_text n history_uid conf_uid roles st = Ok results
    /\ len results <= Z.min n (count st)
    /\ (forall content id meta, In (content, id, meta) results ->
          content <> []
          /\ In (Chroma.mkEntry id content meta) st
          /\ (opt_truthy history_uid = true ->
              md_history_uid meta = opt_get history_uid)
          /\ (opt_truthy conf_uid = true ->
              md_conf_uid meta = opt_get conf_uid)
          /\ (opt_truthy roles = true -> In (md_role meta) (opt_get roles))).
Proof.
  intros Hrank Hne Hn.
  assert (Hcount : 1 <= Chroma.count st).
  { unfold Chroma.count, len. destruct st; [congruence | simpl; lia]. }
  unfold query, count. rewrite query_accepted.
  destruct (Z.eqb_spec (Chroma.count st) 0); [lia|].
  destruct (Z.leb_spec (Z.min n (Chroma.count st)) 0); [lia|].
  set (k := Z.to_nat (Z.min n (Chroma.count st))).
  set (candidates :=
         match option_map eval_where
                 (query_where history_uid conf_uid roles) with
         | Some f => Chroma.get f st
         | None => st
         end).
  eexists. split; [reflexivity|]. split.
  - unfold len. rewrite length_map.
    pose proof (filter_length_le
                  (fun e : Item => truthy (Chroma.document e))
                  (firstn k (rank query_text candidates))).
    pose proof (firstn_length_le k (rank query_text candidates)).
    unfold k in *. lia.
  - intros content id meta Hin. apply in_map_iff in Hin.
    destruct Hin as (e & Heq & He). apply filter_In in He.
    destruct He as [He Hdoc]. apply In_firstn, Hrank in He.
    destruct e as [eid edoc emeta]. simpl in Heq, Hdoc.
    injection Heq as -> -> ->.
    split; [now apply truthy_true|].
    assert (Hcand : In (Chroma.mkEntry id content meta) st
                    /\ match query_where history_uid conf_uid roles with
                       | None => true
                       | Some w => eval_where w meta
                       end = true).
    { unfold candidates in He.
      destruct (query_where history_uid conf_uid roles) as [w|];
        simpl in He; [|auto].
      unfold Chroma.get in He. apply filter_In in He. exact He. }
    destruct Hcand as [Hst Hw]. split; [exact Hst|].
    now apply query_where_iff.
Qed.

Lemma query_results_respect_the_filters_witness :
  (forall (q : str) (l : list Item) x, In x l -> In x l)
  /\ Samples.mixed <> []
  /\ 1 <= 5
  /\ query (fun _ l => l) (lit "tea") 5 (Some (lit "h")) (Some (lit "c"))
       (Some [lit "fact"; lit "summary"]) Samples.mixed
     = Ok [(lit "Likes tea", lit "id-3",
            mkMeta ROLE_FACT (lit "h") (lit "c") 100);
           (lit "talked about tea", lit "id-4",
            mkMeta ROLE_SUMMARY (lit "h") (lit "c") 100)]
  /\ exists results,
       query (fun _ l => l) (lit "tea") 5 (Some (lit "h")) (Some (lit "c"))
         (Some [lit "fact"; lit "summary"]) Samples.mixed = Ok results
       /\ len results <= Z.min 5 (count Samples.mixed).
Proof.
  assert (H1 : forall (q : str) (l : list Item) x, In x l -> In x l)
    by auto.
  assert (H2 : Samples.mixed <> []) by (unfold Samples.mixed; discriminate).
  assert (H3 : 1 <= 5) by lia.
  split; [exact H1|]. split; [exact H2|]. split; [exact H3|].
  split; [reflexivity|].
  destruct (query_results_respect_the_filters (fun _ l => l) (lit "tea") 5
              (Some (lit "h")) (Some (lit "c"))
              (Some [lit "fact"; lit "summary"]) Samples.mixed H1 H2 H3)
    as (results & Heq & Hlen & _).
  exists results. split; [exact Heq | exact Hlen].
Defined.


(** ** [add_documents] *)

(** X12.  [add_documents] touches the collection only with a batch
    that is consistent: without documents it returns 0; when [ids] or
    [metadatas] is given with another length than [documents] it
    raises [ValueError] and the collection is unchanged; otherwise
    the batch write gets as many identifiers and metadata as
    documents (generated where they were not given), and a call that
    returns normally returns the number of documents. *)
Theorem add_documents_validates_the_batch
        (Meta : Type) (empty_meta : Meta)
        (collection_add :
           list str -> list str -> list Meta -> Chroma.Collection Meta
           -> result unit * Chroma.Collection Meta)
        (uuid4 : nat -> str) (documents : list str)
        (ids : option (list str)) (metadatas : option (list Meta))
        (c : Chroma.Collection Meta) :
  let run := ChromaRAG.add_documents empty_meta collection_add uuid4
               documents ids metadatas c in
  let mismatch :=
    (exists l, ids = Some l /\ len l <> len documents)
    \/ (exists l, metadatas = Some l /\ len l <> len documents) in
  (documents = [] -> run = (Ok 0, c))
  /\ (documents <> [] -> mismatch ->
      exists msg, run = (Raise (PyException "ValueError" msg), c))
  /\ (documents <> [] -> ~ mismatch ->
      exists ids' metadatas',
        len ids' = len documents /\ len metadatas' = len documents
        /\ (forall l, ids = Some l -> ids' = l)
        /\ (forall l, metadatas = Some l -> metadatas' = l)
        /\ run = match collection_add documents ids' metadatas' c with
                 | (Raise e, c') => (Raise e, c')
                 | (Ok _, c') => (Ok (len documents), c')
                 end)
  /\ (forall n, fst run = Ok n -> n = len documents).
Proof.
  intros run mismatch. unfold run, ChromaRAG.add_documents.
  destruct documents as [|d ds].
  { split; [reflexivity|]. split; [congruence|]. split; [congruence|].
    simpl. intros n H. injection H as <-. reflexivity. }
  cbn [truthy negb].
  set (documents := d :: ds) in *.
  set (ids' := match ids with
               | Some l => l
               | None => map uuid4 (seq 0 (length documents))
               end).
  set (metadatas' := match metadatas with
                     | Some l => l
                     | None => map (fun _ => empty_meta) documents
                     end).
  assert (Hids : len ids' <> len documents
                 <-> exists l, ids = Some l /\ len l <> len documents).
  { unfold ids'. destruct ids as [l|].
    - split; [intros H; exists l; auto|].
      intros (l' & Heq & H). injection Heq as <-. exact H.
    - unfold len. rewrite length_map, length_seq. split; [congruence|].
      intros (l' & Heq & _). discriminate Heq. }
  assert (Hmetas : len metadatas' <> len documents
                   <-> exists l, metadatas = Some l
                                 /\ len l <> len documents).
  { unfold metadatas'. destruct metadatas as [l|].
    - split; [intros H; exists l; auto|].
      intros (l' & Heq & H). injection Heq as <-. exact H.
    - unfold len. rewrite length_map. split; [congruence|].
      intros (l' & Heq & _). discriminate Heq. }
  split; [discriminate|].
  destruct (Z.eqb_spec (len ids') (len documents)) as [Ei|Ei];
    destruct (Z.eqb_spec (len metadatas') (len documents)) as [Em|Em];
    cbn [negb orb].
  - split.
    { intros _ [H|H]; [apply Hids in H | apply Hmetas in H]; congruence. }
    split.
    { intros _ _. exists ids', metadatas'.
      split; [exact Ei|]. split; [exact Em|].
      split; [intros l ->; reflexivity|].
      split; [intros l ->; reflexivity|]. reflexivity. }
    intros n H.
    destruct (collection_add documents ids' metadatas' c) as [[u|e] c'];
      simpl in H; [injection H as <-; reflexivity | discriminate].
  - split; [intros; eexists; reflexivity|].
    split; [intros _ H; exfalso; apply H; right; now apply Hmetas|].
    simpl. discriminate.
  - split; [intros; eexists; reflexivity|].
    split; [intros _ H; exfalso; apply H; left; now apply Hids|].
    simpl. discriminate.
  - split; [intros; eexists; reflexivity|].
    split; [intros _ H; exfalso; apply H; left; now apply Hids|].
    simpl. discriminate.
Qed.

(** ** Log previews *)

(** X13.  The preview of a text in a log line is the trimmed text
    when that has at most 50 characters, and otherwise its first 50
    characters followed by three dots; so a preview never has more
    than 53 characters. *)
Theorem preview_is_bounded (text : str) :
  len (_preview text) <= 53
  /\ (len (strip text) <= 50 -> _preview text = strip text)
  /\ (50 < len (strip text) ->
      _preview text = firstn 50 (strip text) ++ lit "...").
Proof.
  unfold _preview, PREVIEW_LEN.
  assert (Hcut : slice (strip text) 0 50 = firstn 50 (strip text)).
  { now rewrite slice_prefix by lia. }
  destruct (Z.leb_spec (len (strip text)) 50) as [Hle|Hgt].
  - split; [lia|]. split; [reflexivity | lia].
  - split; [|split; [lia | now rewrite Hcut]].
    rewrite Hcut. unfold len. rewrite length_app.
    pose proof (firstn_length_le 50 (strip text)).
    change (length (lit "...")) with 3%nat. lia.
Qed.

(** ** Parsing the extracted facts *)

Section SplitFacts.

Import MemoryProcessor.

Lemma re_split_not_nil (s : str) : re_split s <> [].
Proof.
  induction s as [|c s IH]; simpl; [discriminate|].
  destruct (is_delimiter c); [discriminate|].
  destruct (re_split s); [congruence | discriminate].
Qed.

Lemma re_split_concat (s : str) :
  concat (re_split s) = filter (fun c => negb (is_delimiter c)) s.
Proof.
  induction s as [|c s IH]; simpl; [reflexivity|].
  destruct (is_delimiter c) eqn:E; simpl; [exact IH|].
  pose proof (re_split_not_nil s) as Hne.
  destruct (re_split s) as [|x xs]; [congruence|].
  simpl in *. now rewrite IH.
Qed.

Lemma re_split_length (s : str) :
  length (re_split s) = S (length (filter is_delimiter s)).
Proof.
  induction s as [|c s IH]; simpl; [reflexivity|].
  destruct (is_delimiter c) eqn:E; simpl; [now rewrite IH|].
  pose proof (re_split_not_nil s) as Hne.
  destruct (re_split s) as [|x xs]; [congruence|].
  simpl in *. exact IH.
Qed.

Lemma re_split_pieces (s : str) :
  forall piece ch, In piece (re_split s) -> In ch piece ->
                   is_delimiter ch = false.
Proof.
  intros piece ch Hp Hc.
  assert (Hin : In ch (concat (re_split s))).
  { apply in_concat. exists piece. auto. }
  rewrite re_split_concat in Hin. apply filter_In in Hin.
  now apply negb_true_iff.
Qed.

Lemma lstrip_incl (s : str) (ch : char) : In ch (lstrip s) -> In ch s.
Proof.
  induction s as [|c s IH]; simpl; [auto|].
  destruct (isspace c); [intros H; right; now apply IH | auto].
Qed.

Lemma strip_incl (s : str) (ch : char) : In ch (strip s) -> In ch s.
Proof.
  unfold strip, rstrip. intros H.
  apply in_rev, lstrip_incl in H. rewrite <- in_rev in H.
  now apply lstrip_incl.
Qed.

End SplitFacts.

(** X14.  Splitting an LLM answer loses nothing but the delimiters:
    the pieces, concatenated, are the answer without its newlines,
    bullets and hyphens, and there is one piece more than there are
    delimiters. *)
Theorem re_split_keeps_everything_but_delimiters (s : str) :
  concat (re_split s) = filter (fun c => negb (is_delimiter c)) s
  /\ length (re_split s) = S (length (filter is_delimiter s))
  /\ (forall piece ch, In piece (re_split s) -> In ch piece ->
        ch <> 10%N /\ ch <> 8226%N /\ ch <> 45%N).
Proof.
  split; [apply re_split_concat|]. split; [apply re_split_length|].
  intros piece ch Hp Hc.
  pose proof (re_split_pieces s piece ch Hp Hc) as H.
  unfold is_delimiter in H.
  apply orb_false_iff in H. destruct H as [H H3].
  apply orb_false_iff in H. destruct H as [H1 H2].
  apply N.eqb_neq in H1, H2, H3. auto.
Qed.

(** X15.  Every fact parsed from an LLM answer is trimmed, has more
    than three characters and contains no newline, bullet or hyphen:
    a hyphen inside a sentence splits it into two facts (or loses
    the short part). *)
Theorem parsed_facts_are_trimmed_and_delimiter_free (facts_text : str) :
  forall fact, In fact (parse_facts facts_text) ->
    strip fact = fact
    /\ 3 < len fact
    /\ (forall ch, In ch fact -> ch <> 10%N /\ ch <> 8226%N /\ ch <> 45%N).
Proof.
  intros fact Hin. unfold parse_facts in Hin.
  apply in_map_iff in Hin. destruct Hin as (piece & <- & Hp).
  apply filter_In in Hp. destruct Hp as [Hp Hlen].
  apply andb_true_iff in Hlen. destruct Hlen as [_ Hlen].
  apply Z.ltb_lt in Hlen.
  split; [apply strip_idem|]. split; [exact Hlen|].
  intros ch Hc. apply strip_incl in Hc.
  pose proof (re_split_pieces facts_text piece ch Hp Hc) as H.
  unfold is_delimiter in H.
  apply orb_false_iff in H. destruct H as [H H3].
  apply orb_false_iff in H. destruct H as [H1 H2].
  apply N.eqb_neq in H1, H2, H3. auto.
Qed.

Example parse_facts_splits_at_hyphens :
  parse_facts (lit "Name: Anna-Maria")
  = [lit "Name: Anna"; lit "Maria"].
Proof. reflexivity. Qed.

(** ** The scheduler between and at its cadence points *)

(** X16.  On a turn where neither fact extraction nor the summary is
    due, the scheduler does nothing but read the chat history: it
    never calls the LLM and never calls the memory store, whatever
    these would do, and it returns normally.  (Without a memory
    store, a thread or a character it does not even read the
    history.) *)
Theorem scheduler_is_idle_between_cadence_points
        (W : Type)
        (get_history : str -> str -> M W (list HistoryMessage))
        (conf_uid history_uid : str)
        (dialogue_memory : option (Memory W))
        (llm_prompt_fn : list LLMMessage -> SystemPrompt -> M W str)
        (message_count : Z) (w : W) :
  fact_extraction_due message_count = false ->
  summary_due message_count = false ->
  process_memory_background get_history conf_uid history_uid
    dialogue_memory llm_prompt_fn message_count w
  = (Ok tt,
     match dialogue_memory with
     | None => w
     | Some _ =>
         if negb (truthy history_uid) || negb (truthy conf_uid) then w
         else snd (get_history conf_uid history_uid w)
     end).
Proof.
  intros Hf Hs. unfold process_memory_background.
  destruct dialogue_memory as [dm|]; [|reflexivity].
  destruct (negb (truthy history_uid) || negb (truthy conf_uid));
    [reflexivity|].
  unfold try_except, bind. rewrite Hf, Hs.
  destruct (get_history conf_uid history_uid w) as [[msgs|e] w'];
    [|reflexivity].
  destruct (negb (truthy msgs)); [reflexivity|].
  match goal with
  | |- context [negb (truthy (strip ?d))] =>
      destruct (negb (truthy (strip d)))
  end; reflexivity.
Qed.

Lemma scheduler_is_idle_between_cadence_points_witness :
  fact_extraction_due 4 = false
  /\ summary_due 4 = false
  /\ Instrumented.run Samples.uuid4 Samples.utcnow Samples.llm
       Samples.history (lit "c") (lit "h") 4 Samples.fresh_world
     = (Ok tt, Samples.fresh_world).
Proof.
  split; [reflexivity|]. split; [reflexivity|].
  exact (scheduler_is_idle_between_cadence_points Instrumented.World
           (Instrumented.get_history Samples.history) (lit "c") (lit "h")
           (Some (Instrumented.memory Samples.uuid4 Samples.utcnow))
           (Instrumented.llm_prompt_fn Samples.llm) 4 Samples.fresh_world
           eq_refl eq_refl).
Defined.

Section AppendFacts.

Import Instrumented.

Variable uuid4 : nat -> str.
Variable utcnow : nat -> Z.
Variable llm : list SystemPrompt -> list LLMMessage -> SystemPrompt
               -> result str.
Variable history : str -> str -> result (list HistoryMessage).

Let mem := memory uuid4 utcnow.
Let ask := llm_prompt_fn llm.

(** A write of the store appends at most the item it was asked to
    write. *)
Lemma store_add_item_appends (doc_id : str) (now : Z)
      (r content h c : str) (st : Store) :
  exists new,
    snd (DialogueMemory.add_item doc_id now r content h c st) = st ++ new
    /\ (length new <= 1)%nat /\ Forall (wrote r h c) new.
Proof.
  unfold DialogueMemory.add_item.
  destruct (negb (truthy content) || negb (truthy (strip content))) eqn:B.
  - exists []. simpl. rewrite app_nil_r. auto.
  - apply not_blank_iff in B. simpl snd.
    destruct (add_cases doc_id (strip content) (mkMeta r h c now) st)
      as [-> | ->].
    + exists []. rewrite app_nil_r. simpl. auto.
    + eexists. split; [reflexivity|]. split; [simpl; lia|].
      constructor; [|constructor].
      unfold wrote, content_ok. simpl. rewrite strip_idem. auto.
Qed.

Lemma add_item_appends_one (r content h c : str) (w : World) :
  exists v w' new,
    add_item mem r content h c w = (Ok v, w')
    /\ store w' = store w ++ new
    /\ (length new <= 1)%nat /\ Forall (wrote r h c) new.
Proof.
  unfold mem, memory; cbn [add_item].
  pose proof (add_item_ok (uuid4 (ticks w)) (utcnow (ticks w)) r content
                h c (store w)) as Hok.
  destruct (store_add_item_appends (uuid4 (ticks w)) (utcnow (ticks w))
              r content h c (store w)) as (new & Hst & Hlen & Hall).
  destruct (DialogueMemory.add_item (uuid4 (ticks w)) (utcnow (ticks w))
              r content h c (store w)) as [[v|e] st']; simpl in Hok;
    [|discriminate].
  exists v. eexists. exists new. simpl in *. auto.
Qed.

Lemma set_user_profile_appends_one (h c content : str) (w : World) :
  exists w' new,
    set_user_profile mem h c content w = (Ok tt, w')
    /\ store w' = store w ++ new
    /\ (length new <= 1)%nat /\ Forall (wrote ROLE_USER_PROFILE h c) new.
Proof.
  unfold mem, memory; cbn [set_user_profile].
  rewrite set_user_profile_state.
  destruct (store_add_item_appends (uuid4 (ticks w)) (utcnow (ticks w))
              ROLE_USER_PROFILE content h c (store w))
    as (new & Hst & Hlen & Hall).
  eexists. exists new. simpl. auto.
Qed.

Lemma store_facts_appends (h c : str) (facts : list str) :
  forall w,
  exists new,
    appends (for_each facts
               (fun fact =>
                  bind (add_item mem (lit "fact") fact h c)
                    (fun _ => ret tt))) w new
    /\ (length new <= length facts)%nat
    /\ Forall (wrote ROLE_FACT h c) new.
Proof.
  induction facts as [|f facts IH]; intros w.
  - exists []. split; [|simpl; auto].
    exists w. split; [reflexivity | now rewrite app_nil_r].
  - unfold appends. cbn [for_each]. unfold bind at 1. unfold bind at 1.
    destruct (add_item_appends_one (lit "fact") f h c w)
      as (v & w1 & new1 & -> & Hst1 & Hlen1 & Hall1).
    unfold ret at 1.
    destruct (IH w1) as (new2 & (w2 & E & Hst2) & Hlen2 & Hall2).
    exists (new1 ++ new2). split; [|split].
    + exists w2. split; [exact E|].
      rewrite Hst2, Hst1. now rewrite app_assoc.
    + rewrite length_app. simpl. lia.
    + apply Forall_app. split; assumption.
Qed.

Lemma merge_profile_appends (c h : str) (all_facts : list str) (w : World) :
  exists new,
    appends (merge_profile ask mem c h all_facts) w new
    /\ (length new <= 1)%nat
    /\ Forall (wrote ROLE_USER_PROFILE h c) new.
Proof.
  unfold appends, merge_profile, try_except, bind, ask, llm_prompt_fn, log,
    ret.
  destruct (llm (llm_calls w) _ PROFILE_MERGE_SYSTEM) as [merged|e].
  - destruct (truthy merged && truthy (strip merged)).
    + match goal with
      | |- context [set_user_profile mem ?a ?b ?x ?y] =>
          destruct (set_user_profile_appends_one a b x y)
            as (w1 & new & -> & Hst & Hlen & Hall)
      end.
      exists new. split; [|auto].
      eexists. split; [reflexivity | exact Hst].
    + exists []. split; [|simpl; auto].
      eexists. split; [reflexivity | simpl; now rewrite app_nil_r].
  - exists []. split; [|simpl; auto].
    eexists. split; [reflexivity | simpl; now rewrite app_nil_r].
Qed.

Lemma slice_10_length {A} (l : list A) : (length (slice l 0 10) <= 10)%nat.
Proof.
  rewrite slice_prefix by lia. apply firstn_length_le.
Qed.

Lemma extract_facts_appends (c h dialog_text : str) (w : World) :
  exists facts profile,
    appends (extract_facts ask mem c h dialog_text) w (facts ++ profile)
    /\ (length facts <= 10)%nat /\ Forall (wrote ROLE_FACT h c) facts
    /\ (length profile <= 1)%nat
    /\ Forall (wrote ROLE_USER_PROFILE h c) profile.
Proof.
  unfold appends, extract_facts, try_except.
  unfold bind at 1. unfold ask at 1, llm_prompt_fn at 1.
  assert (Hnothing : forall w0 : World,
             store w0 = store w ->
             exists facts profile : Store,
               (exists w', (Ok tt, w0) = (Ok tt, w')
                           /\ store w' = store w ++ facts ++ profile)
               /\ (length facts <= 10)%nat
               /\ Forall (wrote ROLE_FACT h c) facts
               /\ (length profile <= 1)%nat
               /\ Forall (wrote ROLE_USER_PROFILE h c) profile).
  { intros w0 Hw0. exists [], []. split; [|simpl; auto 6 with arith].
    exists w0. split; [reflexivity|]. simpl. now rewrite app_nil_r. }
  destruct (llm (llm_calls w) _ FACT_EXTRACTION_SYSTEM) as [facts_text|e];
    [|apply Hnothing; reflexivity].
  destruct (truthy facts_text && truthy (strip facts_text));
    [|apply Hnothing; reflexivity].
  unfold bind at 1.
  match goal with
  | |- context [for_each ?fs _ ?w0] =>
      destruct (store_facts_appends h c fs w0)
        as (facts & (w1 & -> & Hst1) & Hlen1 & Hall1);
      pose proof (slice_10_length (parse_facts facts_text)) as H10
  end.
  simpl store in Hst1.
  unfold bind at 1. cbn [get_all_facts mem memory].
  destruct (truthy (DialogueMemory.get_all_facts h c 50 (store w1))).
  - unfold bind at 1.
    match goal with
    | |- context [merge_profile ask mem ?a ?b ?fs ?w0] =>
        destruct (merge_profile_appends a b fs w0)
          as (profile & (w2 & -> & Hst2) & Hlen2 & Hall2)
    end.
    exists facts, profile. split; [|repeat split; auto; lia].
    exists w2. split; [reflexivity|].
    rewrite Hst2, Hst1. now rewrite app_assoc.
  - exists facts, []. split; [|repeat split; auto; simpl; lia].
    exists w1. split; [reflexivity|]. now rewrite app_nil_r.
Qed.

Lemma summarize_appends (c h dialog_text : str) (w : World) :
  exists new,
    appends (summarize ask mem c h dialog_text) w new
    /\ (length new <= 1)%nat /\ Forall (wrote ROLE_SUMMARY h c) new.
Proof.
  unfold appends, summarize, try_except.
  unfold bind at 1. unfold ask at 1, llm_prompt_fn at 1.
  destruct (llm (llm_calls w) _ SUMMARY_SYSTEM) as [summary_text|e].
  - destruct (truthy summary_text && truthy (strip summary_text)).
    + unfold bind at 1.
      match goal with
      | |- context [add_item mem ?r ?x ?a ?b ?w0] =>
          destruct (add_item_appends_one r x a b w0)
            as (v & w1 & new & -> & Hst & Hlen & Hall)
      end.
      exists new. split; [|auto].
      exists w1. split; [reflexivity | exact Hst].
    + exists []. split; [|simpl; auto].
      eexists. split; [reflexivity | simpl; now rewrite app_nil_r].
  - exists []. split; [|simpl; auto].
    eexists. split; [reflexivity | simpl; now rewrite app_nil_r].
Qed.

End AppendFacts.

(** X17.  A run of the scheduler against the memory store is
    append-only and bounded: whatever the chat history and the LLM
    do, the run ends normally and the store afterwards is the store
    before followed by at most 10 facts, then at most one profile,
    then at most one summary, all in the scope of the run and with
    trimmed content that is not empty.  Facts and profile are only
    written when fact extraction is due, the summary only when the
    summary is due. *)
Theorem scheduler_run_is_append_only_and_bounded
        (uuid4 : nat -> str) (utcnow : nat -> Z)
        (llm : list SystemPrompt -> list LLMMessage -> SystemPrompt
               -> result str)
        (history : str -> str -> result (list HistoryMessage))
        (conf_uid history_uid : str) (message_count : Z)
        (w : Instrumented.World) :
  exists w' facts profile summary,
    Instrumented.run uuid4 utcnow llm history conf_uid history_uid
      message_count w = (Ok tt, w')
    /\ Instrumented.store w'
       = Instrumented.store w ++ facts ++ profile ++ summary
    /\ len facts <= 10 /\ len profile <= 1 /\ len summary <= 1
    /\ Forall (Instrumented.wrote ROLE_FACT history_uid conf_uid) facts
    /\ Forall (Instrumented.wrote ROLE_USER_PROFILE history_uid conf_uid)
         profile
    /\ Forall (Instrumented.wrote ROLE_SUMMARY history_uid conf_uid) summary
    /\ (fact_extraction_due message_count = false ->
        facts = [] /\ profile = [])
    /\ (summary_due message_count = false -> summary = []).
Proof.
  assert (Hnothing : forall w0 : Instrumented.World,
             Instrumented.store w0 = Instrumented.store w ->
             exists (w' : Instrumented.World) (facts profile summary : Store),
               (Ok tt, w0) = (Ok tt, w')
               /\ Instrumented.store w'
                  = Instrumented.store w ++ facts ++ profile ++ summary
               /\ len facts <= 10 /\ len profile <= 1 /\ len summary <= 1
               /\ Forall (Instrumented.wrote ROLE_FACT history_uid conf_uid)
                    facts
               /\ Forall (Instrumented.wrote ROLE_USER_PROFILE history_uid
                            conf_uid) profile
               /\ Forall (Instrumented.wrote ROLE_SUMMARY history_uid
                            conf_uid) summary
               /\ (fact_extraction_due message_count = false ->
                   facts = [] /\ profile = [])
               /\ (summary_due message_count = false -> summary = [])).
  { intros w0 Hw0. exists w0, [], [], [].
    split; [reflexivity|]. split; [simpl; now rewrite app_nil_r|].
    unfold len; simpl. repeat split; auto; lia. }
  unfold Instrumented.run, process_memory_background.
  destruct (negb (truthy history_uid) || negb (truthy conf_uid));
    [apply Hnothing; reflexivity|].
  unfold try_except. unfold bind at 1. unfold Instrumented.get_history at 1.
  destruct (history conf_uid history_uid) as [msgs|e];
    [|apply Hnothing; reflexivity].
  destruct (negb (truthy msgs)); [apply Hnothing; reflexivity|].
  match goal with
  | |- context [negb (truthy (strip ?d))] => set (dialog_text := d)
  end.
  destruct (negb (truthy (strip dialog_text)));
    [apply Hnothing; reflexivity|].
  unfold bind at 1.
  assert (Hfacts : exists w1 facts profile,
             (if fact_extraction_due message_count
              then extract_facts (Instrumented.llm_prompt_fn llm)
                     (Instrumented.memory uuid4 utcnow) conf_uid history_uid
                     dialog_text
              else ret tt) w = (Ok tt, w1)
             /\ Instrumented.store w1
                = Instrumented.store w ++ facts ++ profile
             /\ (length facts <= 10)%nat /\ (length profile <= 1)%nat
             /\ Forall (Instrumented.wrote ROLE_FACT history_uid conf_uid)
                  facts
             /\ Forall (Instrumented.wrote ROLE_USER_PROFILE history_uid
                          conf_uid) profile
             /\ (fact_extraction_due message_count = false ->
                 facts = [] /\ profile = [])).
  { destruct (fact_extraction_due message_count).
    - destruct (extract_facts_appends uuid4 utcnow llm conf_uid history_uid
                  dialog_text w)
        as (facts & profile & (w1 & E & Hst) & H1 & H2 & H3 & H4).
      exists w1, facts, profile. repeat split; auto; discriminate.
    - exists w, [], []. simpl. rewrite app_nil_r.
      repeat split; auto; lia. }
  destruct Hfacts as (w1 & facts & profile & -> & Hst1 & Hl1 & Hl2 & Ha1
                      & Ha2 & Hidle).
  assert (Hsum : exists w2 summary,
             (if summary_due message_count
              then summarize (Instrumented.llm_prompt_fn llm)
                     (Instrumented.memory uuid4 utcnow) conf_uid history_uid
                     dialog_text
              else ret tt) w1 = (Ok tt, w2)
             /\ Instrumented.store w2 = Instrumented.store w1 ++ summary
             /\ (length summary <= 1)%nat
             /\ Forall (Instrumented.wrote ROLE_SUMMARY history_uid conf_uid)
                  summary
             /\ (summary_due message_count = false -> summary = [])).
  { destruct (summary_due message_count).
    - destruct (summarize_appends uuid4 utcnow llm conf_uid history_uid
                  dialog_text w1) as (summary & (w2 & E & Hst) & H1 & H2).
      exists w2, summary. repeat split; auto; discriminate.
    - exists w1, []. simpl. rewrite app_nil_r.
      repeat split; auto; lia. }
  destruct Hsum as (w2 & summary & -> & Hst2 & Hl3 & Ha3 & Hidle2).
  exists w2, facts, profile, summary.
  split; [reflexivity|].
  split; [rewrite Hst2, Hst1; now rewrite <- !app_assoc|].
  unfold len. repeat split; auto; try lia; apply Hidle; assumption.
Qed.

(** ** The memory context of a turn *)

(** X18.  Building the memory context never fails and yields at most
    two entries, the profile and the list of similar items.  It is
    empty without a memory store, without a thread or for blank
    input.  When the configured number of memory results is zero or
    negative, the query on a store that holds anything raises inside
    the block, the failure is swallowed, and the context is just the
    profile entry (or empty when the scope has no profile). *)
Theorem memory_context_survives_a_failing_query
        (rank : str -> list Item -> list Item)
        (PROFILE_HEADING FACT_PREFIX SUMMARY_PREFIX MEMORY_HEADING : str)
        (dialogue_memory : option Store)
        (history_uid conf_uid input_text : str) (mem_n : Z) :
  let context :=
    Conversation.memory_context rank PROFILE_HEADING FACT_PREFIX
      SUMMARY_PREFIX MEMORY_HEADING dialogue_memory history_uid conf_uid
      input_text mem_n in
  len context <= 2
  /\ (dialogue_memory = None \/ history_uid = [] \/ strip input_text = [] ->
      context = [])
  /\ (forall st, dialogue_memory = Some st -> st <> [] -> mem_n <= 0 ->
      history_uid <> [] -> strip input_text <> [] ->
      context
      = let profile := get_user_profile history_uid conf_uid st in
        if truthy profile then [PROFILE_HEADING ++ profile] else []).
Proof.
  intros context. unfold context, Conversation.memory_context.
  split; [|split].
  - destruct dialogue_memory as [st|]; [|unfold len; simpl; lia].
    destruct (truthy history_uid && truthy (strip input_text));
      [|unfold len; simpl; lia].
    destruct (truthy (get_user_profile history_uid conf_uid st));
      destruct (query rank _ _ _ _ _ st) as [similar|e];
      try destruct (truthy similar); unfold len; simpl; lia.
  - intros [-> | [-> | H]]; [reflexivity | |].
    + destruct dialogue_memory; reflexivity.
    + destruct dialogue_memory; [|reflexivity].
      apply truthy_false in H. rewrite H, andb_false_r. reflexivity.
  - intros st -> Hst Hn Hh Hi.
    apply truthy_true in Hh, Hi. rewrite Hh, Hi. cbn [andb].
    destruct (query_without_results_raises rank (strip input_text) mem_n
                (Some history_uid) (Some conf_uid)
                (Some [lit "fact"; lit "summary"]) st Hst Hn) as (e & ->).
    reflexivity.
Qed.

Lemma memory_context_survives_a_failing_query_witness :
  Samples.mixed <> []
  /\ 0 <= 0
  /\ Conversation.memory_context (fun _ l => l) (lit "Profile: ")
       (lit "Fact: ") (lit "Summary: ") (lit "From memory: ")
       (Some Samples.mixed) (lit "h") (lit "c") (lit "tea?") 0
     = [lit "Profile: Name: Sasha"].
Proof.
  assert (H1 : Samples.mixed <> []) by (unfold Samples.mixed; discriminate).
  assert (H2 : 0 <= 0) by lia.
  split; [exact H1|]. split; [exact H2|].
  destruct (memory_context_survives_a_failing_query (fun _ l => l)
              (lit "Profile: ") (lit "Fact: ") (lit "Summary: ")
              (lit "From memory: ") (Some Samples.mixed) (lit "h") (lit "c")
              (lit "tea?") 0) as (_ & _ & Hfail).
  rewrite (Hfail Samples.mixed eq_refl H1 H2);
    [reflexivity | | ]; vm_compute; discriminate.
Defined.

Example memory_context_with_results :
  Conversation.memory_context (fun _ l => l) (lit "Profile: ")
    (lit "Fact: ") (lit "Summary: ") (lit "From memory: ")
    (Some Samples.mixed) (lit "h") (lit "c") (lit "tea?") 5
  = [lit "Profile: Name: Sasha";
     lit "From memory: " ++ lit "Fact: Likes tea" ++ [10%N]
     ++ lit "Summary: talked about tea"].
Proof. reflexivity. Qed.

(** ** Listing items *)

Section ListFacts.

Lemma insert_listed_In (x e : Listed) (l : list Listed) :
  In x (insert_listed e l) <-> x = e \/ In x l.
Proof.
  induction l as [|y l IH]; simpl; [intuition|].
  destruct (li_timestamp e <? li_timestamp y); simpl; rewrite ?IH;
    intuition.
Qed.

Lemma sort_listed_In (x : Listed) (l : list Listed) :
  In x (sort_listed l) <-> In x l.
Proof.
  induction l as [|y l IH]; simpl; [tauto|].
  rewrite insert_listed_In, IH. intuition.
Qed.

Lemma insert_listed_newest (x : Listed) (l : list Listed) :
  newest_first (map li_timestamp l) ->
  newest_first (map li_timestamp (insert_listed x l)).
Proof.
  induction l as [|y l IH];
    [simpl; intros _; split; [intros y []|exact I]|].
  intros Hs. assert (Hs' := Hs). cbn [map newest_first] in Hs'.
  destruct Hs' as [Hy Hl]. cbn [insert_listed].
  destruct (Z.ltb_spec (li_timestamp x) (li_timestamp y)).
  - cbn [map newest_first]. split; [|apply IH; exact Hl].
    intros z Hz. apply in_map_iff in Hz. destruct Hz as (e & <- & He).
    apply insert_listed_In in He. destruct He as [->|He]; [lia|].
    apply Hy. now apply in_map.
  - change (map li_timestamp (x :: y :: l))
      with (li_timestamp x :: map li_timestamp (y :: l)).
    split; [|exact Hs].
    intros z [<-|Hz]; [lia|]. specialize (Hy z Hz). lia.
Qed.

Lemma sort_listed_newest (l : list Listed) :
  newest_first (map li_timestamp (sort_listed l)).
Proof.
  induction l as [|x l IH]; [exact I|]. simpl.
  now apply insert_listed_newest.
Qed.

Lemma newest_first_firstn (n : nat) (l : list Z) :
  newest_first l -> newest_first (firstn n l).
Proof.
  intros H. rewrite <- (firstn_skipn n l) in H.
  now apply newest_first_app in H.
Qed.

Lemma list_where_iff (conf_uid : str) (h r : option str) (m : Metadata) :
  eval_where (list_where conf_uid h r) m = true
  <-> md_conf_uid m = conf_uid
      /\ (opt_truthy h = true -> md_history_uid m = opt_get h)
      /\ (opt_truthy r = true -> md_role m = opt_get r).
Proof.
  unfold list_where. destruct (opt_truthy h), (opt_truthy r); simpl;
    rewrite ?andb_true_iff, ?str_eqb_eq; intuition congruence.
Qed.

End ListFacts.

(** X19.  [list_items] with a limit that is not negative returns at
    most [limit] entries, newest first; provided the collection
    returns only selected records for a limited [get], every entry
    describes a stored item of the given character (and of the given
    thread and role, when these are given), with its identifier, its
    trimmed content, its role and its timestamp. *)
Theorem list_items_are_filtered_and_newest_first
        (page : Z -> list Item -> list Item)
        (conf_uid : str) (history_uid role : option str) (limit : Z)
        (st : Store) :
  (forall n l x, In x (page n l) -> In x l) ->
  0 <= limit ->
  let out := list_items page conf_uid history_uid role limit st in
  len out <= limit
  /\ newest_first (map li_timestamp out)
  /\ (forall x, In x out ->
        exists e,
          In e st
          /\ x = mkListed (Chroma.entry_id e) (strip (Chroma.document e))
                   (md_role (Chroma.metadata e))
                   (md_timestamp (Chroma.metadata e))
          /\ md_conf_uid (Chroma.metadata e) = conf_uid
          /\ (opt_truthy history_uid = true ->
              md_history_uid (Chroma.metadata e) = opt_get history_uid)
          /\ (opt_truthy role = true ->
              md_role (Chroma.metadata e) = opt_get role)).
Proof.
  intros Hpage Hlimit out. unfold out, list_items.
  rewrite slice_prefix by assumption.
  split; [|split].
  - unfold len.
    pose proof (firstn_length_le (Z.to_nat limit)
                  (sort_listed
                     (map (fun e : Item =>
                             mkListed (Chroma.entry_id e)
                               (strip (Chroma.document e))
                               (md_role (Chroma.metadata e))
                               (md_timestamp (Chroma.metadata e)))
                        (page limit
                           (Chroma.get
                              (eval_where
                                 (list_where conf_uid history_uid role))
                              st))))).
    lia.
  - rewrite <- firstn_map. apply newest_first_firstn.
    apply sort_listed_newest.
  - intros x Hx. apply In_firstn in Hx. rewrite sort_listed_In in Hx.
    apply in_map_iff in Hx. destruct Hx as (e & <- & He).
    apply Hpage in He. unfold Chroma.get in He. apply filter_In in He.
    destruct He as [He Hw]. apply list_where_iff in Hw.
    exists e. split; [exact He|]. split; [reflexivity | exact Hw].
Qed.

Lemma list_items_are_filtered_and_newest_first_witness :
  (forall (n : Z) (l : list Item) x,
      In x (firstn (Z.to_nat n) l) -> In x l)
  /\ 0 <= 2
  /\ len (list_items (fun n l => firstn (Z.to_nat n) l) (lit "c")
            (Some (lit "h")) None 2 Samples.mixed) <= 2.
Proof.
  assert (H1 : forall (n : Z) (l : list Item) x,
             In x (firstn (Z.to_nat n) l) -> In x l).
  { intros n l x. apply In_firstn. }
  assert (H2 : 0 <= 2) by lia.
  split; [exact H1|]. split; [exact H2|].
  exact (proj1 (list_items_are_filtered_and_newest_first
                  (fun n l => firstn (Z.to_nat n) l) (lit "c")
                  (Some (lit "h")) None 2 Samples.mixed H1 H2)).
Defined.

(** ** Ingesting a directory *)

Section IngestFacts.

Import ChromaRAG.

(** The chunker's result with any sufficient fuel, chunk by chunk. *)
Lemma chunk_text_fuel_spec (t : str) (cs ov : Z) (fuel : nat) :
  0 <= ov < cs -> (length (strip t) <= fuel)%nat ->
  exists chunks,
    _chunk_text_fuel fuel t cs ov = Some chunks
    /\ forall k, (k < length chunks)%nat ->
         nth k chunks []
         = slice (strip t) (Z.of_nat k * (cs - ov))
             (Z.of_nat k * (cs - ov) + cs)
         /\ Z.of_nat k * (cs - ov) < len (strip t).
Proof.
  intros [Ho Hc] Hfuel.
  destruct (strip t) as [|x r] eqn:E.
  - exists []. unfold _chunk_text_fuel. rewrite E. simpl.
    split; [reflexivity|]. intros k Hk. simpl in Hk. lia.
  - assert (Hne : strip t <> []) by congruence.
    destruct (chunk_text_fuel_windows t (Z.to_nat cs) (Z.to_nat ov))
      as (m & Hrun & Hb); [lia | exact Hne |].
    rewrite !Z2Nat.id in Hrun by lia. rewrite E in *.
    set (s := x :: r) in *.
    exists (map (window s cs ov) (seq 0 (S m))).
    split; [now apply Hrun|].
    intros k Hk. rewrite length_map, length_seq in Hk.
    rewrite (nth_indep _ [] (window s cs ov 0%nat))
      by (rewrite length_map, length_seq; lia).
    rewrite map_nth, seq_nth by lia.
    split; [reflexivity|]. unfold len. nia.
Qed.

Lemma index_chunks_In (src : str) (chunks : list str) :
  forall i ch m,
    In (ch, m) (index_chunks src i chunks) ->
    exists k, (k < length chunks)%nat
              /\ ch = nth k chunks []
              /\ m = mkChunkMeta src (i + Z.of_nat k).
Proof.
  induction chunks as [|c chunks IH]; intros i ch m Hin; [destruct Hin|].
  simpl in Hin. destruct Hin as [Heq|Hin].
  - injection Heq as <- <-. exists 0%nat. simpl.
    split; [lia|]. split; [reflexivity|]. f_equal. lia.
  - destruct (IH _ _ _ Hin) as (k & Hk & Hch & Hm).
    exists (S k). simpl. split; [lia|]. split; [exact Hch|].
    rewrite Hm. f_equal. lia.
Qed.

Lemma slice_inside_not_nil {A} (l : list A) (a b : Z) :
  0 <= a < len l -> a < b -> slice l a b <> [].
Proof.
  intros Ha Hb H. apply (f_equal (@length A)) in H.
  rewrite <- (Z2Nat.id a), <- (Z2Nat.id b) in H by lia.
  rewrite slice_of_nat, length_firstn, length_skipn in H.
  unfold len in Ha. simpl in H. lia.
Qed.

(** Where a chunk of the ingestion comes from. *)
Lemma collect_chunks_spec (fuel : nat) (extensions : list str)
      (cs ov : Z) (entries : list DirEntry) :
  0 <= ov < cs ->
  (forall f text, In f entries -> read_text f = Ok text ->
                  (length (strip text) <= fuel)%nat) ->
  exists all,
    collect_chunks fuel entries extensions cs ov = Some all
    /\ forall ch m, In (ch, m) all ->
         exists f text,
           In f entries
           /\ In (suffix_lower f) extensions
           /\ read_text f = Ok text
           /\ source m = file_path f
           /\ 0 <= chunk_index m
           /\ chunk_index m * (cs - ov) < len (strip text)
           /\ ch = slice (strip text) (chunk_index m * (cs - ov))
                     (chunk_index m * (cs - ov) + cs)
           /\ ch <> [].
Proof.
  intros Hv. induction entries as [|f entries IH]; intros Hfuel.
  - exists []. split; [reflexivity|]. intros ch m [].
  - destruct IH as (more & Hmore & Hspec).
    { intros g text Hg. apply Hfuel. now right. }
    assert (Hlift : forall ch m, In (ch, m) more ->
               exists g text,
                 In g (f :: entries)
                 /\ In (suffix_lower g) extensions
                 /\ read_text g = Ok text
                 /\ source m = file_path g
                 /\ 0 <= chunk_index m
                 /\ chunk_index m * (cs - ov) < len (strip text)
                 /\ ch = slice (strip text) (chunk_index m * (cs - ov))
                           (chunk_index m * (cs - ov) + cs)
                 /\ ch <> []).
    { intros ch m Hin. destruct (Hspec ch m Hin) as (g & text & Hg & H).
      exists g, text. split; [now right | exact H]. }
    cbn [collect_chunks].
    destruct (str_in (suffix_lower f) extensions) eqn:Eext; cbn [negb];
      [|exists more; split; assumption].
    destruct (read_text f) as [text|e] eqn:Eread;
      [|exists more; split; assumption].
    destruct (chunk_text_fuel_spec text cs ov fuel Hv)
      as (chunks & -> & Hchunks).
    { apply (Hfuel f text); [now left | exact Eread]. }
    rewrite Hmore. eexists. split; [reflexivity|].
    intros ch m Hin. apply in_app_or in Hin.
    destruct Hin as [Hin|Hin]; [|now apply Hlift].
    apply index_chunks_In in Hin. destruct Hin as (k & Hk & -> & ->).
    destruct (Hchunks k Hk) as (Hnth & Hstart).
    exists f, text. cbn [source chunk_index]. rewrite Z.add_0_l.
    split; [now left|]. split; [now apply str_in_In|].
    split; [exact Eread|]. split; [reflexivity|]. split; [lia|].
    split; [exact Hstart|]. split; [exact Hnth|].
    rewrite Hnth. apply slice_inside_not_nil; nia.
Qed.

End IngestFacts.

(** X20.  Ingesting a directory fails with [FileNotFoundError] when
    the path is not a directory.  Otherwise, for [chunk_size >
    chunk_overlap >= 0], it finishes; only files with an allowed
    extension that could be read contribute; every chunk it collects
    is not empty and is the window of its file's trimmed text that
    starts at [chunk_index * (chunk_size - chunk_overlap)], with the
    file as [source]; without any chunk it returns 0 and leaves the
    collection alone, and otherwise it hands all chunks with fresh
    identifiers to one batch write and returns their number. *)
Theorem ingestion_chunks_come_from_readable_files
        (collection_add :
           list str -> list str -> list ChromaRAG.ChunkMeta
           -> Chroma.Collection ChromaRAG.ChunkMeta
           -> result unit * Chroma.Collection ChromaRAG.ChunkMeta)
        (fuel : nat) (uuid4 : nat -> str) (is_dir : bool)
        (entries : list ChromaRAG.DirEntry) (extensions : list str)
        (chunk_size chunk_overlap : Z)
        (c : Chroma.Collection ChromaRAG.ChunkMeta) :
  let run := ChromaRAG.add_documents_from_directory collection_add fuel
               uuid4 is_dir entries extensions chunk_size chunk_overlap c in
  let step := chunk_size - chunk_overlap in
  (is_dir = false ->
   exists msg, run = Some (Raise (PyException "FileNotFoundError" msg), c))
  /\ (is_dir = true ->
      0 <= chunk_overlap < chunk_size ->
      (forall f text, In f entries -> ChromaRAG.read_text f = Ok text ->
                      (length (strip text) <= fuel)%nat) ->
      exists all,
        ChromaRAG.collect_chunks fuel entries extensions chunk_size
          chunk_overlap = Some all
        /\ (forall ch m, In (ch, m) all ->
              exists f text,
                In f entries
                /\ In (ChromaRAG.suffix_lower f) extensions
                /\ ChromaRAG.read_text f = Ok text
                /\ ChromaRAG.source m = ChromaRAG.file_path f
                /\ 0 <= ChromaRAG.chunk_index m
                /\ ChromaRAG.chunk_index m * step < len (strip text)
                /\ ch = slice (strip text) (ChromaRAG.chunk_index m * step)
                          (ChromaRAG.chunk_index m * step + chunk_size)
                /\ ch <> [])
        /\ (all = [] -> run = Some (Ok 0, c))
        /\ (all <> [] ->
            run = Some
                    match collection_add (map fst all)
                            (map uuid4 (seq 0 (length all))) (map snd all) c
                    with
                    | (Raise e, c') => (Raise e, c')
                    | (Ok _, c') => (Ok (len all), c')
                    end)).
Proof.
  intros run step. unfold run, ChromaRAG.add_documents_from_directory.
  split.
  - intros ->. eexists. reflexivity.
  - intros -> Hv Hfuel. cbn [negb].
    destruct (collect_chunks_spec fuel extensions chunk_size chunk_overlap
                entries Hv Hfuel) as (all & Hall & Hspec).
    exists all. split; [exact Hall|]. split; [exact Hspec|].
    rewrite Hall. split.
    + intros ->. reflexivity.
    + intros Hne. destruct all as [|a all]; [congruence|].
      cbn [map truthy negb]. unfold ChromaRAG.add_documents.
      cbn [truthy negb]. unfold len.
      rewrite !length_map, length_seq. cbn [length].
      rewrite !length_map. rewrite Z.eqb_refl. cbn [negb orb].
      reflexivity.
Qed.

Example ingest_sample_directory :
  ChromaRAG.add_documents_from_directory Samples.batch_add 10
    Samples.uuid4 true Samples.docs_dir [lit ".txt"; lit ".md"] 4 1 []
  = Some (Ok 3,
          [Chroma.mkEntry (lit "id-0") (lit "abcd")
             (ChromaRAG.mkChunkMeta (lit "kb/tea.md") 0);
           Chroma.mkEntry (lit "id-1") (lit "defg")
             (ChromaRAG.mkChunkMeta (lit "kb/tea.md") 1);
           Chroma.mkEntry (lit "id-2") (lit "g")
             (ChromaRAG.mkChunkMeta (lit "kb/tea.md") 2)]).
Proof. reflexivity. Qed.

Lemma ingestion_chunks_come_from_readable_files_witness :
  0 <= 1 < 4
  /\ exists all,
       ChromaRAG.collect_chunks 10 Samples.docs_dir [lit ".txt"; lit ".md"]
         4 1 = Some all
       /\ all <> []
       /\ ChromaRAG.add_documents_from_directory Samples.batch_add 10
            Samples.uuid4 true Samples.docs_dir [lit ".txt"; lit ".md"] 4 1
            []
          = Some
              match Samples.batch_add (map fst all)
                      (map Samples.uuid4 (seq 0 (length all))) (map snd all)
                      [] with
              | (Raise e, c') => (Raise e, c')
              | (Ok _, c') => (Ok (len all), c')
              end.
Proof.
  assert (Hv : 0 <= 1 < 4) by lia.
  split; [exact Hv|].
  destruct (ingestion_chunks_come_from_readable_files Samples.batch_add 10
              Samples.uuid4 true Samples.docs_dir [lit ".txt"; lit ".md"]
              4 1 []) as (_ & Hrun).
  destruct (Hrun eq_refl Hv) as (all & Hall & _ & _ & Hsome).
  { intros f text Hin Hread.
    repeat (destruct Hin as [<- | Hin];
            [simpl in Hread; try discriminate Hread;
             injection Hread as <-; vm_compute; lia|]).
    destruct Hin. }
  exists all. split; [exact Hall|].
  assert (Hne : all <> []).
  { vm_compute in Hall. injection Hall as <-. discriminate. }
  split; [exact Hne | exact (Hsome Hne)].
Defined.

Lemma parsed_facts_are_trimmed_and_delimiter_free_witness :
  In (lit "Maria") (parse_facts (lit "Name: Anna-Maria"))
  /\ strip (lit "Maria") = lit "Maria"
  /\ 3 < len (lit "Maria").
Proof.
  assert (Hin : In (lit "Maria") (parse_facts (lit "Name: Anna-Maria"))).
  { right. left. reflexivity. }
  split; [exact Hin|].
  destruct (parsed_facts_are_trimmed_and_delimiter_free
              (lit "Name: Anna-Maria") (lit "Maria") Hin) as (H1 & H2 & _).
  split; [exact H1 | exact H2].
Defined.

(** ** Two more properties of the scopes *)

(** X21.  An empty [conf_uid], the default of [get_user_profile],
    puts no condition on the character: after any character writes a
    profile for the thread (content not blank, fresh identifier,
    later than every profile of the thread), the read without
    character returns that profile. *)
Theorem profile_read_without_character_crosses_characters
        (doc_id : str) (now : Z) (history_uid writer content : str)
        (st : Store) :
  strip content <> [] ->
  ~ In doc_id (Chroma.ids st) ->
  (forall e, In e (profile_items history_uid [] st) -> ts e < now) ->
  get_user_profile history_uid []
    (snd (DialogueMemory.set_user_profile doc_id now history_uid writer
            content st))
  = strip content.
Proof.
  intros Hc Hfresh Hold.
  rewrite set_user_profile_appends by assumption.
  rewrite get_user_profile_unfold, profile_items_app.
  set (e := Chroma.mkEntry doc_id (strip content)
              (mkMeta ROLE_USER_PROFILE history_uid writer now)).
  assert (Hown : profile_items history_uid [] [e] = [e]).
  { unfold profile_items, Chroma.get. cbn [filter].
    assert (Hw : eval_where (scope_where ROLE_USER_PROFILE history_uid [])
                   (Chroma.metadata e) = true).
    { apply scope_where_iff. simpl. repeat split; congruence. }
    now rewrite Hw. }
  rewrite Hown.
  destruct (sort_desc_head (profile_items history_uid [] st) [] e)
    as (rest & ->); [exact Hold | intros x [] |].
  simpl. apply strip_idem.
Qed.

Lemma profile_read_without_character_crosses_characters_witness :
  strip (lit "Name: Masha") <> []
  /\ ~ In (lit "id-9") (Chroma.ids Samples.mixed)
  /\ get_user_profile (lit "h") []
       (snd (DialogueMemory.set_user_profile (lit "id-9") 900 (lit "h")
               (lit "other-character") (lit "Name: Masha") Samples.mixed))
     = strip (lit "Name: Masha").
Proof.
  assert (H1 : strip (lit "Name: Masha") <> [])
    by (vm_compute; discriminate).
  assert (H2 : ~ In (lit "id-9") (Chroma.ids Samples.mixed))
    by (apply str_in_false; reflexivity).
  split; [exact H1|]. split; [exact H2|].
  apply (profile_read_without_character_crosses_characters (lit "id-9") 900
           (lit "h") (lit "other-character") (lit "Name: Masha")
           Samples.mixed H1 H2).
  intros e He. vm_compute in He. destruct He as [<-|[]].
  vm_compute. reflexivity.
Defined.

(** X22.  With an exclusion set that is not empty, the retention
    sweep protects exactly the roles listed: on a store with unique
    identifiers, when the cutoff is computed, every item whose
    timestamp is below it (of the given thread, when one is given)
    and whose role is not listed is removed, also a [fact] or a
    [user_profile]; and every item whose role is listed stays,
    whether the cutoff is computed or the call raises. *)
Theorem explicit_exclusion_replaces_the_default
        (stamp : Z -> result Z) (now days : Z)
        (history_uid : option str) (exclude : list str) (st : Store) :
  Chroma.wf st -> exclude <> [] ->
  let st' := snd (delete_older_than_days stamp now days history_uid
                    (Some exclude) st) in
  (forall cutoff, cutoff_time stamp now days = Ok cutoff ->
   forall e, In e st ->
     md_timestamp (Chroma.metadata e) < cutoff ->
     (opt_truthy history_uid = true ->
      md_history_uid (Chroma.metadata e) = opt_get history_uid) ->
     ~ In (md_role (Chroma.metadata e)) exclude ->
     ~ In e st')
  /\ (forall e, In e st -> In (md_role (Chroma.metadata e)) exclude ->
                In e st').
Proof.
  intros Hwf Hne st'. unfold st'.
  assert (Hex : (if opt_truthy (Some exclude) then opt_get (Some exclude)
                 else PERSISTENT_ROLES) = exclude).
  { destruct exclude; [congruence | reflexivity]. }
  split.
  - intros cutoff Hcut e He Hts Hh Hr Hin.
    assert (Hspec := sweep_spec stamp now days history_uid (Some exclude)
                       st cutoff Hwf Hcut).
    cbv zeta in Hspec. rewrite Hex in Hspec. rewrite Hspec in Hin.
    simpl snd in Hin. apply filter_In in Hin.
    destruct Hin as [_ Hin]. apply negb_true_iff in Hin.
    assert (Hexp : expired cutoff history_uid exclude e = true).
    { apply expired_iff. auto. }
    congruence.
  - intros e He Hr.
    apply (sweep_keeps stamp now days history_uid (Some exclude) st Hwf);
      [exact He|].
    rewrite Hex. exact Hr.
Qed.

Lemma explicit_exclusion_replaces_the_default_witness :
  Chroma.wf Samples.mixed
  /\ [ROLE_SUMMARY] <> []
  /\ cutoff_time Samples.utc_stamp (Samples.at_second 101) 0 = Ok 101
  /\ ~ In (Samples.item "id-3" "Likes tea" ROLE_FACT "h" "c" 100)
       (snd (delete_older_than_days Samples.utc_stamp
               (Samples.at_second 101) 0 None (Some [ROLE_SUMMARY])
               Samples.mixed))
  /\ In (Samples.item "id-4" "talked about tea" ROLE_SUMMARY "h" "c" 100)
       (snd (delete_older_than_days Samples.utc_stamp
               (Samples.at_second 101) 0 None (Some [ROLE_SUMMARY])
               Samples.mixed)).
Proof.
  assert (Hwf : Chroma.wf Samples.mixed) by solve_wf.
  assert (Hne : [ROLE_SUMMARY] <> []) by discriminate.
  assert (Hcut : cutoff_time Samples.utc_stamp (Samples.at_second 101) 0
                 = Ok 101) by reflexivity.
  destruct (explicit_exclusion_replaces_the_default Samples.utc_stamp
              (Samples.at_second 101) 0 None
              [ROLE_SUMMARY] Samples.mixed Hwf Hne) as (Hgone & Hkept).
  split; [exact Hwf|]. split; [exact Hne|]. split; [exact Hcut|]. split.
  - apply (Hgone 101 Hcut).
    + right; right; left; reflexivity.
    + simpl. lia.
    + discriminate.
    + apply str_in_false. reflexivity.
  - apply Hkept.
    + right; right; right; left; reflexivity.
    + left. reflexivity.
Defined.
